(** * DeepPlan: the plan quality assessment and self-repair engine

    A shallow embedding of [deepplan.py] (schema migration, the QA rubric,
    the placeholder repair and the assess/repair orchestration of the
    [plan] and [replan] commands), with the properties its specification
    states about them.

    The plan document is the Python [dict] that [json.loads] returns: a
    finite map from string keys to JSON values.  Functions that mutate the
    dict in place and return it are functions from the old map to the new
    one; an expression that raises makes the function return [None]. *)

From stdpp Require Import gmap strings pretty list fin_maps.
From Stdlib Require Import Ascii ZArith QArith Lia.
From Stdlib Require PrimFloat Uint63.

Local Set Warnings "-register-all,-inexact-float".
Local Open Scope string_scope.
Local Open Scope Z_scope.

(** ** JSON values as Python sees them *)

(** A Python [float]: [json.loads] also accepts [NaN] and [Infinity]; a
    finite value is [m * 2^e]. *)
Inductive pyfloat :=
| FNan
| FInf (neg : bool)
| FFin (m e : Z).

Inductive json :=
| JNull
| JBool (b : bool)
| JInt (z : Z)
| JFloat (f : pyfloat)
| JStr (s : string)
| JList (l : list json)
| JObj (m : gmap string json).

(** [str.isspace] on the code points below 256 (a character of a modelled
    string is one code point of the Latin-1 range). *)
Definition py_isspace (c : ascii) : bool :=
  let n := N.to_nat (N_of_ascii c) in
  ((9 <=? n) && (n <=? 13) || (28 <=? n) && (n <=? 32) || (n =? 133) || (n =? 160))%nat.

Fixpoint lstrip (s : string) : string :=
  match s with
  | EmptyString => EmptyString
  | String c s' => if py_isspace c then lstrip s' else s
  end.

Fixpoint rstrip (s : string) : string :=
  match s with
  | EmptyString => EmptyString
  | String c s' =>
      match rstrip s' with
      | EmptyString => if py_isspace c then EmptyString else String c EmptyString
      | r => String c r
      end
  end.

(** [s.strip()] *)
Definition strip (s : string) : string := rstrip (lstrip s).

(** [len(v)]: defined on strings, lists and dicts, [TypeError] otherwise. *)
Definition py_len (v : json) : option Z :=
  match v with
  | JStr s => Some (Z.of_nat (String.length s))
  | JList l => Some (Z.of_nat (length l))
  | JObj m => Some (Z.of_nat (size m))
  | _ => None
  end.

(** Truth value of [v], as [not v] and [if v] test it. *)
Definition py_truthy (v : json) : bool :=
  match v with
  | JNull => false
  | JBool b => b
  | JInt z => negb (z =? 0)
  | JFloat (FFin m _) => negb (m =? 0)
  | JFloat _ => true
  | JStr s => negb (String.eqb s "")
  | JList l => negb (Nat.eqb (length l) 0)
  | JObj m => negb (Nat.eqb (size m) 0)
  end.

(** [v[:n]] and [v[n:]] for [0 <= n]: slices of a list or a string; a dict
    raises. *)
Definition py_slice_to (v : json) (n : Z) : option json :=
  match v with
  | JList l => Some (JList (take (Z.to_nat n) l))
  | JStr s => Some (JStr (String.substring 0 (Z.to_nat n) s))
  | _ => None
  end.

Definition py_slice_from (v : json) (n : Z) : option json :=
  match v with
  | JList l => Some (JList (drop (Z.to_nat n) l))
  | JStr s => Some (JStr (String.substring (Z.to_nat n) (String.length s - Z.to_nat n) s))
  | _ => None
  end.

(** [k in plan], [plan.get(k)], [plan.get(k, d)], [plan.setdefault(k, d)]. *)
Definition py_in (k : string) (plan : gmap string json) : bool :=
  match plan !! k with Some _ => true | None => false end.

Definition py_get (plan : gmap string json) (k : string) : json :=
  default JNull (plan !! k).

Definition py_get_or (plan : gmap string json) (k : string) (d : json) : json :=
  default d (plan !! k).

Definition setdefault (k : string) (d : json) (plan : gmap string json)
  : gmap string json :=
  match plan !! k with
  | Some _ => plan
  | None => <[k := d]> plan
  end.

(** ** PlanStore: defaults and migration *)

Definition SCHEMA_VERSION : string := "0.3.0".

(** The key/default table of [migrate_plan] (and the literal of
    [default_plan]); [now] is the value of [now_iso()]. *)
Definition plan_defaults (now : string) : list (string * json) :=
  [ ("version", JStr SCHEMA_VERSION);
    ("updated_at", JStr now);
    ("goal", JStr "");
    ("success_metric", JStr "");
    ("deadline", JStr "");
    ("constraints", JList []);
    ("assumptions", JList []);
    ("options", JList []);
    ("selected_option", JStr "");
    ("plan_tasks", JList []);
    ("execution_tasks", JList []);
    ("dependencies", JList []);
    ("experiments", JList []);
    ("risks", JList []);
    ("references", JList []);
    ("insights", JList []);
    ("direction_insights", JList []);
    ("market_insights", JList []);
    ("timing_insights", JList []);
    ("differentiation_insights", JList []);
    ("monetization_insights", JList []);
    ("constraint_insights", JList []);
    ("risk_signal_insights", JList []);
    ("evolution_insights", JList []);
    ("definition_of_done", JList []);
    ("evidence", JList []) ].

Definition default_plan (now : string) : gmap string json :=
  list_to_map (plan_defaults now).

(** The legacy split of [migrate_plan]: taken when [tasks] is a key and
    neither task list is. *)
Definition split_legacy_tasks (plan : gmap string json)
  : option (gmap string json) :=
  if py_in "tasks" plan
     && (negb (py_in "plan_tasks" plan) && negb (py_in "execution_tasks" plan))
  then
    let tasks := py_get_or plan "tasks" (JList []) in
    n ← py_len tasks;
    let split := n `div` 2 in
    first_half ← py_slice_to tasks split;
    let plan := <["plan_tasks" := first_half]> plan in
    second_half ← py_slice_from tasks split;
    Some (<["execution_tasks" := second_half]> plan)
  else Some plan.

Definition fill_defaults (now : string) (plan : gmap string json)
  : gmap string json :=
  foldl (λ p kd, setdefault kd.1 kd.2 p) plan (plan_defaults now).

Definition migrate_plan (now : string) (plan : gmap string json)
  : option (gmap string json) :=
  plan ← split_legacy_tasks plan;
  let plan := delete "tasks" plan in
  let plan := fill_defaults now plan in
  Some (<["version" := JStr SCHEMA_VERSION]> plan).

(** [save_plan] stamps the document before it is written out. *)
Definition save_plan (now : string) (plan : gmap string json)
  : gmap string json :=
  <["updated_at" := JStr now]> plan.

(** ** QAEngine *)

Definition non_empty (v : json) : bool :=
  match v with
  | JNull => false
  | JStr s => negb (String.eqb (strip s) "")
  | JList l => 0 <? Z.of_nat (length l)
  | JObj m => 0 <? Z.of_nat (size m)
  | _ => true
  end.

(** The quotient [p / total] is a Python float.  List lengths are far below
    2^50, where the correctly rounded quotient compares with the rounded
    literals 0.4 and 0.6 exactly as the rational quotient compares with
    4/10 and 6/10; the model compares the rationals. *)
Definition task_balance_ok (plan : gmap string json) : option bool :=
  p ← py_len (py_get_or plan "plan_tasks" (JList []));
  e ← py_len (py_get_or plan "execution_tasks" (JList []));
  let total := p + e in
  if (total <? 4) || (p =? 0) || (e =? 0) then Some false
  else
    let ratio := Qmake p (Z.to_pos total) in
    Some (Qle_bool (4 # 10) ratio && Qle_bool ratio (6 # 10)).

(** The literals [0.4] and [0.6] as Python reads them: the nearest binary64
    values. *)
Module Binary64.
Import PrimFloat.
Definition lower_bound : float := 0.4%float.
Definition upper_bound : float := 0.6%float.
End Binary64.

(** [float(n)] for a length [n], exact below 2^53. *)
Definition float_of_len (n : Z) : PrimFloat.float :=
  PrimFloat.of_uint63 (Uint63.of_Z n).

(** [task_balance_ok] with the quotient and the two comparisons evaluated
    in binary64, as CPython evaluates them. *)
Definition task_balance_ok_binary64 (plan : gmap string json) : option bool :=
  p ← py_len (py_get_or plan "plan_tasks" (JList []));
  e ← py_len (py_get_or plan "execution_tasks" (JList []));
  let total := p + e in
  if (total <? 4) || (p =? 0) || (e =? 0) then Some false
  else
    let ratio := PrimFloat.div (float_of_len p) (float_of_len total) in
    Some (PrimFloat.leb Binary64.lower_bound ratio
          && PrimFloat.leb ratio Binary64.upper_bound).

Definition insight_axes : list string :=
  [ "direction_insights"; "market_insights"; "timing_insights";
    "differentiation_insights"; "monetization_insights";
    "constraint_insights"; "risk_signal_insights"; "evolution_insights" ].

Definition insight_axes_covered (plan : gmap string json) : bool :=
  forallb (λ k, non_empty (py_get plan k)) insight_axes.

Record CheckResult := mkCheck {
  name : string;
  passed : bool;
  detail : string;
  weight : Z;
  critical : bool
}.

(** One turn of the scoring loop of [run_qa]. *)
Definition qa_step (acc : Z * bool) (c : CheckResult) : Z * bool :=
  let score := if passed c then acc.1 + weight c else acc.1 in
  let critical_failure :=
    if critical c && negb (passed c) then true else acc.2 in
  (score, critical_failure).

(** The twelve checks that [run_qa] appends, in order; [n_options],
    [n_references] and [balance] are the values of
    [len(plan.get("options", []))], [len(plan.get("references", []))] and
    [task_balance_ok(plan)]. *)
Definition rubric (plan : gmap string json) (n_options n_references : Z)
    (balance : bool) : list CheckResult :=
  [ mkCheck "goal_clarity" (non_empty (py_get plan "goal"))
      "Goal is present and outcome-oriented." 10 true;
    mkCheck "measurability"
      (non_empty (py_get plan "success_metric")
       && non_empty (py_get plan "deadline"))
      "Success metric and deadline are both defined." 10 true;
    mkCheck "constraints" (non_empty (py_get plan "constraints"))
      "Constraints are explicitly listed." 8 false;
    mkCheck "assumptions" (non_empty (py_get plan "assumptions"))
      "Core assumptions are extracted." 8 false;
    mkCheck "options_comparison"
      ((2 <=? n_options) && non_empty (py_get plan "selected_option"))
      "At least two options and one selected option exist." 8 false;
    mkCheck "references_coverage" (3 <=? n_references)
      "Plan includes at least three references (docs, cases, benchmarks)."
      10 false;
    mkCheck "insight_axes_coverage" (insight_axes_covered plan)
      "Eight long-horizon insight axes are all covered." 10 false;
    mkCheck "plan_execution_balance" balance
      "Plan/Execution task split is balanced near 50:50 (40-60% range)."
      10 true;
    mkCheck "verification_loop" (non_empty (py_get plan "experiments"))
      "Validation experiments exist for key assumptions." 8 false;
    mkCheck "risk_coverage" (non_empty (py_get plan "risks"))
      "Top risks include early signals and mitigations." 8 false;
    mkCheck "dependencies" (non_empty (py_get plan "dependencies"))
      "External dependencies/blockers are documented." 5 false;
    mkCheck "definition_of_done"
      (non_empty (py_get plan "definition_of_done"))
      "Definition of done exists." 5 true ].

Definition run_qa (plan : gmap string json)
  : option (Z * list CheckResult * bool) :=
  n_options ← py_len (py_get_or plan "options" (JList []));
  n_references ← py_len (py_get_or plan "references" (JList []));
  balance ← task_balance_ok plan;
  let checks := rubric plan n_options n_references balance in
  let result := foldl qa_step (0, false) checks in
  Some (result.1, checks, result.2).

(** The verdict line of [print_qa]. *)
Inductive Disposition := CRITICAL_FAILURE | NEEDS_REPLAN | PASS.

Definition disposition (score : Z) (critical_failure : bool) : Disposition :=
  if critical_failure then CRITICAL_FAILURE
  else if score <? 70 then NEEDS_REPLAN
  else PASS.

(** What [print_qa] writes, line by line. *)
Definition check_line (c : CheckResult) : string :=
  "- " +:+ (if passed c then "PASS" else "FAIL") +:+ " " +:+ name c
  +:+ (if critical c then " [CRITICAL]" else "") +:+ ": " +:+ detail c.

Definition verdict_line (d : Disposition) : string :=
  match d with
  | CRITICAL_FAILURE => "Result: CRITICAL_FAILURE"
  | NEEDS_REPLAN => "Result: NEEDS_REPLAN (score < 70)"
  | PASS => "Result: PASS"
  end.

Definition print_qa (score : Z) (checks : list CheckResult)
    (critical_failure : bool) : list string :=
  ("QA score: " +:+ pretty score +:+ "/100")
  :: map check_line checks
  ++ [verdict_line (disposition score critical_failure)].

(** ** ReplanEngine *)

(** [if not plan.get(key): plan[key] = v] *)
Definition fill_falsy (key : string) (v : json) (plan : gmap string json)
  : gmap string json :=
  if negb (py_truthy (py_get plan key)) then <[key := v]> plan else plan.

(** [if check in failed and not plan.get(key): plan[key] = v] *)
Definition fill_failed (failed : list string) (check key : string) (v : json)
    (plan : gmap string json) : gmap string json :=
  if bool_decide (check ∈ failed) then fill_falsy key v plan else plan.

(** [if check in failed and len(plan.get(key, [])) < n: plan[key] = v] *)
Definition fill_short (failed : list string) (check key : string) (n : Z)
    (v : json) (plan : gmap string json) : option (gmap string json) :=
  if bool_decide (check ∈ failed) then
    len ← py_len (py_get_or plan key (JList []));
    Some (if len <? n then <[key := v]> plan else plan)
  else Some plan.

Definition repair_options (failed : list string) (plan : gmap string json)
  : option (gmap string json) :=
  if bool_decide ("options_comparison" ∈ failed) then
    len ← py_len (py_get_or plan "options" (JList []));
    if len <? 2 then
      let plan :=
        <["options" :=
            JList [ JStr "Conservative option: narrow scope and faster delivery.";
                    JStr "Balanced option: medium scope with staged rollout.";
                    JStr "Aggressive option: broad scope with higher risk." ]]>
          plan in
      Some (fill_falsy "selected_option"
              (JStr "Balanced option: medium scope with staged rollout.") plan)
    else Some plan
  else Some plan.

Definition repair_axes (failed : list string) (plan : gmap string json)
  : gmap string json :=
  if bool_decide ("insight_axes_coverage" ∈ failed) then
    let plan := fill_falsy "direction_insights"
      (JList [JStr "State why this initiative matters now and what outcome it must create."]) plan in
    let plan := fill_falsy "market_insights"
      (JList [JStr "Identify the highest-pain user segment and current alternatives."]) plan in
    let plan := fill_falsy "timing_insights"
      (JList [JStr "Define why this timing is favorable now and what delay would cost."]) plan in
    let plan := fill_falsy "differentiation_insights"
      (JList [JStr "Describe one clear strategic difference versus existing options."]) plan in
    let plan := fill_falsy "monetization_insights"
      (JList [JStr "Link user value to a concrete monetization path."]) plan in
    let plan := fill_falsy "constraint_insights"
      (JList [JStr "List execution constraints and the intended workaround strategy."]) plan in
    let plan := fill_falsy "risk_signal_insights"
      (JList [JStr "Define one early failure signal and the immediate response."]) plan in
    fill_falsy "evolution_insights"
      (JList [JStr "Define how the plan will be revised on a weekly or monthly cadence."]) plan
  else plan.

(** [if len(plan.get(key, [])) == 0: plan[key] = v] *)
Definition fill_no_tasks (key : string) (v : json) (plan : gmap string json)
  : option (gmap string json) :=
  len ← py_len (py_get_or plan key (JList []));
  Some (if len =? 0 then <[key := v]> plan else plan).

Definition repair_balance (failed : list string) (plan : gmap string json)
  : option (gmap string json) :=
  if bool_decide ("plan_execution_balance" ∈ failed) then
    plan ← fill_no_tasks "plan_tasks"
      (JList [ JStr "Collect references and extract constraints.";
               JStr "Generate and compare three strategy options." ]) plan;
    fill_no_tasks "execution_tasks"
      (JList [ JStr "Implement minimal CLI flow for plan/qa/replan.";
               JStr "Run pilot and collect evidence against success metric." ]) plan
  else Some plan.

Definition scope_drift_risk : json :=
  JObj (<["risk" := JStr "Scope drift"]>
       (<["signal" := JStr "New requirements added mid-cycle"]>
       (<["mitigation" := JStr "Freeze sprint scope and defer extras"]> ∅))).

Definition failed_names (checks : list CheckResult) : list string :=
  map name (filter (λ c, negb (passed c) = true) checks).

Definition auto_replan_stub (plan : gmap string json)
    (checks : list CheckResult) : option (gmap string json) :=
  let failed := failed_names checks in
  let plan := fill_failed failed "constraints" "constraints"
    (JList [JStr "Define practical limits for time, budget, and staffing."]) plan in
  let plan := fill_failed failed "assumptions" "assumptions"
    (JList [JStr "Key assumptions need explicit validation."]) plan in
  plan ← repair_options failed plan;
  plan ← fill_short failed "references_coverage" "references" 3
    (JList [ JStr "Spec-driven planning examples";
             JStr "Agent workflow docs";
             JStr "Postmortem of failed planning cases" ]) plan;
  plan ← fill_short failed "insight_axes_coverage" "insights" 3
    (JList [ JStr "Treat planning as first-class work, not overhead.";
             JStr "Require evidence links for every critical decision.";
             JStr "Replan from execution signals, not intuition." ]) plan;
  let plan := repair_axes failed plan in
  plan ← repair_balance failed plan;
  let plan := fill_failed failed "verification_loop" "experiments"
    (JList [JStr "Run one pilot iteration and compare against success metric."]) plan in
  let plan := fill_failed failed "risk_coverage" "risks"
    (JList [scope_drift_risk]) plan in
  let plan := fill_failed failed "dependencies" "dependencies"
    (JList [JStr "Agent runtime support (Codex/Claude Code)"]) plan in
  let plan := fill_failed failed "definition_of_done" "definition_of_done"
    (JList [JStr "All core commands work and QA >= 70."]) plan in
  Some plan.

(** ** AssessmentOrchestrator

    [cmd_plan] and [cmd_replan] end with the same statements: assess the
    saved document, print the report and, on a score below 70 without a
    critical failure, repair, save, assess again and print again.  The
    trace lists the calls in the order they are made. *)
Inductive event :=
| Assessed (score : Z) (checks : list CheckResult) (critical_failure : bool)
| Printed (lines : list string)
| Repaired (failed : list string)
| Saved (plan : gmap string json).

Definition qa_auto_replan (now : string) (plan : gmap string json)
  : option (gmap string json * list event) :=
  '(score, checks, critical_failure) ← run_qa plan;
  let report := Printed (print_qa score checks critical_failure) in
  if negb critical_failure && (score <? 70) then
    plan ← auto_replan_stub plan checks;
    let plan := save_plan now plan in
    '(score2, checks2, critical_failure2) ← run_qa plan;
    Some (plan,
          [ Assessed score checks critical_failure;
            report;
            Printed ["Auto replan triggered."];
            Repaired (failed_names checks);
            Saved plan;
            Assessed score2 checks2 critical_failure2;
            Printed ["Post-replan QA:"];
            Printed (print_qa score2 checks2 critical_failure2) ])
  else Some (plan, [Assessed score checks critical_failure; report]).

Definition is_repair (e : event) : bool :=
  match e with Repaired _ => true | _ => false end.

Definition is_assessment (e : event) : bool :=
  match e with Assessed _ _ _ => true | _ => false end.

(** ** Well-formed plan documents

    The field types of the data model: a key that is present holds a value
    of its type; any key may be missing. *)
Inductive field_type := TString | TStrings | TRisks.

Definition plan_schema : list (string * field_type) :=
  [ ("version", TString); ("updated_at", TString); ("goal", TString);
    ("success_metric", TString); ("deadline", TString);
    ("selected_option", TString);
    ("constraints", TStrings); ("assumptions", TStrings);
    ("options", TStrings); ("plan_tasks", TStrings);
    ("execution_tasks", TStrings); ("dependencies", TStrings);
    ("experiments", TStrings); ("references", TStrings);
    ("insights", TStrings); ("definition_of_done", TStrings);
    ("evidence", TStrings);
    ("direction_insights", TStrings); ("market_insights", TStrings);
    ("timing_insights", TStrings); ("differentiation_insights", TStrings);
    ("monetization_insights", TStrings); ("constraint_insights", TStrings);
    ("risk_signal_insights", TStrings); ("evolution_insights", TStrings);
    ("risks", TRisks) ].

Definition is_str (v : json) : bool :=
  match v with JStr _ => true | _ => false end.

Definition is_risk (v : json) : bool :=
  match v with
  | JObj m =>
      is_str (py_get m "risk") && is_str (py_get m "signal")
      && is_str (py_get m "mitigation")
  | _ => false
  end.

Definition has_type (t : field_type) (v : json) : bool :=
  match t, v with
  | TString, JStr _ => true
  | TStrings, JList l => forallb is_str l
  | TRisks, JList l => forallb is_risk l
  | _, _ => false
  end.

Definition field_ok (plan : gmap string json) (f : string * field_type)
  : bool :=
  match plan !! f.1 with
  | Some v => has_type f.2 v
  | None => true
  end.

Definition well_formed (plan : gmap string json) : bool :=
  forallb (field_ok plan) plan_schema.

(** ** Notions used by the statements *)

Definition weight_sum (checks : list CheckResult) : Z :=
  foldr (λ c acc, weight c + acc) 0 checks.

Definition passed_checks (checks : list CheckResult) : list CheckResult :=
  filter (λ c, passed c = true) checks.

Definition rubric_weights : list Z := [10; 10; 8; 8; 8; 10; 10; 10; 8; 8; 5; 5].

(** The entries of a list field; a missing key reads as the empty list. *)
Definition entries (plan : gmap string json) (k : string) : list json :=
  match plan !! k with
  | Some (JList l) => l
  | _ => []
  end.

Definition strs (l : list string) : json := JList (map JStr l).

(** Sample documents: the scenario of the specification (only the four
    critical checks pass), a document that passes every check, and that
    document with a blank goal. *)
Definition sample_plan : gmap string json :=
  <["goal" := JStr "Ship the planner"]>
  (<["success_metric" := JStr "Three users adopt it"]>
  (<["deadline" := JStr "2026-12-01"]>
  (<["definition_of_done" := strs ["Report is published."]]>
  (<["plan_tasks" := strs ["Scope"; "Design"]]>
  (<["execution_tasks" := strs ["Build"; "Test"; "Release"]]>
     (default_plan "2026-11-01T00:00:00+00:00")))))).

Definition complete_plan : gmap string json :=
  <["constraints" := strs ["One hour a day"]]>
  (<["assumptions" := strs ["Users want it"]]>
  (<["options" := strs ["Small"; "Large"]]>
  (<["selected_option" := JStr "Small"]>
  (<["references" := strs ["Doc"; "Case"; "Benchmark"]]>
  (<["direction_insights" := strs ["d"]]>
  (<["market_insights" := strs ["m"]]>
  (<["timing_insights" := strs ["t"]]>
  (<["differentiation_insights" := strs ["f"]]>
  (<["monetization_insights" := strs ["p"]]>
  (<["constraint_insights" := strs ["c"]]>
  (<["risk_signal_insights" := strs ["r"]]>
  (<["evolution_insights" := strs ["e"]]>
  (<["experiments" := strs ["Pilot"]]>
  (<["risks" := JList [scope_drift_risk]]>
  (<["dependencies" := strs ["Runtime"]]> sample_plan))))))))))))))).

Definition blank_goal_plan : gmap string json :=
  <["goal" := JStr "   "]> complete_plan.

(** The sample document with one plan task and four execution tasks. *)
Definition one_four_plan : gmap string json :=
  <["plan_tasks" := strs ["Scope"]]>
  (<["execution_tasks" := strs ["Build"; "Test"; "Release"; "Measure"]]>
     sample_plan).

(** [v] may be stored under [k]: it has the type of every schema entry
    for [k]. *)
Definition type_ok (k : string) (v : json) : bool :=
  forallb (λ f, if String.eqb f.1 k then has_type f.2 v else true)
    plan_schema.

(** The calls of the two engines in a trace, in order, and the number of
    repairs among them. *)
Definition engine_calls (trace : list event) : list event :=
  List.filter (λ e, is_repair e || is_assessment e) trace.

Definition repairs (trace : list event) : nat :=
  length (List.filter is_repair trace).

(** [v] has fewer than [n] entries. *)
Definition short (n : Z) (v : json) : Prop :=
  ∃ len, py_len v = Some len ∧ len < n.

(** The values that the repair replaces: an empty (falsy) value under any
    key, and a list below the threshold of its check under [options],
    [references] and [insights]. *)
Definition replaceable (k : string) (v : json) : Prop :=
  py_truthy v = false
  ∨ (k = "options" ∧ short 2 v)
  ∨ (k = "references" ∧ short 3 v)
  ∨ (k = "insights" ∧ short 3 v).

(** [plan'] differs from [plan] only under keys of [keys], only where the
    old value was replaceable, and the key is still there. *)
Definition rewrites (keys : list string) (plan plan' : gmap string json)
  : Prop :=
  ∀ k, plan' !! k = plan !! k
       ∨ (k ∈ keys ∧ replaceable k (py_get plan k) ∧ is_Some (plan' !! k)).

Definition three_options : json :=
  JList [ JStr "Conservative option: narrow scope and faster delivery.";
          JStr "Balanced option: medium scope with staged rollout.";
          JStr "Aggressive option: broad scope with higher risk." ].

(** The keys that [auto_replan_stub] assigns before and after its
    [options_comparison] statement. *)
Definition keys_before_options : list string := ["constraints"; "assumptions"].

Definition keys_after_options : list string :=
  [ "references"; "insights" ] ++ insight_axes
  ++ [ "plan_tasks"; "execution_tasks"; "experiments"; "risks";
       "dependencies"; "definition_of_done" ].


(** The sample document with two options and no selection. *)
Definition unselected_plan : gmap string json :=
  <["options" := strs ["Small"; "Large"]]> sample_plan.


Definition repair_inserts_two_options : Prop :=
  ∀ plan score checks critical_failure plan',
    run_qa plan = Some (score, checks, critical_failure) →
    "options_comparison" ∈ failed_names checks →
    auto_replan_stub plan checks = Some plan' →
    length (entries plan' "options")
    = (length (entries plan "options") + 2)%nat
    ∧ non_empty (py_get plan' "selected_option") = true.

(** The binary64 and the exact evaluation of the balance test give the
    same answer at the lengths [p] and [e]; and at all lengths below
    [bound]. *)
Definition balance_tests_agree (p e : nat) : bool :=
  let p := Z.of_nat p in
  let e := Z.of_nat e in
  let total := p + e in
  Bool.eqb
    (let ratio := PrimFloat.div (float_of_len p) (float_of_len total) in
     PrimFloat.leb Binary64.lower_bound ratio
     && PrimFloat.leb ratio Binary64.upper_bound)
    (let ratio := Qmake p (Z.to_pos total) in
     Qle_bool (4 # 10) ratio && Qle_bool ratio (6 # 10)).

Definition binary64_agrees_below (bound : nat) : bool :=
  forallb (λ p, forallb (balance_tests_agree p) (seq 0 bound)) (seq 0 bound).

(** The legacy split is due: [tasks] is a key and neither task list is. *)
Definition split_applies (plan : gmap string json) : Prop :=
  is_Some (plan !! "tasks")
  ∧ plan !! "plan_tasks" = None ∧ plan !! "execution_tasks" = None.

(** The statement of the specification about the migration, as it words
    it: apart from a [tasks] that is split, every existing value stays. *)
Definition migration_alters_nothing : Prop :=
  ∀ now plan plan' k v,
    migrate_plan now plan = Some plan' →
    plan !! k = Some v →
    ¬ (k = "tasks" ∧ split_applies plan) →
    plan' !! k = Some v.

(** A document of an older schema that already has [plan_tasks], and one
    that has only the legacy list. *)
Definition mixed_legacy_plan : gmap string json :=
  <["version" := JStr "0.2.0"]>
  (<["tasks" := strs ["Draft"; "Review"]]>
  (<["plan_tasks" := strs ["Scope"]]> ∅)).

Definition legacy_plan : gmap string json :=
  <["tasks" := strs ["Draft"; "Review"; "Ship"]]> ∅.

(** ** Comma-separated flags *)

(** [v.split(",")]: the pieces between the commas, empty pieces kept. *)
Fixpoint split_comma (v : string) : list string :=
  match v with
  | EmptyString => [EmptyString]
  | String c v' =>
      if Ascii.eqb c "," then EmptyString :: split_comma v'
      else match split_comma v' with
           | x :: xs => String c x :: xs
           | [] => [String c EmptyString]
           end
  end.

(** [[x.strip() for x in v.split(",") if x.strip()]] *)
Definition parse_csv (v : string) : list string :=
  map strip
    (List.filter (λ x, negb (String.eqb (strip x) "")) (split_comma v)).

(** [", ".join(xs)] *)
Fixpoint join_comma_space (xs : list string) : string :=
  match xs with
  | [] => ""
  | [x] => x
  | x :: xs' => x +:+ ", " +:+ join_comma_space xs'
  end.

(** The characters of a string, and the strings that [parse_csv] returns
    as they are: trimmed, not empty, without a comma. *)
Definition chars (s : string) : list ascii := String.list_ascii_of_string s.

Definition is_token (x : string) : Prop :=
  strip x = x ∧ x ≠ "" ∧ ("," : ascii) ∉ chars x.

(** The keys that the assessment reads, and those it takes the length
    of. *)
Definition qa_keys : list string :=
  [ "goal"; "success_metric"; "deadline"; "constraints"; "assumptions";
    "options"; "selected_option"; "references" ] ++ insight_axes
  ++ [ "plan_tasks"; "execution_tasks"; "experiments"; "risks";
       "dependencies"; "definition_of_done" ].

Definition len_keys : list string :=
  [ "options"; "references"; "plan_tasks"; "execution_tasks" ].

(** Two documents read the same to the assessment. *)
Definition qa_equivalent (plan1 plan2 : gmap string json) : Prop :=
  (∀ k, k ∈ qa_keys →
        non_empty (py_get plan1 k) = non_empty (py_get plan2 k))
  ∧ (∀ k, k ∈ len_keys →
          py_len (py_get_or plan1 k (JList []))
          = py_len (py_get_or plan2 k (JList []))).

(** ** The repair as a list of statements

    Each statement of [auto_replan_stub] with the keys it assigns.  The
    guarded assignments of one placeholder are tabulated as (check, key,
    placeholder). *)
Definition first_repairs : list (string * string * json) :=
  [ ("constraints", "constraints",
     JList [JStr "Define practical limits for time, budget, and staffing."]);
    ("assumptions", "assumptions",
     JList [JStr "Key assumptions need explicit validation."]) ].

Definition axis_repairs : list (string * string * json) :=
  [ ("insight_axes_coverage", "direction_insights",
     JList [JStr "State why this initiative matters now and what outcome it must create."]);
    ("insight_axes_coverage", "market_insights",
     JList [JStr "Identify the highest-pain user segment and current alternatives."]);
    ("insight_axes_coverage", "timing_insights",
     JList [JStr "Define why this timing is favorable now and what delay would cost."]);
    ("insight_axes_coverage", "differentiation_insights",
     JList [JStr "Describe one clear strategic difference versus existing options."]);
    ("insight_axes_coverage", "monetization_insights",
     JList [JStr "Link user value to a concrete monetization path."]);
    ("insight_axes_coverage", "constraint_insights",
     JList [JStr "List execution constraints and the intended workaround strategy."]);
    ("insight_axes_coverage", "risk_signal_insights",
     JList [JStr "Define one early failure signal and the immediate response."]);
    ("insight_axes_coverage", "evolution_insights",
     JList [JStr "Define how the plan will be revised on a weekly or monthly cadence."]) ].

Definition last_repairs : list (string * string * json) :=
  [ ("verification_loop", "experiments",
     JList [JStr "Run one pilot iteration and compare against success metric."]);
    ("risk_coverage", "risks", JList [scope_drift_risk]);
    ("dependencies", "dependencies",
     JList [JStr "Agent runtime support (Codex/Claude Code)"]);
    ("definition_of_done", "definition_of_done",
     JList [JStr "All core commands work and QA >= 70."]) ].

Definition simple_repairs : list (string * string * json) :=
  first_repairs ++ axis_repairs ++ last_repairs.

Definition three_references : json :=
  JList [ JStr "Spec-driven planning examples";
          JStr "Agent workflow docs";
          JStr "Postmortem of failed planning cases" ].

Definition three_insights : json :=
  JList [ JStr "Treat planning as first-class work, not overhead.";
          JStr "Require evidence links for every critical decision.";
          JStr "Replan from execution signals, not intuition." ].

Definition two_plan_tasks : json :=
  JList [ JStr "Collect references and extract constraints.";
          JStr "Generate and compare three strategy options." ].

Definition two_execution_tasks : json :=
  JList [ JStr "Implement minimal CLI flow for plan/qa/replan.";
          JStr "Run pilot and collect evidence against success metric." ].

Definition step : Type :=
  list string * (gmap string json → option (gmap string json)).

Definition simple_step (failed : list string) (r : string * string * json)
  : step :=
  ([r.1.2], λ plan, Some (fill_failed failed r.1.1 r.1.2 r.2 plan)).

Definition tasks_step (failed : list string) (key : string) (v : json)
  : step :=
  ([key], λ plan,
     if bool_decide ("plan_execution_balance" ∈ failed)
     then fill_no_tasks key v plan else Some plan).

Definition repair_steps (failed : list string) : list step :=
  map (simple_step failed) first_repairs
  ++ [ (["options"; "selected_option"], repair_options failed);
       (["references"],
        fill_short failed "references_coverage" "references" 3
          three_references);
       (["insights"],
        fill_short failed "insight_axes_coverage" "insights" 3
          three_insights) ]
  ++ map (simple_step failed) axis_repairs
  ++ [ tasks_step failed "plan_tasks" two_plan_tasks;
       tasks_step failed "execution_tasks" two_execution_tasks ]
  ++ map (simple_step failed) last_repairs.

Fixpoint run_steps (steps : list step) (plan : gmap string json)
  : option (gmap string json) :=
  match steps with
  | [] => Some plan
  | st :: steps' => plan ← st.2 plan; run_steps steps' plan
  end.

(** A statement rewrites only its own keys, and only replaceable values. *)
Definition step_ok (st : step) : Prop :=
  ∀ plan plan', st.2 plan = Some plan' → rewrites st.1 plan plan'.

(** The check that guards the assignments to a key. *)
Definition repair_owner : list (string * string) :=
  map (λ r, (r.1.2, r.1.1)) simple_repairs
  ++ [ ("options", "options_comparison");
       ("selected_option", "options_comparison");
       ("references", "references_coverage");
       ("insights", "insight_axes_coverage");
       ("plan_tasks", "plan_execution_balance");
       ("execution_tasks", "plan_execution_balance") ].

(** [len(v) < n] and [len(v) == 0], false where [len] raises. *)
Definition below (n : Z) (v : json) : bool :=
  match py_len v with Some len => len <? n | None => false end.

Definition no_entries (v : json) : bool :=
  match py_len v with Some len => len =? 0 | None => false end.

(** [k] is a list-valued field of the schema. *)
Definition is_list_key (k : string) : bool :=
  existsb (λ f, String.eqb f.1 k
                && match f.2 with TString => false | _ => true end)
    plan_schema.

(** ** The state directory and the commands

    The files of [.deeplan] as the commands see them: [plan.json] parsed,
    each log as the list of its records, [None] for a file that does not
    exist yet.  [clock] lists the successive values of [now_iso()] and
    [ticks] counts the readings taken; [stdout] collects the printed
    lines.  A command maps a world to its result and the next world, or
    raises. *)
Record World := mkWorld {
  plan_file : option json;
  decisions_log : option (list json);
  risks_log : option (list json);
  events_log : option (list json);
  stdout : list string;
  clock : nat → string;
  ticks : nat
}.

Definition Cmd (A : Type) : Type := World → option (A * World).

#[global] Instance cmd_ret : MRet Cmd := λ A a w, Some (a, w).

#[global] Instance cmd_bind : MBind Cmd := λ A B f m w,
  match m w with
  | Some (a, w') => f a w'
  | None => None
  end.

Definition raise {A} : Cmd A := λ _, None.

(** The value of a pure expression that may raise. *)
Definition lift {A} (o : option A) : Cmd A := λ w,
  match o with Some a => Some (a, w) | None => None end.

Definition now_iso : Cmd string := λ w,
  Some (clock w (ticks w),
        mkWorld (plan_file w) (decisions_log w) (risks_log w) (events_log w)
          (stdout w) (clock w) (S (ticks w))).

Definition print (lines : list string) : Cmd unit := λ w,
  Some ((),
        mkWorld (plan_file w) (decisions_log w) (risks_log w) (events_log w)
          (stdout w ++ lines)%list (clock w) (ticks w)).

Definition write_plan (doc : json) : Cmd unit := λ w,
  Some ((),
        mkWorld (Some doc) (decisions_log w) (risks_log w) (events_log w)
          (stdout w) (clock w) (ticks w)).

Definition read_plan : Cmd json := λ w, lift (plan_file w) w.

(** The three logs that [append_jsonl] is called on. *)
Inductive log := DECISIONS | RISKS | EVENTS.

Definition get_log (l : log) (w : World) : option (list json) :=
  match l with
  | DECISIONS => decisions_log w
  | RISKS => risks_log w
  | EVENTS => events_log w
  end.

Definition set_log (l : log) (records : list json) (w : World) : World :=
  match l with
  | DECISIONS =>
      mkWorld (plan_file w) (Some records) (risks_log w) (events_log w)
        (stdout w) (clock w) (ticks w)
  | RISKS =>
      mkWorld (plan_file w) (decisions_log w) (Some records) (events_log w)
        (stdout w) (clock w) (ticks w)
  | EVENTS =>
      mkWorld (plan_file w) (decisions_log w) (risks_log w) (Some records)
        (stdout w) (clock w) (ticks w)
  end.

(** [append_jsonl]: one more record at the end, the file created when it is
    missing. *)
Definition append_jsonl (l : log) (payload : json) : Cmd unit := λ w,
  Some ((), set_log l (default [] (get_log l w) ++ [payload])%list w).

(** [if not p.exists(): p.write_text("")] *)
Definition touch_log (l : log) : Cmd unit := λ w,
  match get_log l w with
  | Some _ => Some ((), w)
  | None => Some ((), set_log l [] w)
  end.

(** [if not PLAN_PATH.exists(): PLAN_PATH.write_text(...)] *)
Definition init_plan_file : Cmd unit := λ w,
  match plan_file w with
  | Some _ => Some ((), w)
  | None => (now ← now_iso; write_plan (JObj (default_plan now))) w
  end.

Definition ensure_state : Cmd unit :=
  _ ← touch_log DECISIONS;
  _ ← touch_log RISKS;
  _ ← touch_log EVENTS;
  init_plan_file.

(** [save_plan] with its effects: a clock reading and the file written.

    [write_text(json.dumps(plan, indent=2, ensure_ascii=False),
    encoding="utf-8")] raises [UnicodeEncodeError] when the text cannot be
    encoded, which is when a string of the document holds a lone
    surrogate; the file, opened before the text is encoded, is then left
    empty (a command that raises gives no next world, so that state is
    not part of the model).  [encodes doc] tells whether the text of
    [doc] can be encoded.
    The characters of the strings of this model are the code points below
    256, which all can, so the test is a parameter of the commands and not
    a function computed from the model's document.  The default document
    that [ensure_state] writes is dumped with [ensure_ascii] on and always
    encodes. *)
Definition save_plan_file (encodes : json → bool) (plan : gmap string json)
  : Cmd (gmap string json) :=
  now ← now_iso;
  let plan := save_plan now plan in
  if encodes (JObj plan) then
    _ ← write_plan (JObj plan);
    mret plan
  else raise.

(** The encoder that accepts every document. *)
Definition every_document (doc : json) : bool := true.

Definition load_plan (encodes : json → bool) : Cmd (gmap string json) :=
  _ ← ensure_state;
  doc ← read_plan;
  match doc with
  | JObj plan =>
      now ← now_iso;
      plan ← lift (migrate_plan now plan);
      save_plan_file encodes plan
  | _ => raise
  end.

Definition obj (fields : list (string * json)) : json :=
  JObj (list_to_map fields).

(** [a or v] for a string [a]. *)
Definition py_or (a : string) (v : json) : json :=
  if String.eqb a "" then v else JStr a.

(** [if args.flag: plan[flag] = parse_csv(args.flag)] *)
Definition set_csv (args : string → string) (flag : string)
    (plan : gmap string json) : gmap string json :=
  if String.eqb (args flag) "" then plan
  else <[flag := strs (parse_csv (args flag))]> plan.

(** The assignments of [cmd_plan] between loading and saving; [args] maps
    an attribute of the parsed arguments to its value. *)
Definition cmd_plan_edits (args : string → string)
    (plan : gmap string json) : gmap string json :=
  let plan :=
    <["goal" := py_or (args "goal") (py_get_or plan "goal" (JStr ""))]> plan in
  let plan :=
    <["success_metric" :=
        py_or (args "success_metric")
          (py_get_or plan "success_metric" (JStr ""))]> plan in
  let plan :=
    <["deadline" :=
        py_or (args "deadline") (py_get_or plan "deadline" (JStr ""))]>
      plan in
  let plan := set_csv args "constraints" plan in
  let plan := set_csv args "assumptions" plan in
  let plan := set_csv args "options" plan in
  let plan :=
    if String.eqb (args "selected_option") "" then plan
    else <["selected_option" := JStr (strip (args "selected_option"))]> plan in
  let plan := set_csv args "plan_tasks" plan in
  let plan := set_csv args "execution_tasks" plan in
  let plan := set_csv args "references" plan in
  let plan := set_csv args "insights" plan in
  let plan := set_csv args "direction_insights" plan in
  let plan := set_csv args "market_insights" plan in
  let plan := set_csv args "timing_insights" plan in
  let plan := set_csv args "differentiation_insights" plan in
  let plan := set_csv args "monetization_insights" plan in
  let plan := set_csv args "constraint_insights" plan in
  let plan := set_csv args "risk_signal_insights" plan in
  let plan := set_csv args "evolution_insights" plan in
  let plan := set_csv args "dependencies" plan in
  let plan := set_csv args "experiments" plan in
  set_csv args "definition_of_done" plan.

(** The assessment at the end of [cmd_plan] and [cmd_replan], with its
    printing and saving. *)
Definition assess_and_replan (encodes : json → bool)
    (plan : gmap string json) : Cmd (gmap string json) :=
  '(score, checks, critical_failure) ← lift (run_qa plan);
  _ ← print (print_qa score checks critical_failure);
  if negb critical_failure && (score <? 70) then
    _ ← print ["Auto replan triggered."];
    plan ← lift (auto_replan_stub plan checks);
    plan ← save_plan_file encodes plan;
    '(score2, checks2, critical_failure2) ← lift (run_qa plan);
    _ ← print ["Post-replan QA:"];
    _ ← print (print_qa score2 checks2 critical_failure2);
    mret plan
  else mret plan.

Definition cmd_plan (encodes : json → bool) (args : string → string)
  : Cmd (gmap string json) :=
  plan ← load_plan encodes;
  let plan := cmd_plan_edits args plan in
  plan ← save_plan_file encodes plan;
  ts ← now_iso;
  _ ← append_jsonl EVENTS
        (obj [ ("ts", JStr ts); ("type", JStr "plan_updated");
               ("source", JStr "cmd_plan"); ("goal", py_get plan "goal") ]);
  assess_and_replan encodes plan.

(** [if args.flag: plan.setdefault(key, []).append(args.flag.strip())] *)
Definition append_flag (args : string → string) (flag key : string)
    (plan : gmap string json) : option (gmap string json) :=
  if String.eqb (args flag) "" then Some plan
  else match py_get_or plan key (JList []) with
       | JList l =>
           Some (<[key := JList (l ++ [JStr (strip (args flag))])]> plan)
       | _ => None
       end.

Definition cmd_replan_edits (args : string → string)
    (plan : gmap string json) : option (gmap string json) :=
  plan ← append_flag args "evidence" "evidence" plan;
  plan ← append_flag args "plan_task" "plan_tasks" plan;
  plan ← append_flag args "execution_task" "execution_tasks" plan;
  plan ← append_flag args "reference" "references" plan;
  plan ← append_flag args "insight" "insights" plan;
  plan ← append_flag args "direction_insight" "direction_insights" plan;
  plan ← append_flag args "market_insight" "market_insights" plan;
  plan ← append_flag args "timing_insight" "timing_insights" plan;
  plan ← append_flag args "differentiation_insight"
           "differentiation_insights" plan;
  plan ← append_flag args "monetization_insight" "monetization_insights" plan;
  plan ← append_flag args "constraint_insight" "constraint_insights" plan;
  plan ← append_flag args "risk_signal_insight" "risk_signal_insights" plan;
  append_flag args "evolution_insight" "evolution_insights" plan.

Definition cmd_replan (encodes : json → bool) (args : string → string)
  : Cmd (gmap string json) :=
  plan ← load_plan encodes;
  plan ← lift (cmd_replan_edits args plan);
  plan ← save_plan_file encodes plan;
  ts ← now_iso;
  _ ← append_jsonl EVENTS
        (obj [ ("ts", JStr ts); ("type", JStr "replan");
               ("source", JStr "cmd_replan");
               ("evidence", py_or (args "evidence") (JStr "")) ]);
  assess_and_replan encodes plan.

Definition cmd_qa (encodes : json → bool) : Cmd unit :=
  plan ← load_plan encodes;
  '(score, checks, critical_failure) ← lift (run_qa plan);
  print (print_qa score checks critical_failure).



(** The world that [ensure_state] leaves: every file exists, a missing
    plan file holds the default document stamped with a clock reading. *)
Definition after_ensure (w : World) : World :=
  mkWorld
    (Some (default (JObj (default_plan (clock w (ticks w)))) (plan_file w)))
    (Some (default [] (decisions_log w)))
    (Some (default [] (risks_log w)))
    (Some (default [] (events_log w)))
    (stdout w) (clock w)
    (match plan_file w with Some _ => ticks w | None => S (ticks w) end).

(** The world after [save_plan_file plan], when the document encodes. *)
Definition after_save (plan : gmap string json) (w : World) : World :=
  mkWorld (Some (JObj (save_plan (clock w (ticks w)) plan)))
    (decisions_log w) (risks_log w) (events_log w)
    (stdout w) (clock w) (S (ticks w)).

(** What a plan file may hold for the commands to work on it: nothing, or
    a well-formed document whose legacy [tasks], if any, is a list of
    strings. *)
Definition healthy_plan_file (w : World) : Prop :=
  plan_file w = None
  ∨ ∃ doc, plan_file w = Some (JObj doc)
           ∧ well_formed doc = true
           ∧ (doc !! "tasks" = None
              ∨ ∃ l, doc !! "tasks" = Some (JList l)
                     ∧ forallb is_str l = true).

(** Sample states: a clock that reads [t0], [t1], ..., a directory with no
    state in it, and one whose plan file holds a legacy document. *)
Definition sample_clock (n : nat) : string := "t" +:+ pretty n.

Definition empty_world : World :=
  mkWorld None None None None [] sample_clock 0.

Definition legacy_world : World :=
  mkWorld (Some (JObj legacy_plan)) None None (Some [JStr "kept"]) []
    sample_clock 0.

(** ** The edits of [cmd_plan] and [cmd_replan], field by field

    Each statement between [load_plan] and [save_plan] reads and assigns
    one key.  As an [edit] it maps the value under its key to the value to
    assign, to [None] when it assigns nothing, or raises. *)
Definition edit : Type := string * (option json → option (option json)).

Definition run_edit (e : edit) (plan : gmap string json)
  : option (gmap string json) :=
  match e.2 (plan !! e.1) with
  | Some (Some v) => Some (<[e.1 := v]> plan)
  | Some None => Some plan
  | None => None
  end.

Fixpoint run_edits (es : list edit) (plan : gmap string json)
  : option (gmap string json) :=
  match es with
  | [] => Some plan
  | e :: es => plan ← run_edit e plan; run_edits es plan
  end.

(** The flags of [plan]: three texts, [selected_option], and the lists in
    the order of their [if] statements. *)
Definition plan_text_flags : list string :=
  ["goal"; "success_metric"; "deadline"].

Definition plan_list_flags : list string :=
  [ "constraints"; "assumptions"; "options"; "plan_tasks";
    "execution_tasks"; "references"; "insights"; "direction_insights";
    "market_insights"; "timing_insights"; "differentiation_insights";
    "monetization_insights"; "constraint_insights"; "risk_signal_insights";
    "evolution_insights"; "dependencies"; "experiments";
    "definition_of_done" ].

Definition text_edit (args : string → string) (k : string) : edit :=
  (k, λ old, Some (Some (py_or (args k) (default (JStr "") old)))).

Definition csv_edit (args : string → string) (k : string) : edit :=
  (k, λ _, Some (if String.eqb (args k) "" then None
                 else Some (strs (parse_csv (args k))))).

Definition option_edit (args : string → string) : edit :=
  ("selected_option",
   λ _, Some (if String.eqb (args "selected_option") "" then None
              else Some (JStr (strip (args "selected_option"))))).

Definition plan_edits (args : string → string) : list edit :=
  map (text_edit args) plan_text_flags
  ++ map (csv_edit args) (take 3 plan_list_flags)
  ++ [option_edit args]
  ++ map (csv_edit args) (drop 3 plan_list_flags).

(** The flags of [replan], each with the field it appends to. *)
Definition replan_flags : list (string * string) :=
  [ ("evidence", "evidence"); ("plan_task", "plan_tasks");
    ("execution_task", "execution_tasks"); ("reference", "references");
    ("insight", "insights"); ("direction_insight", "direction_insights");
    ("market_insight", "market_insights");
    ("timing_insight", "timing_insights");
    ("differentiation_insight", "differentiation_insights");
    ("monetization_insight", "monetization_insights");
    ("constraint_insight", "constraint_insights");
    ("risk_signal_insight", "risk_signal_insights");
    ("evolution_insight", "evolution_insights") ].

Definition append_edit (args : string → string) (fk : string * string)
  : edit :=
  (fk.2,
   λ old, if String.eqb (args fk.1) "" then Some None
          else match default (JList []) old with
               | JList l => Some (Some (JList (l ++ [JStr (strip (args fk.1))])))
               | _ => None
               end).

Definition replan_edits (args : string → string) : list edit :=
  map (append_edit args) replan_flags.

(** Arguments of [replan] with one reference given, padded with blanks. *)
Definition one_reference (flag : string) : string :=
  if String.eqb flag "reference" then " Field notes " else "".

(** Arguments of [plan] that give a goal and leave the lists out. *)
Definition goal_only (flag : string) : string :=
  if String.eqb flag "goal" then "Ship the planner" else "".

(** ** [cmd_show]: the number of insight axes covered

    [sum(1 for key in [...] if non_empty(plan.get(key)))] *)
Definition covered_axes (plan : gmap string json) : Z :=
  Z.of_nat
    (length
       (List.filter (λ key, non_empty (py_get plan key))
          [ "direction_insights"; "market_insights"; "timing_insights";
            "differentiation_insights"; "monetization_insights";
            "constraint_insights"; "risk_signal_insights";
            "evolution_insights" ])).

(** ** IdeaEngine

    The arguments of [ideate] as [argparse] delivers them. *)
Record IdeateArgs := mkIdeateArgs {
  ideate_profile : string;
  ideate_interests : string;
  ideate_skills : string;
  ideate_time_per_day : string;
  ideate_budget : string;
  ideate_deadline : string;
  ideate_count : Z;
  ideate_json : bool;
  ideate_apply : Z
}.

(** [a.strip() if a else d] *)
Definition strip_or (a d : string) : string :=
  if String.eqb a "" then d else strip a.

(** A format string with the fields [{focus}] and [{deadline}], and
    [t.format(focus=focus, deadline=deadline)]. *)
Inductive piece := Lit (s : string) | Focus | Deadline.

Definition format (t : list piece) (focus deadline : string) : string :=
  foldr (λ p acc,
           match p with
           | Lit s => s
           | Focus => focus
           | Deadline => deadline
           end +:+ acc) "" t.

Record Template := mkTemplate {
  template_name : string;
  template_goal : list piece;
  template_metric : list piece;
  template_plan_tasks : list string;
  template_execution_tasks : list string
}.

Definition templates : list Template :=
  [ mkTemplate "Workflow Automation"
      [Lit "Automate one repetitive "; Focus; Lit " task end-to-end"]
      [Lit "Reduce manual time on "; Focus; Lit " by 30% by "; Deadline]
      [ "Map the current manual workflow and baseline time.";
        "Select one high-friction step to automate first." ]
      [ "Build the smallest working automation script/tool.";
        "Run for one week and compare baseline vs after metrics." ];
    mkTemplate "Portfolio Artifact"
      [Lit "Ship a public mini-project around "; Focus]
      [Lit "Publish a working demo and one write-up by "; Deadline]
      [ "Define MVP scope and success criteria for the demo.";
        "Collect 3 references from similar projects." ]
      [ "Implement MVP with one differentiating feature.";
        "Publish demo, doc, and changelog." ];
    mkTemplate "Learning Sprint"
      [Lit "Complete a focused sprint to improve "; Focus; Lit " capability"]
      [ Lit "Deliver 3 practical outputs proving "; Focus;
        Lit " improvement by "; Deadline ]
      [ "Choose a narrow syllabus and output format.";
        "Define weekly checkpoints with explicit evidence." ]
      [ "Produce output #1 and gather feedback.";
        "Produce output #2/#3 and review gaps." ];
    mkTemplate "Insight Pipeline"
      [ Lit "Build a repeatable system to collect and summarize "; Focus;
        Lit " insights" ]
      [Lit "Generate 10 curated insights and 3 actions by "; Deadline]
      [ "Define sources and capture format.";
        "Set quality bar for actionable insights." ]
      [ "Run weekly collection and summarization loop.";
        "Apply top 3 insights and measure outcomes." ] ].

(** One idea: the dict that [generate_ideas] appends, its keys as
    fields. *)
Record Idea := mkIdea {
  idea_title : string;
  idea_goal : string;
  idea_success_metric : string;
  idea_deadline : string;
  idea_constraints : list string;
  idea_assumptions : list string;
  idea_plan_tasks : list string;
  idea_execution_tasks : list string;
  idea_definition_of_done : list string;
  idea_experiments : list string
}.

Definition default_focus_terms : list string :=
  ["your workflow"; "your learning"; "your output quality"].

(** The body of the loop of [generate_ideas] at index [i]. *)
Definition idea_at (profile horizon time_limit budget : string)
    (skills focus_terms : list string) (i : nat) : Idea :=
  let t := nth (Nat.modulo i (length templates)) templates
             (mkTemplate "" [] [] [] []) in
  let focus := nth (Nat.modulo i (length focus_terms)) focus_terms "" in
  let goal := format (template_goal t) focus horizon in
  let metric := format (template_metric t) focus horizon in
  let assumptions :=
    ([ profile +:+ " can sustain " +:+ time_limit +:+ " for this project.";
       "Budget stays within " +:+ budget
       +:+ " without external paid tooling." ]
     ++ match skills with
        | [] => []
        | _ => [ "Existing skills (" +:+ join_comma_space (take 3 skills)
                 +:+ ") are enough for MVP delivery." ]
        end)%list in
  let constraints :=
    [ "time: " +:+ time_limit; "budget: " +:+ budget;
      "scope: single focused outcome" ] in
  mkIdea (template_name t) goal metric horizon constraints assumptions
    (template_plan_tasks t) (template_execution_tasks t)
    [ "Primary success metric is measured with before/after evidence.";
      "At least one artifact (code/doc/demo) is published." ]
    ["Run a 7-day pilot and log outcomes."].

(** [default_deadline] is the value of [default_deadline(14)], the date two
    weeks from today. *)
Definition generate_ideas (default_deadline : string) (args : IdeateArgs)
  : list Idea :=
  let interests :=
    if String.eqb (ideate_interests args) "" then []
    else parse_csv (ideate_interests args) in
  let skills :=
    if String.eqb (ideate_skills args) "" then []
    else parse_csv (ideate_skills args) in
  let profile := strip_or (ideate_profile args) "solo builder" in
  let horizon := strip_or (ideate_deadline args) default_deadline in
  let time_limit := strip_or (ideate_time_per_day args) "1h/day" in
  let budget := strip_or (ideate_budget args) "$0" in
  let focus_terms :=
    match interests with
    | [] => default_focus_terms
    | _ => interests
    end in
  map (idea_at profile horizon time_limit budget skills focus_terms)
    (seq 0 (Z.to_nat (Z.max 1 (Z.min (ideate_count args) 10)))).

(** The dict of an idea, as [json.dumps] gets it. *)
Definition idea_json (idea : Idea) : json :=
  obj [ ("title", JStr (idea_title idea));
        ("goal", JStr (idea_goal idea));
        ("success_metric", JStr (idea_success_metric idea));
        ("deadline", JStr (idea_deadline idea));
        ("constraints", strs (idea_constraints idea));
        ("assumptions", strs (idea_assumptions idea));
        ("plan_tasks", strs (idea_plan_tasks idea));
        ("execution_tasks", strs (idea_execution_tasks idea));
        ("definition_of_done", strs (idea_definition_of_done idea));
        ("experiments", strs (idea_experiments idea)) ].

(** The lines that [cmd_ideate] prints for the idea numbered [idx]. *)
Definition print_idea (idx : nat) (idea : Idea) : list string :=
  [ "[" +:+ pretty idx +:+ "] " +:+ idea_title idea;
    "  Goal: " +:+ idea_goal idea;
    "  Success Metric: " +:+ idea_success_metric idea;
    "  Deadline: " +:+ idea_deadline idea;
    "  Constraints: " +:+ join_comma_space (idea_constraints idea);
    "" ].

(** The assignments of [cmd_ideate --apply]. *)
Definition apply_idea (selected : Idea) (plan : gmap string json)
  : gmap string json :=
  let plan := <["goal" := JStr (idea_goal selected)]> plan in
  let plan :=
    <["success_metric" := JStr (idea_success_metric selected)]> plan in
  let plan := <["deadline" := JStr (idea_deadline selected)]> plan in
  let plan := <["constraints" := strs (idea_constraints selected)]> plan in
  let plan := <["assumptions" := strs (idea_assumptions selected)]> plan in
  let plan := <["plan_tasks" := strs (idea_plan_tasks selected)]> plan in
  let plan :=
    <["execution_tasks" := strs (idea_execution_tasks selected)]> plan in
  let plan := <["experiments" := strs (idea_experiments selected)]> plan in
  <["definition_of_done" := strs (idea_definition_of_done selected)]> plan.

(** The statements of [cmd_ideate] under [if args.apply:]. *)
Definition apply_selected (encodes : json → bool) (ideas : list Idea)
    (args : IdeateArgs) : Cmd unit :=
  let choice := ideate_apply args - 1 in
  if (choice <? 0) || (Z.of_nat (length ideas) <=? choice) then raise
  else
    selected ← lift (ideas !! Z.to_nat choice);
    plan ← load_plan encodes;
    let plan := apply_idea selected plan in
    plan ← save_plan_file encodes plan;
    ts ← now_iso;
    _ ← append_jsonl EVENTS
          (obj [ ("ts", JStr ts); ("type", JStr "idea_applied");
                 ("source", JStr "cmd_ideate");
                 ("selected_index", JInt (ideate_apply args));
                 ("goal", JStr (idea_goal selected)) ]);
    _ ← print [ "Applied idea #" +:+ pretty (ideate_apply args)
                +:+ " to current plan." ];
    '(score, checks, critical_failure) ← lift (run_qa plan);
    print (print_qa score checks critical_failure).

(** What [cmd_ideate] prints for the ideas; [dumps] stands for
    [json.dumps(_, indent=2, ensure_ascii=False)]. *)
Definition listing (dumps : json → string) (json_flag : bool)
    (ideas : list Idea) : list string :=
  if json_flag then [dumps (JList (map idea_json ideas))]
  else concat (imap (λ i idea, print_idea (S i) idea) ideas).

Definition cmd_ideate (default_deadline : string) (dumps : json → string)
    (encodes : json → bool) (args : IdeateArgs) : Cmd unit :=
  _ ← ensure_state;
  let ideas := generate_ideas default_deadline args in
  ts ← now_iso;
  _ ← append_jsonl EVENTS
        (obj [ ("ts", JStr ts); ("type", JStr "ideate");
               ("source", JStr "cmd_ideate");
               ("count", JInt (Z.of_nat (length ideas)));
               ("profile", py_or (ideate_profile args) (JStr "")) ]);
  _ ← print (listing dumps (ideate_json args) ideas);
  if ideate_apply args =? 0 then mret ()
  else apply_selected encodes ideas args.

(** The world once [cmd_ideate] has listed its ideas. *)
Definition after_listing (default_deadline : string) (dumps : json → string)
    (args : IdeateArgs) (w : World) : World :=
  let ideas := generate_ideas default_deadline args in
  mkWorld (plan_file (after_ensure w))
    (Some (default [] (decisions_log w)))
    (Some (default [] (risks_log w)))
    (Some (default [] (events_log w)
           ++ [obj [ ("ts", JStr (clock w (ticks (after_ensure w))));
                     ("type", JStr "ideate");
                     ("source", JStr "cmd_ideate");
                     ("count", JInt (Z.of_nat (length ideas)));
                     ("profile", py_or (ideate_profile args) (JStr "")) ]])%list)
    (stdout w ++ listing dumps (ideate_json args) ideas)%list
    (clock w) (S (ticks (after_ensure w))).

(** The fields that [--apply] assigns, with their values. *)
Definition idea_fields (idea : Idea) : list (string * json) :=
  [ ("goal", JStr (idea_goal idea));
    ("success_metric", JStr (idea_success_metric idea));
    ("deadline", JStr (idea_deadline idea));
    ("constraints", strs (idea_constraints idea));
    ("assumptions", strs (idea_assumptions idea));
    ("plan_tasks", strs (idea_plan_tasks idea));
    ("execution_tasks", strs (idea_execution_tasks idea));
    ("experiments", strs (idea_experiments idea));
    ("definition_of_done", strs (idea_definition_of_done idea)) ].

(** Arguments of [ideate] with the defaults of the parser, but for the
    idea to apply. *)
Definition ideate_defaults (apply : Z) : IdeateArgs :=
  mkIdeateArgs "" "" "" "1h/day" "$0" "" 5 false apply.

(** The score of a document on which the checks of an applied idea pass:
    49 for the seven checks that the idea's fields settle but for the
    deadline, and the weights of the others. *)
Definition applied_score (deadline : string) (plan : gmap string json) : Z :=
  49
  + (if String.eqb (strip deadline) "" then 0 else 10)
  + (if (2 <=? Z.of_nat (length (entries plan "options")))
        && non_empty (py_get plan "selected_option") then 8 else 0)
  + (if 3 <=? Z.of_nat (length (entries plan "references")) then 10 else 0)
  + (if insight_axes_covered plan then 10 else 0)
  + (if non_empty (py_get plan "risks") then 8 else 0)
  + (if non_empty (py_get plan "dependencies") then 5 else 0).

(** [cmd_init]; [state_dir] is the text of [STATE_DIR]. *)
Definition cmd_init (state_dir : string) : Cmd unit :=
  _ ← ensure_state;
  print ["Initialized state in " +:+ state_dir].

(** * Properties *)

(** ** The scoring loop *)

Lemma weight_sum_cons c checks :
  weight_sum (c :: checks) = weight c + weight_sum checks.
Proof. reflexivity. Qed.

Lemma qa_fold checks : ∀ score critical_failure,
  foldl qa_step (score, critical_failure) checks
  = (score + weight_sum (passed_checks checks),
     critical_failure
     || existsb (λ c, critical c && negb (passed c)) checks).
Proof.
  induction checks as [|c checks IH]; intros score critical_failure.
  - simpl. f_equal; [lia | by rewrite orb_false_r].
  - cbn [foldl]. unfold qa_step at 2. cbn [fst snd]. rewrite IH.
    unfold passed_checks. rewrite filter_cons. cbn [existsb].
    destruct (decide (passed c = true)) as [Hd|Hd].
    + rewrite Hd, andb_false_r, weight_sum_cons. cbn [orb]. f_equal. lia.
    + apply not_true_is_false in Hd. rewrite Hd, andb_true_r.
      f_equal. by destruct (critical c), critical_failure.
Qed.

Lemma passed_weight_bounds checks :
  Forall (λ c, 0 <= weight c) checks →
  0 <= weight_sum (passed_checks checks) <= weight_sum checks.
Proof.
  unfold passed_checks.
  induction 1 as [|c checks Hc _ IH]; [done|].
  rewrite filter_cons. destruct (decide _); rewrite !weight_sum_cons; lia.
Qed.

(** The rubric as [run_qa] returns it. *)
Lemma run_qa_inv plan score checks critical_failure :
  run_qa plan = Some (score, checks, critical_failure) →
  ∃ n_options n_references balance,
    py_len (py_get_or plan "options" (JList [])) = Some n_options
    ∧ py_len (py_get_or plan "references" (JList [])) = Some n_references
    ∧ task_balance_ok plan = Some balance
    ∧ checks = rubric plan n_options n_references balance
    ∧ score = weight_sum (passed_checks checks)
    ∧ critical_failure
      = existsb (λ c, critical c && negb (passed c)) checks.
Proof.
  unfold run_qa. intros H.
  destruct (py_len (py_get_or plan "options" _)) as [n_options|]; [|done].
  destruct (py_len (py_get_or plan "references" _)) as [n_references|]; [|done].
  destruct (task_balance_ok plan) as [balance|]; [|done].
  cbn [mbind option_bind] in H. rewrite qa_fold in H.
  injection H as <- <- <-.
  exists n_options, n_references, balance. by repeat split.
Qed.

Lemma rubric_weight_sum plan n_options n_references balance :
  map weight (rubric plan n_options n_references balance) = rubric_weights
  ∧ weight_sum (rubric plan n_options n_references balance) = 100.
Proof. by split. Qed.

(** C2.  The score that [run_qa] returns is the sum of the weights of
    exactly the checks whose [passed] flag is true, and it lies between 0
    and 100: the twelve weights are 10, 10, 8, 8, 8, 10, 10, 10, 8, 8, 5, 5
    and add up to 100. *)
Theorem score_is_passed_weight plan score checks critical_failure :
  run_qa plan = Some (score, checks, critical_failure) →
  score = weight_sum (passed_checks checks)
  ∧ 0 <= score <= 100
  ∧ map weight checks = rubric_weights
  ∧ weight_sum checks = 100.
Proof.
  intros (n_options & n_references & balance & _ & _ & _ & -> & -> & _)
    %run_qa_inv.
  destruct (rubric_weight_sum plan n_options n_references balance)
    as [Hw H100].
  assert (Forall (λ c, 0 <= weight c)
            (rubric plan n_options n_references balance)) as Hpos.
  { unfold rubric. repeat (constructor; [cbn; lia|]). constructor. }
  apply passed_weight_bounds in Hpos. rewrite H100 in Hpos.
  repeat split; try done; lia.
Qed.

(** C1.  [critical_failure] is true exactly when some check marked critical
    has not passed.  A document whose goal is blank after trimming is
    therefore reported as [CRITICAL_FAILURE] and never as [PASS], whatever
    the score: when every other check passes the score is 90, far above the
    pass mark of 70. *)
Theorem critical_override plan score checks critical_failure :
  run_qa plan = Some (score, checks, critical_failure) →
  (critical_failure = true
   ↔ ∃ c, c ∈ checks ∧ critical c = true ∧ passed c = false)
  ∧ ∀ goal, plan !! "goal" = Some (JStr goal) → strip goal = "" →
      critical_failure = true
      ∧ disposition score critical_failure = CRITICAL_FAILURE
      ∧ disposition score critical_failure ≠ PASS
      ∧ ((∀ c, c ∈ checks → name c ≠ "goal_clarity" → passed c = true) →
         score = 90).
Proof.
  intros (n_options & n_references & balance & _ & _ & _ & Hchecks & Hs & Hc)
    %run_qa_inv.
  split.
  - rewrite Hc, existsb_exists. split.
    + intros (c & Hin & [? ?%negb_true_iff]%andb_true_iff).
      exists c. by rewrite list_elem_of_In.
    + intros (c & Hin & Hcrit & Hfail). exists c.
      rewrite <- list_elem_of_In, Hcrit, Hfail. done.
  - intros goal Hgoal Hblank.
    assert (non_empty (py_get plan "goal") = false) as Hne.
    { unfold py_get. rewrite Hgoal. cbn. by rewrite Hblank. }
    assert (critical_failure = true) as ->.
    { rewrite Hc, Hchecks. unfold rubric. cbn [existsb critical passed].
      by rewrite Hne. }
    repeat split; try done.
    intros Hall. rewrite Hs, Hchecks. rewrite Hchecks in Hall.
    apply Forall_forall in Hall. unfold rubric in *.
    repeat match type of Hall with
    | Forall _ (_ :: _) =>
        let H := fresh "Hpass" in
        apply Forall_cons in Hall as [H Hall]; cbn [name passed] in H
    end.
    rewrite Hne.
    repeat match goal with
    | H : _ ≠ _ → _ = true |- _ => rewrite H by done; clear H
    end.
    reflexivity.
Qed.

Lemma critical_override_witness :
  ∃ checks,
    run_qa blank_goal_plan = Some (90, checks, true)
    ∧ disposition 90 true = CRITICAL_FAILURE.
Proof.
  eexists. split; [vm_compute; reflexivity|].
  eapply (critical_override blank_goal_plan 90 _ true).
  - vm_compute. reflexivity.
  - vm_compute. reflexivity.
  - vm_compute. reflexivity.
Defined.

Lemma score_is_passed_weight_witness :
  ∃ checks,
    run_qa sample_plan = Some (35, checks, false)
    ∧ 35 = weight_sum (passed_checks checks).
Proof.
  eexists. split; [vm_compute; reflexivity|].
  eapply (score_is_passed_weight sample_plan 35 _ false).
  vm_compute. reflexivity.
Defined.

(** ** Well-formed documents *)

Lemma well_formed_field plan k t :
  well_formed plan = true → (k, t) ∈ plan_schema →
  plan !! k = None ∨ ∃ v, plan !! k = Some v ∧ has_type t v = true.
Proof.
  unfold well_formed. rewrite forallb_forall. intros Hwf Hin.
  apply list_elem_of_In, Hwf in Hin. unfold field_ok in Hin. cbn in Hin.
  destruct (plan !! k) as [v|]; eauto.
Qed.

Lemma well_formed_strings plan k :
  well_formed plan = true → (k, TStrings) ∈ plan_schema →
  plan !! k = None ∨ ∃ l, plan !! k = Some (JList l).
Proof.
  intros Hwf Hin.
  destruct (well_formed_field _ _ _ Hwf Hin) as [?|(v & Hv & Ht)]; [by left|].
  right. destruct v; try done. eauto.
Qed.

Ltac in_schema := apply list_elem_of_In; cbn; tauto.

Lemma well_formed_len plan k :
  well_formed plan = true → (k, TStrings) ∈ plan_schema →
  py_len (py_get_or plan k (JList []))
  = Some (Z.of_nat (length (entries plan k))).
Proof.
  intros Hwf Hin. unfold py_get_or, entries.
  destruct (well_formed_strings _ _ Hwf Hin) as [->|(l & ->)]; done.
Qed.

(** ** The balance rule *)

Lemma task_balance_ok_spec plan p e :
  py_len (py_get_or plan "plan_tasks" (JList [])) = Some p →
  py_len (py_get_or plan "execution_tasks" (JList [])) = Some e →
  task_balance_ok plan
  = Some (negb ((p + e <? 4) || (p =? 0) || (e =? 0))
          && (2 * (p + e) <=? 5 * p) && (5 * p <=? 3 * (p + e))).
Proof.
  intros Hp He. unfold task_balance_ok. rewrite Hp, He.
  cbn [mbind option_bind].
  destruct ((p + e <? 4) || (p =? 0) || (e =? 0)) eqn:Hguard; [done|].
  cbn [negb andb]. f_equal.
  apply orb_false_iff in Hguard as [[Ht _]%orb_false_iff _].
  apply Z.ltb_ge in Ht.
  unfold Qle_bool. cbn [Qnum Qden]. rewrite Z2Pos.id by lia.
  f_equal; apply eq_true_iff_eq; rewrite !Z.leb_le; lia.
Qed.

Lemma ratio_ge_two_fifths (p t : Z) :
  0 < t → (4 # 10 <= inject_Z p / inject_Z t)%Q ↔ 2 * t <= 5 * p.
Proof.
  intros Ht. destruct t as [|t|t]; try lia.
  rewrite <- Qmake_Qdiv. unfold Qle. cbn [Qnum Qden]. lia.
Qed.

Lemma ratio_le_three_fifths (p t : Z) :
  0 < t → (inject_Z p / inject_Z t <= 6 # 10)%Q ↔ 5 * p <= 3 * t.
Proof.
  intros Ht. destruct t as [|t|t]; try lia.
  rewrite <- Qmake_Qdiv. unfold Qle. cbn [Qnum Qden]. lia.
Qed.

Lemma py_len_nat v len : py_len v = Some len → ∃ n : nat, len = Z.of_nat n.
Proof. destruct v; try done; intros [= <-]; eauto. Qed.

Lemma binary64_agrees_below_spec bound :
  binary64_agrees_below bound = true →
  ∀ p e, (p < bound)%nat → (e < bound)%nat → balance_tests_agree p e = true.
Proof.
  unfold binary64_agrees_below.
  rewrite forallb_forall. intros H p e Hp He.
  specialize (H p). rewrite forallb_forall in H.
  apply H; apply in_seq; lia.
Qed.

Lemma binary64_agrees_below_401 : binary64_agrees_below 401 = true.
Proof. vm_compute. reflexivity. Qed.

(** The rational model of the quotient gives what binary64 gives, checked
    on every pair of lengths up to 400. *)
Lemma task_balance_ok_binary64_agrees plan p e :
  py_len (py_get_or plan "plan_tasks" (JList [])) = Some p →
  py_len (py_get_or plan "execution_tasks" (JList [])) = Some e →
  p <= 400 → e <= 400 →
  task_balance_ok_binary64 plan = task_balance_ok plan.
Proof.
  intros Hp He Hpb Heb. unfold task_balance_ok_binary64, task_balance_ok.
  rewrite Hp, He. cbn [mbind option_bind].
  destruct (_ || _); [reflexivity|]. f_equal.
  destruct (py_len_nat _ _ Hp) as [np ->].
  destruct (py_len_nat _ _ He) as [ne ->].
  apply Bool.eqb_prop. change (balance_tests_agree np ne = true).
  apply (binary64_agrees_below_spec 401 binary64_agrees_below_401); lia.
Qed.

Lemma run_qa_total plan :
  well_formed plan = true →
  ∃ score checks critical_failure,
    run_qa plan = Some (score, checks, critical_failure).
Proof.
  intros Hwf. unfold run_qa.
  rewrite (well_formed_len plan "options") by (done || in_schema).
  rewrite (well_formed_len plan "references") by (done || in_schema).
  erewrite task_balance_ok_spec by (apply well_formed_len; done || in_schema).
  cbn [mbind option_bind]. eauto.
Qed.

(** The rule that [task_balance_ok] computes. *)
Lemma task_balance_ok_rule plan :
  well_formed plan = true →
  let P := Z.of_nat (length (entries plan "plan_tasks")) in
  let E := Z.of_nat (length (entries plan "execution_tasks")) in
  let T := P + E in
  let ratio := (inject_Z P / inject_Z T)%Q in
  (task_balance_ok plan = Some false
   ↔ T < 4 ∨ P = 0 ∨ E = 0 ∨ (ratio < 4 # 10)%Q ∨ (6 # 10 < ratio)%Q)
  ∧ (task_balance_ok plan = Some true
     ↔ 4 <= T ∧ P ≠ 0 ∧ E ≠ 0 ∧ (4 # 10 <= ratio)%Q ∧ (ratio <= 6 # 10)%Q)
  ∧ (P = 2 → E = 3 → task_balance_ok plan = Some true)
  ∧ (P = 1 → E = 4 → task_balance_ok plan = Some false).
Proof.
  intros Hwf P E T ratio.
  assert (task_balance_ok plan
          = Some (negb ((T <? 4) || (P =? 0) || (E =? 0))
                  && (2 * T <=? 5 * P) && (5 * P <=? 3 * T))) as Hok.
  { apply task_balance_ok_spec; apply well_formed_len; try done; in_schema. }
  rewrite Hok. clear Hok.
  assert (0 < T → ((ratio < 4 # 10)%Q ↔ 5 * P < 2 * T)) as Hlo.
  { intros Ht. pose proof (ratio_ge_two_fifths P T Ht) as Hr.
    fold ratio in Hr.
    split; [intros Hlt%Qlt_not_le; rewrite Hr in Hlt; lia|].
    intros Hlt. apply Qnot_le_lt. rewrite Hr. lia. }
  assert (0 < T → ((6 # 10 < ratio)%Q ↔ 3 * T < 5 * P)) as Hhi.
  { intros Ht. pose proof (ratio_le_three_fifths P T Ht) as Hr.
    fold ratio in Hr.
    split; [intros Hlt%Qlt_not_le; rewrite Hr in Hlt; lia|].
    intros Hlt. apply Qnot_le_lt. rewrite Hr. lia. }
  assert (0 < T → ((4 # 10 <= ratio)%Q ↔ 2 * T <= 5 * P)) as Hge.
  { intros Ht. by apply ratio_ge_two_fifths. }
  assert (0 < T → ((ratio <= 6 # 10)%Q ↔ 5 * P <= 3 * T)) as Hle.
  { intros Ht. by apply ratio_le_three_fifths. }
  clearbody ratio.
  split; [split|split; [split|split]].
  - intros [= Hb]. destruct (Z.ltb_spec T 4); [by left|].
    rewrite Hlo, Hhi by lia.
    destruct (Z.eqb_spec P 0); [tauto|]. destruct (Z.eqb_spec E 0); [tauto|].
    cbn in Hb. apply andb_false_iff in Hb as [?%Z.leb_gt|?%Z.leb_gt]; lia.
  - intros Hfail. f_equal.
    destruct (Z.ltb_spec T 4); [done|].
    destruct (Z.eqb_spec P 0); [done|]. destruct (Z.eqb_spec E 0); [done|].
    rewrite Hlo, Hhi in Hfail by lia. cbn.
    apply andb_false_iff. rewrite !Z.leb_gt. lia.
  - intros [= Hb]. apply andb_true_iff in Hb as [Hb ?%Z.leb_le].
    apply andb_true_iff in Hb as [Hb ?%Z.leb_le].
    apply negb_true_iff, orb_false_iff in Hb as [Hb ?%Z.eqb_neq].
    apply orb_false_iff in Hb as [?%Z.ltb_ge ?%Z.eqb_neq].
    rewrite Hge, Hle by lia. lia.
  - intros (Ht & Hp & He & Hl & Hu). rewrite Hge in Hl by lia.
    rewrite Hle in Hu by lia. f_equal.
    apply Z.ltb_ge in Ht. apply Z.eqb_neq in Hp, He. rewrite Ht, Hp, He.
    cbn. apply andb_true_iff. rewrite !Z.leb_le. lia.
  - intros HP HE. subst T. rewrite HP, HE. reflexivity.
  - intros HP HE. subst T. rewrite HP, HE. reflexivity.
Qed.

(** C3.  With P and E the lengths of [plan_tasks] and [execution_tasks] and
    T = P + E, the check [plan_execution_balance] that [run_qa] returns,
    the one check of that name and the verdict of [task_balance_ok], fails
    exactly when T < 4, P = 0, E = 0 or the ratio P/T lies outside the
    closed interval from 0.4 to 0.6; it passes at P = 2, E = 3 (ratio
    exactly 0.4) and fails at P = 1, E = 4. *)
Theorem balance_rule plan :
  well_formed plan = true →
  let P := Z.of_nat (length (entries plan "plan_tasks")) in
  let E := Z.of_nat (length (entries plan "execution_tasks")) in
  let T := P + E in
  let ratio := (inject_Z P / inject_Z T)%Q in
  ∃ score checks critical_failure c,
    run_qa plan = Some (score, checks, critical_failure)
    ∧ filter (λ c, name c = "plan_execution_balance") checks = [c]
    ∧ task_balance_ok plan = Some (passed c)
    ∧ (passed c = false
       ↔ T < 4 ∨ P = 0 ∨ E = 0 ∨ (ratio < 4 # 10)%Q ∨ (6 # 10 < ratio)%Q)
    ∧ (passed c = true
       ↔ 4 <= T ∧ P ≠ 0 ∧ E ≠ 0 ∧ (4 # 10 <= ratio)%Q ∧ (ratio <= 6 # 10)%Q)
    ∧ (P = 2 → E = 3 → passed c = true)
    ∧ (P = 1 → E = 4 → passed c = false).
Proof.
  intros Hwf.
  pose proof (task_balance_ok_rule plan Hwf) as Hrule.
  lazy zeta in Hrule. lazy zeta.
  destruct Hrule as (Hfail & Hpass & H23 & H14).
  destruct (run_qa_total plan Hwf) as (score & checks & cf & Hqa).
  pose proof Hqa as Hinv. apply run_qa_inv in Hinv
    as (n_options & n_references & balance & _ & _ & Hb & Hchecks & _ & _).
  exists score, checks, cf,
    (mkCheck "plan_execution_balance" balance
       "Plan/Execution task split is balanced near 50:50 (40-60% range)."
       10 true).
  cbn [passed].
  split; [exact Hqa|].
  split. { rewrite Hchecks. reflexivity. }
  split; [exact Hb|].
  rewrite Hb in Hfail, Hpass, H23, H14.
  split.
  { rewrite <- Hfail. split; [by intros ->|by intros [= ->]]. }
  split.
  { rewrite <- Hpass. split; [by intros ->|by intros [= ->]]. }
  split.
  - intros HP HE. by injection (H23 HP HE).
  - intros HP HE. by injection (H14 HP HE).
Qed.

Lemma balance_rule_witness :
  (∃ score checks critical_failure c,
     run_qa sample_plan = Some (score, checks, critical_failure)
     ∧ filter (λ c, name c = "plan_execution_balance") checks = [c]
     ∧ passed c = true)
  ∧ (∃ score checks critical_failure c,
       run_qa one_four_plan = Some (score, checks, critical_failure)
       ∧ filter (λ c, name c = "plan_execution_balance") checks = [c]
       ∧ passed c = false).
Proof.
  split.
  - destruct (balance_rule sample_plan)
      as (score & checks & cf & c & Hqa & Hone & _ & _ & _ & H23 & _).
    { vm_compute. reflexivity. }
    exists score, checks, cf, c.
    split; [exact Hqa|]. split; [exact Hone|].
    apply H23; reflexivity.
  - destruct (balance_rule one_four_plan)
      as (score & checks & cf & c & Hqa & Hone & _ & _ & _ & _ & H14).
    { vm_compute. reflexivity. }
    exists score, checks, cf, c.
    split; [exact Hqa|]. split; [exact Hone|].
    apply H14; reflexivity.
Defined.

(** ** Repair keeps documents well formed and never raises on them *)

Lemma well_formed_insert plan k v :
  type_ok k v = true → well_formed plan = true →
  well_formed (<[k := v]> plan) = true.
Proof.
  unfold well_formed, type_ok. rewrite !forallb_forall.
  intros Hv Hwf [k' t] Hin. specialize (Hv _ Hin). specialize (Hwf _ Hin).
  unfold field_ok in *. cbn [fst snd] in *.
  destruct (decide (k = k')) as [->|Hne].
  - rewrite lookup_insert_eq. by rewrite String.eqb_refl in Hv.
  - by rewrite lookup_insert_ne.
Qed.

Lemma fill_falsy_well_formed key v plan :
  type_ok key v = true → well_formed plan = true →
  well_formed (fill_falsy key v plan) = true.
Proof.
  intros Hv Hwf. unfold fill_falsy.
  destruct (negb _); [by apply well_formed_insert|done].
Qed.

Lemma fill_failed_well_formed failed check key v plan :
  type_ok key v = true → well_formed plan = true →
  well_formed (fill_failed failed check key v plan) = true.
Proof.
  intros Hv Hwf. unfold fill_failed.
  destruct (bool_decide _); [by apply fill_falsy_well_formed|done].
Qed.

Lemma fill_short_well_formed failed check key n v plan :
  (key, TStrings) ∈ plan_schema →
  type_ok key v = true → well_formed plan = true →
  ∃ plan', fill_short failed check key n v plan = Some plan'
           ∧ well_formed plan' = true.
Proof.
  intros Hin Hv Hwf. unfold fill_short.
  destruct (bool_decide _); [|by eauto].
  rewrite (well_formed_len _ _ Hwf Hin). cbn [mbind option_bind].
  eexists. split; [done|].
  destruct (_ <? _); [by apply well_formed_insert|done].
Qed.

Lemma repair_options_well_formed failed plan :
  well_formed plan = true →
  ∃ plan', repair_options failed plan = Some plan'
           ∧ well_formed plan' = true.
Proof.
  intros Hwf. unfold repair_options.
  destruct (bool_decide _); [|by eauto].
  rewrite (well_formed_len plan "options") by (done || in_schema).
  cbn [mbind option_bind].
  destruct (_ <? _); [|by eauto].
  eexists. split; [done|].
  apply fill_falsy_well_formed; [done|]. by apply well_formed_insert.
Qed.

Lemma repair_axes_well_formed failed plan :
  well_formed plan = true → well_formed (repair_axes failed plan) = true.
Proof.
  intros Hwf. unfold repair_axes.
  destruct (bool_decide _); [|done].
  repeat (apply fill_falsy_well_formed; [done|]). done.
Qed.

Lemma fill_no_tasks_well_formed key v plan :
  (key, TStrings) ∈ plan_schema →
  type_ok key v = true → well_formed plan = true →
  ∃ plan', fill_no_tasks key v plan = Some plan'
           ∧ well_formed plan' = true.
Proof.
  intros Hin Hv Hwf. unfold fill_no_tasks.
  rewrite (well_formed_len _ _ Hwf Hin). cbn [mbind option_bind].
  eexists. split; [done|].
  destruct (_ =? _); [by apply well_formed_insert|done].
Qed.

Lemma repair_balance_well_formed failed plan :
  well_formed plan = true →
  ∃ plan', repair_balance failed plan = Some plan'
           ∧ well_formed plan' = true.
Proof.
  intros Hwf. unfold repair_balance.
  destruct (bool_decide _); [|by eauto].
  edestruct (fill_no_tasks_well_formed "plan_tasks") as (p1 & -> & Hwf1);
    [in_schema|reflexivity|exact Hwf|].
  cbn [mbind option_bind].
  by apply fill_no_tasks_well_formed; [in_schema|reflexivity|].
Qed.

Lemma auto_replan_stub_well_formed plan checks :
  well_formed plan = true →
  ∃ plan', auto_replan_stub plan checks = Some plan'
           ∧ well_formed plan' = true.
Proof.
  intros Hwf. unfold auto_replan_stub.
  set (failed := failed_names checks). cbn zeta.
  edestruct (repair_options_well_formed failed) as (p3 & -> & Hwf3).
  { apply fill_failed_well_formed; [reflexivity|].
    apply fill_failed_well_formed; [reflexivity|exact Hwf]. }
  cbn [mbind option_bind].
  edestruct (fill_short_well_formed failed "references_coverage" "references")
    as (p4 & -> & Hwf4); [in_schema|reflexivity|exact Hwf3|].
  cbn [mbind option_bind].
  edestruct (fill_short_well_formed failed "insight_axes_coverage" "insights")
    as (p5 & -> & Hwf5); [in_schema|reflexivity|exact Hwf4|].
  cbn [mbind option_bind].
  edestruct (repair_balance_well_formed failed) as (p7 & -> & Hwf7).
  { apply repair_axes_well_formed. exact Hwf5. }
  cbn [mbind option_bind].
  eexists. split; [done|].
  repeat (apply fill_failed_well_formed; [reflexivity|]). done.
Qed.

Lemma save_plan_well_formed now plan :
  well_formed plan = true → well_formed (save_plan now plan) = true.
Proof. intros Hwf. by apply well_formed_insert. Qed.

Lemma qa_auto_replan_total now plan :
  well_formed plan = true → is_Some (qa_auto_replan now plan).
Proof.
  intros Hwf. unfold qa_auto_replan.
  destruct (run_qa_total plan Hwf) as (score & checks & cf & ->).
  cbn [mbind option_bind].
  destruct (negb cf && (score <? 70)); [|done].
  destruct (auto_replan_stub_well_formed plan checks Hwf) as (p1 & -> & Hwf1).
  cbn [mbind option_bind].
  destruct (run_qa_total _ (save_plan_well_formed now p1 Hwf1))
    as (score2 & checks2 & cf2 & ->).
  done.
Qed.

(** C9.  On a well-formed document, with any fields empty, populated or
    missing, neither the assessment nor the repair raises: [run_qa] returns
    its verdicts, [auto_replan_stub] returns a well-formed document for any
    list of verdicts, and so does the whole assess, repair, assess again
    sequence of the commands. *)
Theorem qa_and_repair_total plan :
  well_formed plan = true →
  (∃ score checks critical_failure,
     run_qa plan = Some (score, checks, critical_failure))
  ∧ (∀ checks, ∃ plan',
       auto_replan_stub plan checks = Some plan'
       ∧ well_formed plan' = true)
  ∧ (∀ now, is_Some (qa_auto_replan now plan)).
Proof.
  intros Hwf. split; [by apply run_qa_total|]. split.
  - intros checks. by apply auto_replan_stub_well_formed.
  - intros now. by apply qa_auto_replan_total.
Qed.

Lemma qa_and_repair_total_witness :
  ∃ score checks critical_failure,
    run_qa (∅ : gmap string json) = Some (score, checks, critical_failure).
Proof.
  apply (qa_and_repair_total ∅). vm_compute. reflexivity.
Defined.

(** ** Orchestration *)

Lemma disposition_needs_replan score critical_failure :
  disposition score critical_failure = NEEDS_REPLAN
  ↔ critical_failure = false ∧ score < 70.
Proof.
  unfold disposition.
  destruct critical_failure, (Z.ltb_spec score 70); split;
    try done; try (by intros [? ?]); intros [_ ?]; lia.
Qed.

(** C4.  After the first assessment the [plan] and [replan] commands call
    the repair exactly when its disposition is [NEEDS_REPLAN] (no critical
    failure and a score below 70).  On [CRITICAL_FAILURE] or [PASS] the document is left as it
    is and nothing else is called; otherwise the repair runs once, the
    document is saved, and one re-assessment follows: there is no loop. *)
Theorem repair_iff_needs_replan now plan score checks critical_failure :
  well_formed plan = true →
  run_qa plan = Some (score, checks, critical_failure) →
  ∃ plan' trace,
    qa_auto_replan now plan = Some (plan', trace)
    ∧ (disposition score critical_failure = NEEDS_REPLAN
       ↔ critical_failure = false ∧ score < 70)
    ∧ (disposition score critical_failure = NEEDS_REPLAN ↔ repairs trace = 1%nat)
    ∧ (disposition score critical_failure ≠ NEEDS_REPLAN ↔ repairs trace = 0%nat)
    ∧ match disposition score critical_failure with
      | NEEDS_REPLAN =>
          ∃ repaired score2 checks2 critical_failure2,
            auto_replan_stub plan checks = Some repaired
            ∧ plan' = save_plan now repaired
            ∧ run_qa plan' = Some (score2, checks2, critical_failure2)
            ∧ engine_calls trace
              = [ Assessed score checks critical_failure;
                  Repaired (failed_names checks);
                  Assessed score2 checks2 critical_failure2 ]
      | _ =>
          plan' = plan
          ∧ engine_calls trace = [Assessed score checks critical_failure]
      end.
Proof.
  intros Hwf Hqa. unfold qa_auto_replan. rewrite Hqa.
  cbn [mbind option_bind].
  pose proof (disposition_needs_replan score critical_failure) as Hd.
  unfold disposition in *.
  destruct critical_failure; cbn [negb andb].
  { eexists _, _. split; [done|]. split; [done|]. by repeat split. }
  destruct (score <? 70) eqn:Hlow.
  - destruct (auto_replan_stub_well_formed plan checks Hwf)
      as (repaired & Hrep & Hwf1).
    rewrite Hrep. cbn [mbind option_bind].
    destruct (run_qa_total _ (save_plan_well_formed now repaired Hwf1))
      as (score2 & checks2 & cf2 & Hqa2).
    rewrite Hqa2. cbn [mbind option_bind].
    eexists _, _. split; [done|]. split; [done|].
    split; [by split|]. split; [by split|].
    by exists repaired, score2, checks2, cf2.
  - eexists _, _. split; [done|]. split; [done|]. by repeat split.
Qed.

Lemma repair_iff_needs_replan_witness :
  ∃ plan' trace,
    qa_auto_replan "2026-11-02T00:00:00+00:00" sample_plan
    = Some (plan', trace)
    ∧ repairs trace = 1%nat.
Proof.
  destruct (repair_iff_needs_replan "2026-11-02T00:00:00+00:00" sample_plan
              35 (rubric sample_plan 0 0 true) false)
    as (plan' & trace & Hrun & _ & Hone & _).
  - vm_compute. reflexivity.
  - vm_compute. reflexivity.
  - exists plan', trace. split; [exact Hrun|]. apply Hone. reflexivity.
Defined.

(** ** What the repair rewrites *)

Lemma rewrites_refl keys plan : rewrites keys plan plan.
Proof. intros k. by left. Qed.

Lemma rewrites_trans keys1 keys2 plan1 plan2 plan3 :
  rewrites keys1 plan1 plan2 → rewrites keys2 plan2 plan3 →
  rewrites (keys1 ++ keys2) plan1 plan3.
Proof.
  intros H12 H23 k.
  destruct (H12 k) as [E12|(Hin & Hrep & Hsome)].
  - destruct (H23 k) as [E23|(Hin & Hrep & Hsome)].
    + left. congruence.
    + right. unfold py_get in *. rewrite <- E12.
      split; [|done]. apply elem_of_app. by right.
  - right. split; [apply elem_of_app; by left|]. split; [done|].
    destruct (H23 k) as [E23|(_ & _ & ?)]; [by rewrite E23|done].
Qed.

Lemma rewrites_weaken keys keys' plan plan' :
  keys ⊆ keys' → rewrites keys plan plan' → rewrites keys' plan plan'.
Proof.
  intros Hsub H k. destruct (H k) as [?|(Hin & ? & ?)]; [by left|].
  right. split; [by apply Hsub|done].
Qed.

Lemma rewrites_insert key v plan :
  replaceable key (py_get plan key) → rewrites [key] plan (<[key := v]> plan).
Proof.
  intros Hrep k. destruct (decide (key = k)) as [<-|Hne].
  - right. rewrite lookup_insert_eq. split; [set_solver|]. by split.
  - left. by rewrite lookup_insert_ne.
Qed.

Lemma fill_falsy_rewrites key v plan :
  rewrites [key] plan (fill_falsy key v plan).
Proof.
  unfold fill_falsy. destruct (py_truthy (py_get plan key)) eqn:Ht.
  - apply rewrites_refl.
  - apply rewrites_insert. by left.
Qed.

Lemma fill_failed_rewrites failed check key v plan :
  rewrites [key] plan (fill_failed failed check key v plan).
Proof.
  unfold fill_failed. destruct (bool_decide _).
  - apply fill_falsy_rewrites.
  - apply rewrites_refl.
Qed.

(** A key that is missing reads as [None], which is empty. *)
Lemma short_replaceable key n (plan : gmap string json) len :
  (∀ v, short n v → replaceable key v) →
  py_len (py_get_or plan key (JList [])) = Some len → len < n →
  replaceable key (py_get plan key).
Proof.
  intros Hshort Hlen Hlt. unfold py_get_or, py_get in *.
  destruct (plan !! key) as [v|]; [|by left].
  apply Hshort. by exists len.
Qed.

Lemma fill_short_rewrites failed check key n v plan plan' :
  (∀ v, short n v → replaceable key v) →
  fill_short failed check key n v plan = Some plan' →
  rewrites [key] plan plan'.
Proof.
  intros Hshort. unfold fill_short.
  destruct (bool_decide _); [|intros [= <-]; apply rewrites_refl].
  destruct (py_len _) as [len|] eqn:Hlen; [|done].
  cbn [mbind option_bind]. intros [= <-].
  destruct (Z.ltb_spec len n); [|apply rewrites_refl].
  apply rewrites_insert. by eapply short_replaceable.
Qed.

Lemma repair_options_rewrites failed plan plan' :
  repair_options failed plan = Some plan' →
  rewrites ["options"; "selected_option"] plan plan'.
Proof.
  unfold repair_options.
  destruct (bool_decide _); [|intros [= <-]; apply rewrites_refl].
  destruct (py_len _) as [len|] eqn:Hlen; [|done].
  cbn [mbind option_bind].
  destruct (Z.ltb_spec len 2); intros [= <-]; [|apply rewrites_refl].
  eapply (rewrites_trans ["options"] ["selected_option"]).
  - apply rewrites_insert. eapply short_replaceable; [|done..].
    intros v Hv. right. by left.
  - apply fill_falsy_rewrites.
Qed.

Lemma repair_axes_rewrites failed plan :
  rewrites insight_axes plan (repair_axes failed plan).
Proof.
  unfold repair_axes. destruct (bool_decide _); [|apply rewrites_refl].
  cbn zeta. unfold insight_axes.
  repeat (eapply (rewrites_trans [_] (_ :: _));
          [apply fill_falsy_rewrites|]).
  apply fill_falsy_rewrites.
Qed.

Lemma len_zero_falsy v : py_len v = Some 0 → py_truthy v = false.
Proof.
  destruct v as [| | | |s|l|m]; try done; cbn; intros [= Hlen].
  - by destruct s.
  - by destruct l.
  - by destruct (size m).
Qed.

Lemma fill_no_tasks_rewrites key v plan plan' :
  fill_no_tasks key v plan = Some plan' → rewrites [key] plan plan'.
Proof.
  unfold fill_no_tasks.
  destruct (py_len _) as [len|] eqn:Hlen; [|done].
  cbn [mbind option_bind]. intros [= <-].
  destruct (Z.eqb_spec len 0) as [->|]; [|apply rewrites_refl].
  apply rewrites_insert. left. unfold py_get_or, py_get in *.
  destruct (plan !! key); [by apply len_zero_falsy|done].
Qed.

Lemma repair_balance_rewrites failed plan plan' :
  repair_balance failed plan = Some plan' →
  rewrites ["plan_tasks"; "execution_tasks"] plan plan'.
Proof.
  unfold repair_balance.
  destruct (bool_decide _); [|intros [= <-]; apply rewrites_refl].
  destruct (fill_no_tasks "plan_tasks" _ plan) as [p1|] eqn:H1; [|done].
  cbn [mbind option_bind]. intros H2.
  apply (rewrites_trans ["plan_tasks"] ["execution_tasks"] _ p1);
    by eapply fill_no_tasks_rewrites.
Qed.

Lemma rewrites_outside keys plan plan' k :
  rewrites keys plan plan' → k ∉ keys → plan' !! k = plan !! k.
Proof. intros H Hk. by destruct (H k) as [?|[? _]]. Qed.

(** The statements of [auto_replan_stub] before, at and after the one for
    [options_comparison]. *)
Lemma auto_replan_stub_inv plan checks plan' :
  auto_replan_stub plan checks = Some plan' →
  ∃ plan2 plan3,
    rewrites keys_before_options plan plan2
    ∧ repair_options (failed_names checks) plan2 = Some plan3
    ∧ rewrites keys_after_options plan3 plan'.
Proof.
  unfold auto_replan_stub. set (failed := failed_names checks). cbn zeta.
  set (plan2 := fill_failed failed "assumptions" _ _ _).
  destruct (repair_options failed plan2) as [plan3|] eqn:H3; [|done].
  cbn [mbind option_bind].
  destruct (fill_short _ _ "references" _ _ plan3) as [plan4|] eqn:H4; [|done].
  cbn [mbind option_bind].
  destruct (fill_short _ _ "insights" _ _ plan4) as [plan5|] eqn:H5; [|done].
  cbn [mbind option_bind].
  destruct (repair_balance failed _) as [plan7|] eqn:H7; [|done].
  cbn [mbind option_bind]. intros [= <-].
  exists plan2, plan3. split; [|split; [done|]].
  - apply (rewrites_trans ["constraints"] ["assumptions"] _ _ _
             (fill_failed_rewrites _ _ _ _ _) (fill_failed_rewrites _ _ _ _ _)).
  - unfold keys_after_options.
    eapply (rewrites_trans [_] (_ :: _)).
    { eapply fill_short_rewrites; [|exact H4]. intros v Hv. right. right. by left. }
    eapply (rewrites_trans [_] (_ ++ _)).
    { eapply fill_short_rewrites; [|exact H5]. intros v Hv. by do 3 right. }
    eapply rewrites_trans; [apply (repair_axes_rewrites failed)|].
    eapply (rewrites_trans [_; _] (_ :: _)).
    { eapply repair_balance_rewrites. exact H7. }
    repeat (eapply (rewrites_trans [_] (_ :: _));
            [eapply fill_failed_rewrites|]).
    apply fill_failed_rewrites.
Qed.

Lemma auto_replan_stub_rewrites plan checks plan' :
  auto_replan_stub plan checks = Some plan' →
  rewrites (keys_before_options ++ ["options"; "selected_option"]
            ++ keys_after_options) plan plan'.
Proof.
  intros (plan2 & plan3 & H2 & H3 & H')%auto_replan_stub_inv.
  eapply rewrites_trans; [exact H2|].
  eapply rewrites_trans; [eapply repair_options_rewrites; exact H3|done].
Qed.





(** ** The repair of [options_comparison] *)

Lemma not_in_keys_before_options k :
  k = "options" ∨ k = "selected_option" → k ∉ keys_before_options.
Proof.
  unfold keys_before_options.
  intros [-> | ->] Hin%list_elem_of_In; cbn in Hin; intuition discriminate.
Qed.

Lemma not_in_keys_after_options k :
  k = "options" ∨ k = "selected_option" → k ∉ keys_after_options.
Proof.
  unfold keys_after_options, insight_axes.
  intros [-> | ->] Hin%list_elem_of_In; cbn in Hin; intuition discriminate.
Qed.

(** The repair reads and writes [options] and [selected_option] only in
    its [options_comparison] statement. *)
Lemma auto_replan_stub_options plan checks plan' :
  auto_replan_stub plan checks = Some plan' →
  ∃ plan2 plan3,
    plan2 !! "options" = plan !! "options"
    ∧ plan2 !! "selected_option" = plan !! "selected_option"
    ∧ repair_options (failed_names checks) plan2 = Some plan3
    ∧ plan' !! "options" = plan3 !! "options"
    ∧ plan' !! "selected_option" = plan3 !! "selected_option".
Proof.
  intros (plan2 & plan3 & H2 & H3 & H')%auto_replan_stub_inv.
  exists plan2, plan3.
  repeat split; try done;
    eapply rewrites_outside; try done;
    (apply not_in_keys_before_options || apply not_in_keys_after_options);
    auto.
Qed.

(** C6, as the code has it.  When [options_comparison] is among the failed
    checks and [options] has fewer than two entries, the repair sets
    [options] to exactly three generic options (conservative, balanced,
    aggressive), and sets [selected_option] to the balanced one when it is
    empty; a selection already made is kept. *)
Theorem repair_gives_three_options plan checks plan' len :
  "options_comparison" ∈ failed_names checks →
  py_len (py_get_or plan "options" (JList [])) = Some len → len < 2 →
  auto_replan_stub plan checks = Some plan' →
  plan' !! "options" = Some three_options
  ∧ length (entries plan' "options") = 3%nat
  ∧ (py_truthy (py_get plan "selected_option") = false →
     plan' !! "selected_option"
     = Some (JStr "Balanced option: medium scope with staged rollout."))
  ∧ (py_truthy (py_get plan "selected_option") = true →
     plan' !! "selected_option" = plan !! "selected_option").
Proof.
  intros Hfailed Hlen Hlt
    (plan2 & plan3 & Ho2 & Hs2 & H3 & Ho' & Hs')%auto_replan_stub_options.
  unfold repair_options in H3.
  rewrite bool_decide_eq_true_2 in H3 by done.
  unfold py_get_or in H3 at 1. rewrite Ho2 in H3.
  unfold py_get_or in Hlen. rewrite Hlen in H3. cbn [mbind option_bind] in H3.
  destruct (Z.ltb_spec len 2); [|lia]. injection H3 as <-.
  unfold fill_falsy, py_get in Ho', Hs'.
  rewrite lookup_insert_ne, Hs2 in Hs' by done.
  rewrite lookup_insert_ne, Hs2 in Ho' by done.
  assert (plan' !! "options" = Some three_options) as Hopt.
  { rewrite Ho'. destruct (negb _).
    - rewrite lookup_insert_ne by done. by rewrite lookup_insert_eq.
    - by rewrite lookup_insert_eq. }
  split; [done|]. split; [unfold entries; by rewrite Hopt|].
  unfold py_get. split; intros Ht; rewrite Ht in Hs'; cbn [negb] in Hs'.
  - by rewrite Hs', lookup_insert_eq.
  - by rewrite Hs', lookup_insert_ne.
Qed.

Lemma repair_gives_three_options_witness :
  ∃ plan',
    auto_replan_stub sample_plan (rubric sample_plan 0 0 true) = Some plan'
    ∧ plan' !! "options" = Some three_options.
Proof.
  destruct (auto_replan_stub_well_formed sample_plan
              (rubric sample_plan 0 0 true))
    as (plan' & Hrep & _); [vm_compute; reflexivity|].
  exists plan'. split; [exact Hrep|].
  apply (repair_gives_three_options sample_plan
           (rubric sample_plan 0 0 true) plan' 0).
  - apply list_elem_of_In. vm_compute. tauto.
  - vm_compute. reflexivity.
  - lia.
  - exact Hrep.
Defined.

Example sample_plan_repaired :
  run_qa sample_plan = Some (35, rubric sample_plan 0 0 true, false)
  ∧ entries sample_plan "options" = []
  ∧ (plan' ← auto_replan_stub sample_plan (rubric sample_plan 0 0 true);
     plan' !! "options") = Some three_options
  ∧ (plan' ← auto_replan_stub sample_plan (rubric sample_plan 0 0 true);
     r ← run_qa plan'; Some (r.1.1, r.2)) = Some (100, false).
Proof. repeat split; vm_compute; reflexivity. Qed.

(** C6, as the specification states it, fails: [sample_plan] fails
    [options_comparison] with an empty [options], and after the repair
    [options] has three entries, not two. *)
Lemma repair_inserts_three_not_two : ¬ repair_inserts_two_options.
Proof.
  intros Hclaim.
  destruct sample_plan_repaired as (Hqa & Hold & Hnew & _).
  destruct (auto_replan_stub sample_plan _) as [plan'|] eqn:Hrep;
    [|discriminate Hnew].
  cbn [mbind option_bind] in Hnew.
  destruct (Hclaim _ _ _ _ plan' Hqa) as [Hlen _].
  - apply list_elem_of_In. vm_compute. tauto.
  - exact Hrep.
  - unfold entries in Hlen at 1. rewrite Hnew, Hold in Hlen.
    discriminate Hlen.
Qed.

Lemma options_comparison_fails plan n_options n_references balance :
  non_empty (py_get plan "selected_option") = false →
  ∀ c, c ∈ rubric plan n_options n_references balance →
       name c = "options_comparison" → passed c = false.
Proof.
  intros Hsel c Hin%list_elem_of_In. unfold rubric in Hin. cbn [In] in Hin.
  repeat (destruct Hin as [<-|Hin]; [cbn [name passed]; try discriminate|]);
    [|done].
  intros _. by rewrite Hsel, andb_false_r.
Qed.

(** C10.  When [options] already has two or more entries and
    [selected_option] is blank, the repair changes neither of them,
    whatever checks it is told have failed, and the re-assessment of the
    repaired document still fails [options_comparison]. *)
Theorem repair_keeps_unselected_options plan checks plan' opts :
  well_formed plan = true →
  plan !! "options" = Some (JList opts) → (2 <= length opts)%nat →
  non_empty (py_get plan "selected_option") = false →
  auto_replan_stub plan checks = Some plan' →
  plan' !! "options" = plan !! "options"
  ∧ plan' !! "selected_option" = plan !! "selected_option"
  ∧ ∃ score checks' critical_failure,
      run_qa plan' = Some (score, checks', critical_failure)
      ∧ (∃ c, c ∈ checks' ∧ name c = "options_comparison")
      ∧ (∀ c, c ∈ checks' → name c = "options_comparison" →
              passed c = false).
Proof.
  intros Hwf Hopts Hlen Hsel Hrep.
  destruct (auto_replan_stub_well_formed plan checks Hwf)
    as (plan'' & Hrep' & Hwf').
  rewrite Hrep in Hrep'. injection Hrep' as <-.
  destruct (auto_replan_stub_options _ _ _ Hrep)
    as (plan2 & plan3 & Ho2 & Hs2 & H3 & Ho' & Hs').
  assert (plan3 = plan2) as ->.
  { unfold repair_options in H3. destruct (bool_decide _); [|congruence].
    unfold py_get_or in H3. rewrite Ho2, Hopts in H3.
    cbn [default id py_len mbind option_bind] in H3.
    destruct (Z.ltb_spec (Z.of_nat (length opts)) 2); [lia|congruence]. }
  assert (plan' !! "selected_option" = plan !! "selected_option") as Hs
    by congruence.
  split; [congruence|]. split; [done|].
  destruct (run_qa_total plan' Hwf') as (score & checks' & cf & Hqa).
  exists score, checks', cf. split; [done|].
  apply run_qa_inv in Hqa
    as (n_options & n_references & balance & _ & _ & _ & -> & _).
  split.
  - eexists. split; [|].
    + apply list_elem_of_In. unfold rubric. do 4 right. left. reflexivity.
    + reflexivity.
  - apply options_comparison_fails. unfold py_get. by rewrite Hs.
Qed.

Lemma repair_keeps_unselected_options_witness :
  ∃ plan',
    auto_replan_stub unselected_plan (rubric unselected_plan 2 0 true)
    = Some plan'
    ∧ plan' !! "options" = unselected_plan !! "options".
Proof.
  destruct (auto_replan_stub_well_formed unselected_plan
              (rubric unselected_plan 2 0 true))
    as (plan' & Hrep & _); [vm_compute; reflexivity|].
  exists plan'. split; [exact Hrep|].
  apply (repair_keeps_unselected_options unselected_plan
           (rubric unselected_plan 2 0 true) plan' [JStr "Small"; JStr "Large"]).
  - vm_compute. reflexivity.
  - vm_compute. reflexivity.
  - cbn. lia.
  - vm_compute. reflexivity.
  - exact Hrep.
Defined.

(** ** Migration *)

Lemma fold_setdefault_lookup (defaults : list (string * json)) :
  ∀ (plan : gmap string json) k,
    foldl (λ p kd, setdefault kd.1 kd.2 p) plan defaults !! k
    = match plan !! k with
      | Some v => Some v
      | None => (list_to_map defaults : gmap string json) !! k
      end.
Proof.
  induction defaults as [|[k0 d0] defaults IH]; intros plan k.
  - cbn. rewrite lookup_empty. by destruct (plan !! k).
  - cbn [foldl fst snd]. rewrite IH, list_to_map_cons. unfold setdefault.
    destruct (plan !! k0) as [v0|] eqn:H0.
    + destruct (plan !! k) eqn:Hk; [done|].
      rewrite lookup_insert_ne; [done|congruence].
    + destruct (decide (k0 = k)) as [<-|Hne].
      * by rewrite H0, !lookup_insert_eq.
      * by rewrite !lookup_insert_ne.
Qed.

Lemma fill_defaults_lookup now (plan : gmap string json) k :
  fill_defaults now plan !! k
  = match plan !! k with
    | Some v => Some v
    | None => default_plan now !! k
    end.
Proof. apply fold_setdefault_lookup. Qed.

(** Which keys have a default does not depend on the clock. *)
Lemma default_plan_keys now1 now2 k :
  default_plan now1 !! k = None → default_plan now2 !! k = None.
Proof.
  unfold default_plan. rewrite <- !not_elem_of_list_to_map.
  intros H. exact H.
Qed.

Lemma split_legacy_tasks_lookup plan plan' k :
  split_legacy_tasks plan = Some plan' →
  k ≠ "plan_tasks" → k ≠ "execution_tasks" →
  plan' !! k = plan !! k.
Proof.
  unfold split_legacy_tasks. intros H Hp He.
  destruct (_ && _); [|congruence].
  destruct (py_len _) as [n|]; [|done]. cbn [mbind option_bind] in H.
  destruct (py_slice_to _ _) as [a|]; [|done]. cbn [mbind option_bind] in H.
  destruct (py_slice_from _ _) as [b|]; [|done]. cbn [mbind option_bind] in H.
  injection H as <-. by rewrite !lookup_insert_ne.
Qed.

Lemma split_legacy_tasks_skip plan :
  plan !! "tasks" = None
  ∨ is_Some (plan !! "plan_tasks") ∨ is_Some (plan !! "execution_tasks") →
  split_legacy_tasks plan = Some plan.
Proof.
  unfold split_legacy_tasks, py_in.
  intros [->|[[? ->]|[? ->]]]; [done|..].
  - by rewrite andb_false_r.
  - by rewrite !andb_false_r.
Qed.

(** A migrated document is a fixed point of the migration, whatever the
    clock says at the second call. *)
Lemma migrate_plan_fixed now (plan : gmap string json) :
  plan !! "tasks" = None →
  plan !! "version" = Some (JStr SCHEMA_VERSION) →
  (∀ k, plan !! k = None → default_plan now !! k = None) →
  migrate_plan now plan = Some plan.
Proof.
  intros Htasks Hversion Hkeys. unfold migrate_plan.
  rewrite split_legacy_tasks_skip by by left.
  cbn [mbind option_bind]. f_equal.
  rewrite delete_id by done.
  apply map_eq. intros k.
  destruct (decide (k = "version")) as [->|Hne].
  - by rewrite lookup_insert_eq.
  - rewrite lookup_insert_ne by done. rewrite fill_defaults_lookup.
    destruct (plan !! k) eqn:Hk; [done|]. by apply Hkeys.
Qed.

Lemma migrate_plan_inv now plan plan' :
  migrate_plan now plan = Some plan' →
  ∃ plan1,
    split_legacy_tasks plan = Some plan1
    ∧ plan' !! "version" = Some (JStr SCHEMA_VERSION)
    ∧ plan' !! "tasks" = None
    ∧ ∀ k, k ≠ "version" → k ≠ "tasks" →
        plan' !! k = match plan1 !! k with
                     | Some v => Some v
                     | None => default_plan now !! k
                     end.
Proof.
  unfold migrate_plan. intros H.
  destruct (split_legacy_tasks plan) as [plan1|]; [|done].
  cbn [mbind option_bind] in H. apply (inj Some) in H. subst plan'.
  exists plan1. split; [done|]. split; [apply lookup_insert_eq|]. split.
  - rewrite lookup_insert_ne by done. rewrite fill_defaults_lookup.
    rewrite lookup_delete_eq. apply not_elem_of_list_to_map.
    intros Hin%list_elem_of_In. cbn in Hin. intuition discriminate.
  - intros k Hv Ht. rewrite lookup_insert_ne by done.
    rewrite fill_defaults_lookup. by rewrite lookup_delete_ne.
Qed.


Lemma split_legacy_tasks_list plan l :
  plan !! "tasks" = Some (JList l) →
  plan !! "plan_tasks" = None → plan !! "execution_tasks" = None →
  split_legacy_tasks plan
  = Some (<["execution_tasks" := JList (drop (length l / 2) l)]>
            (<["plan_tasks" := JList (take (length l / 2) l)]> plan)).
Proof.
  intros Ht Hp He. unfold split_legacy_tasks, py_in, py_get_or.
  rewrite Ht, Hp, He.
  cbn [andb negb default id py_len py_slice_to py_slice_from mbind option_bind].
  replace (Z.to_nat (Z.of_nat (length l) `div` 2)) with (length l / 2)%nat;
    [done|].
  change 2 with (Z.of_nat 2). by rewrite <- Nat2Z.inj_div, Nat2Z.id.
Qed.

Lemma migrate_plan_total now plan :
  plan !! "tasks" = None ∨ (∃ l, plan !! "tasks" = Some (JList l)) →
  is_Some (migrate_plan now plan).
Proof.
  intros Htasks. unfold migrate_plan.
  assert (is_Some (split_legacy_tasks plan)) as [plan1 ->]; [|done].
  destruct Htasks as [Hnone|[l Hl]].
  { rewrite split_legacy_tasks_skip; [done|by left]. }
  destruct (plan !! "plan_tasks") as [v|] eqn:Hp.
  { rewrite split_legacy_tasks_skip; [done|]. right. left. by rewrite Hp. }
  destruct (plan !! "execution_tasks") as [v|] eqn:He.
  { rewrite split_legacy_tasks_skip; [done|]. right. right. by rewrite He. }
  by rewrite (split_legacy_tasks_list plan l).
Qed.

Lemma default_plan_values now k v :
  default_plan now !! k = Some v →
  (k = "version" ∧ v = JStr SCHEMA_VERSION)
  ∨ (k = "updated_at" ∧ v = JStr now)
  ∨ v = JStr "" ∨ v = JList [].
Proof.
  unfold default_plan. intros Hin%elem_of_list_to_map_2%list_elem_of_In.
  unfold plan_defaults in Hin. cbn [In] in Hin.
  repeat (destruct Hin as [[= <- <-]|Hin]; [tauto|]). done.
Qed.

Example mixed_legacy_plan_migrated :
  mixed_legacy_plan !! "version" = Some (JStr "0.2.0")
  ∧ mixed_legacy_plan !! "tasks" = Some (strs ["Draft"; "Review"])
  ∧ (plan' ← migrate_plan "2026-11-01T00:00:00+00:00" mixed_legacy_plan;
     Some (plan' !! "version", plan' !! "tasks", plan' !! "plan_tasks",
           plan' !! "execution_tasks"))
    = Some (Some (JStr "0.3.0"), None, Some (strs ["Scope"]), Some (JList [])).
Proof. repeat split; vm_compute; reflexivity. Qed.

(** C8, as the specification states it, fails on [mixed_legacy_plan]: the
    migration drops [tasks] without splitting it, because [plan_tasks] is
    already there, and it replaces the existing version "0.2.0" by
    "0.3.0". *)
Lemma migration_alters_version_and_tasks : ¬ migration_alters_nothing.
Proof.
  intros Hclaim.
  destruct mixed_legacy_plan_migrated as (_ & Htasks & Hnew).
  destruct (migrate_plan _ mixed_legacy_plan) as [plan'|] eqn:Hmig;
    [|discriminate Hnew].
  cbn [mbind option_bind] in Hnew.
  specialize (Hclaim _ _ _ _ _ Hmig Htasks).
  rewrite Hclaim in Hnew; [discriminate Hnew|].
  intros [_ (_ & Hplan_tasks & _)]. vm_compute in Hplan_tasks.
  discriminate Hplan_tasks.
Qed.

(** C8, as the code has it.  The migration always removes [tasks] and
    always sets [version] to the current schema tag.  Every other key of
    the input keeps its value.  [tasks] is split, at half its length
    rounded down, into [plan_tasks] and [execution_tasks] only when it is
    a key and neither of the two is.  Every other key that is missing gets
    its default: the empty string or the empty list, and the current time
    for [updated_at]. *)
Theorem migration_frame now plan plan' :
  migrate_plan now plan = Some plan' →
  plan' !! "tasks" = None
  ∧ plan' !! "version" = Some (JStr SCHEMA_VERSION)
  ∧ (∀ k v, k ≠ "tasks" → k ≠ "version" →
            plan !! k = Some v → plan' !! k = Some v)
  ∧ (∀ l, plan !! "tasks" = Some (JList l) →
          plan !! "plan_tasks" = None → plan !! "execution_tasks" = None →
          plan' !! "plan_tasks" = Some (JList (take (length l / 2) l))
          ∧ plan' !! "execution_tasks"
            = Some (JList (drop (length l / 2) l)))
  ∧ (∀ k, k ≠ "tasks" → k ≠ "version" → plan !! k = None →
          ¬ split_applies plan
          ∨ (k ≠ "plan_tasks" ∧ k ≠ "execution_tasks") →
          plan' !! k = default_plan now !! k)
  ∧ (∀ k v, default_plan now !! k = Some v →
            (k = "version" ∧ v = JStr SCHEMA_VERSION)
            ∨ (k = "updated_at" ∧ v = JStr now)
            ∨ v = JStr "" ∨ v = JList []).
Proof.
  intros (plan1 & Hsplit & Hv & Ht & Hk)%migrate_plan_inv.
  split; [done|]. split; [done|]. split; [|split; [|split]].
  - intros k v Hnt Hnv Hold. rewrite Hk by done.
    destruct (decide (k = "plan_tasks")) as [->|Hnp];
      [rewrite split_legacy_tasks_skip in Hsplit
         by (right; left; by rewrite Hold);
       injection Hsplit as <-; by rewrite Hold|].
    destruct (decide (k = "execution_tasks")) as [->|Hne];
      [rewrite split_legacy_tasks_skip in Hsplit
         by (right; right; by rewrite Hold);
       injection Hsplit as <-; by rewrite Hold|].
    by rewrite (split_legacy_tasks_lookup _ _ _ Hsplit), Hold.
  - intros l Hl Hp He.
    rewrite (split_legacy_tasks_list _ _ Hl Hp He) in Hsplit.
    apply (inj Some) in Hsplit. subst plan1.
    rewrite !Hk by done.
    rewrite lookup_insert_ne, lookup_insert_eq by done.
    by rewrite lookup_insert_eq.
  - intros k Hnt Hnv Hnone Hcase. rewrite Hk by done.
    destruct Hcase as [Hno|[Hnp Hne]].
    + rewrite split_legacy_tasks_skip in Hsplit.
      * apply (inj Some) in Hsplit. subst plan1. by rewrite Hnone.
      * unfold split_applies in Hno.
        destruct (plan !! "tasks"); [|by left].
        destruct (plan !! "plan_tasks"); [right; by left|].
        destruct (plan !! "execution_tasks"); [right; by right|].
        destruct Hno. by split.
    + by rewrite (split_legacy_tasks_lookup _ _ _ Hsplit), Hnone.
  - apply default_plan_values.
Qed.

Lemma migration_frame_witness :
  ∃ plan',
    migrate_plan "2026-11-01T00:00:00+00:00" legacy_plan = Some plan'
    ∧ plan' !! "tasks" = None.
Proof.
  destruct (migrate_plan_total "2026-11-01T00:00:00+00:00" legacy_plan)
    as [plan' Hmig].
  { right. exists [JStr "Draft"; JStr "Review"; JStr "Ship"].
    vm_compute. reflexivity. }
  exists plan'. split; [exact Hmig|].
  exact (proj1 (migration_frame _ _ _ Hmig)).
Defined.

Example legacy_plan_migrated :
  (plan' ← migrate_plan "2026-11-01T00:00:00+00:00" legacy_plan;
   Some (plan' !! "tasks", plan' !! "plan_tasks", plan' !! "execution_tasks"))
  = Some (None, Some (strs ["Draft"]), Some (strs ["Review"; "Ship"])).
Proof. vm_compute. reflexivity. Qed.

(** * Further properties of the code *)

(** ** Trimming and comma-separated flags *)

Lemma lstrip_head s :
  lstrip s = "" ∨ ∃ c s', lstrip s = String c s' ∧ py_isspace c = false.
Proof.
  induction s as [|c s IH]; [by left|]. cbn [lstrip].
  destruct (py_isspace c) eqn:Hc; [done|]. right. eauto.
Qed.

Lemma lstrip_fixed c s : py_isspace c = false → lstrip (String c s) = String c s.
Proof. intros Hc. cbn [lstrip]. by rewrite Hc. Qed.

Lemma rstrip_head c s :
  py_isspace c = false → ∃ s', rstrip (String c s) = String c s'.
Proof.
  intros Hc. cbn [rstrip]. destruct (rstrip s); [rewrite Hc|]; eauto.
Qed.

Lemma rstrip_cons c s :
  rstrip (String c s)
  = match rstrip s with
    | EmptyString => if py_isspace c then EmptyString else String c EmptyString
    | r => String c r
    end.
Proof. reflexivity. Qed.

Lemma rstrip_idempotent s : rstrip (rstrip s) = rstrip s.
Proof.
  induction s as [|c s IH]; [done|]. rewrite rstrip_cons.
  destruct (rstrip s) as [|c' r] eqn:Hr.
  - destruct (py_isspace c) eqn:Hc; [done|]. rewrite rstrip_cons.
    cbn [rstrip]. by rewrite Hc.
  - rewrite rstrip_cons, IH. done.
Qed.

Lemma strip_idempotent s : strip (strip s) = strip s.
Proof.
  unfold strip. destruct (lstrip_head s) as [->|(c & s' & -> & Hc)]; [done|].
  destruct (rstrip_head c s' Hc) as [r Hr]. rewrite Hr.
  rewrite (lstrip_fixed _ _ Hc), <- Hr. apply rstrip_idempotent.
Qed.

Lemma strip_space_cons c s :
  py_isspace c = true → strip (String c s) = strip s.
Proof. intros Hc. unfold strip. cbn [lstrip]. by rewrite Hc. Qed.

Lemma lstrip_chars s c : c ∈ chars (lstrip s) → c ∈ chars s.
Proof.
  unfold chars. induction s as [|c0 s IH]; [done|]. cbn [lstrip].
  destruct (py_isspace c0); [|done].
  intros Hin%IH. cbn. apply elem_of_cons. by right.
Qed.

Lemma rstrip_chars s c : c ∈ chars (rstrip s) → c ∈ chars s.
Proof.
  unfold chars. induction s as [|c0 s IH]; [done|]. cbn [rstrip].
  destruct (rstrip s) as [|c' r].
  - destruct (py_isspace c0); [by intros ?%elem_of_nil|].
    cbn. intros [->|?%elem_of_nil]%elem_of_cons; [|done]. by left.
  - cbn. intros [->|Hin]%elem_of_cons; [by left|].
    apply elem_of_cons. right. by apply IH.
Qed.

Lemma strip_chars s c : c ∈ chars (strip s) → c ∈ chars s.
Proof. unfold strip. by intros ?%rstrip_chars%lstrip_chars. Qed.

Lemma split_comma_no_comma v x :
  x ∈ split_comma v → ("," : ascii) ∉ chars x.
Proof.
  unfold chars. revert x. induction v as [|c v IH]; intros x.
  - cbn. intros ->%list_elem_of_singleton. cbn. by intros ?%elem_of_nil.
  - cbn [split_comma]. destruct (Ascii.eqb_spec c ",") as [->|Hc].
    + intros [->|Hin]%elem_of_cons; [cbn; by intros ?%elem_of_nil|by apply IH].
    + destruct (split_comma v) as [|y ys] eqn:Hv.
      * intros ->%list_elem_of_singleton. cbn.
        intros [?|?%elem_of_nil]%elem_of_cons; congruence.
      * intros [->|Hin]%elem_of_cons.
        -- cbn. intros [?|Hin]%elem_of_cons; [congruence|].
           by apply (IH y); [left|].
        -- apply IH. by right.
Qed.

(** X1.  Every entry that [parse_csv] returns is trimmed, is not empty and
    contains no comma; parsing a flag that holds only blanks and commas
    gives the empty list. *)
Theorem parse_csv_tokens v :
  (∀ x, x ∈ parse_csv v → is_token x)
  ∧ (Forall (λ c, c = ("," : ascii) ∨ py_isspace c = true) (chars v) →
     parse_csv v = []).
Proof.
  split.
  - intros x. unfold parse_csv.
    intros (y & -> & Hy)%list_elem_of_fmap.
    apply list_elem_of_In, filter_In in Hy as [Hin%list_elem_of_In Hne].
    apply negb_true_iff, String.eqb_neq in Hne.
    split; [apply strip_idempotent|]. split; [done|].
    intros Hc%strip_chars. by apply (split_comma_no_comma v y).
  - unfold parse_csv, chars. induction v as [|c v IH]; [done|].
    cbn [String.list_ascii_of_string]. intros [Hc Hv]%Forall_cons.
    specialize (IH Hv). cbn [split_comma].
    destruct (Ascii.eqb_spec c ",") as [->|Hne]; [done|].
    destruct Hc as [?|Hsp]; [done|].
    destruct (split_comma v) as [|y ys];
      cbn [List.filter] in *; rewrite (strip_space_cons _ _ Hsp); [done|].
    by destruct (negb _).
Qed.

Lemma parse_csv_tokens_witness : parse_csv " , ,, " = [].
Proof.
  apply (parse_csv_tokens " , ,, "). unfold chars. cbn.
  repeat constructor; (by left) || (by right).
Defined.

Lemma split_comma_token x :
  ("," : ascii) ∉ chars x → split_comma x = [x].
Proof.
  unfold chars. induction x as [|c x IH]; [done|]. cbn.
  intros Hc. apply not_elem_of_cons in Hc as [Hne Hx].
  destruct (Ascii.eqb_spec c ","); [done|]. by rewrite IH.
Qed.

Lemma split_comma_app x rest :
  ("," : ascii) ∉ chars x →
  split_comma (x +:+ String "," rest) = x :: split_comma rest.
Proof.
  unfold chars. induction x as [|c x IH]; [done|].
  cbn [String.list_ascii_of_string].
  intros Hc. apply not_elem_of_cons in Hc as [Hne Hx].
  change (String c x +:+ String "," rest)
    with (String c (x +:+ String "," rest)).
  cbn [split_comma]. destruct (Ascii.eqb_spec c ","); [done|]. by rewrite IH.
Qed.

Lemma split_comma_space s :
  ∃ y ys, split_comma s = y :: ys
          ∧ split_comma (String " " s) = String " " y :: ys.
Proof.
  assert (∃ y ys, split_comma s = y :: ys) as (y & ys & Hs).
  { destruct s as [|c s]; cbn; [eauto|].
    destruct (Ascii.eqb c ","); [eauto|]. destruct (split_comma s); eauto. }
  exists y, ys. split; [done|]. cbn. by rewrite Hs.
Qed.

Lemma parse_csv_cons x rest :
  is_token x →
  parse_csv (x +:+ String "," (String " " rest)) = x :: parse_csv rest.
Proof.
  intros (Hstrip & Hne & Hcomma). unfold parse_csv.
  rewrite split_comma_app by done.
  destruct (split_comma_space rest) as (y & ys & -> & ->).
  cbn [List.filter]. rewrite Hstrip.
  apply String.eqb_neq in Hne. rewrite Hne. cbn [negb map].
  rewrite Hstrip. f_equal.
  rewrite (strip_space_cons " " y) by done.
  destruct (negb _); [|done]. cbn [map].
  by rewrite (strip_space_cons " " y).
Qed.

(** X2.  Round trip: a list of trimmed, non-empty, comma-free strings that
    is rendered with [", ".join] is read back by [parse_csv] as it was. *)
Theorem parse_csv_join xs :
  Forall is_token xs → parse_csv (join_comma_space xs) = xs.
Proof.
  induction 1 as [|x xs Hx Hxs IH]; [done|].
  destruct xs as [|y ys].
  - destruct Hx as (Hstrip & Hne & Hcomma). cbn [join_comma_space].
    unfold parse_csv. rewrite split_comma_token by done.
    cbn [List.filter]. rewrite Hstrip.
    apply String.eqb_neq in Hne. rewrite Hne. cbn. by rewrite Hstrip.
  - change (join_comma_space (x :: y :: ys))
      with (x +:+ String "," (String " " (join_comma_space (y :: ys)))).
    rewrite parse_csv_cons by done. by rewrite IH.
Qed.

Lemma parse_csv_join_witness :
  parse_csv (join_comma_space ["python"; "rocq"; "data analysis"])
  = ["python"; "rocq"; "data analysis"].
Proof.
  apply parse_csv_join.
  repeat constructor; (by vm_compute) || (unfold chars; cbn;
    intros Hin%list_elem_of_In; cbn in Hin; intuition discriminate).
Defined.

(** ** What the emptiness test and the assessment read *)

Lemma lstrip_empty s :
  lstrip s = "" ↔ Forall (λ c, py_isspace c = true) (chars s).
Proof.
  unfold chars. induction s as [|c s IH]; [by split; [constructor|]|].
  cbn [lstrip String.list_ascii_of_string]. rewrite Forall_cons.
  destruct (py_isspace c); [rewrite IH; tauto|].
  split; [done|]. by intros [? _].
Qed.

Lemma strip_empty s :
  strip s = "" ↔ Forall (λ c, py_isspace c = true) (chars s).
Proof.
  rewrite <- lstrip_empty. unfold strip.
  destruct (lstrip_head s) as [->|(c & s' & -> & Hc)]; [done|].
  destruct (rstrip_head c s' Hc) as [r ->]. done.
Qed.

(** X3.  [non_empty] is false exactly on null (or a missing key), on a
    string of whitespace only, on the empty list and on the empty dict;
    numbers and booleans count as present, zero and false included. *)
Theorem non_empty_false v :
  non_empty v = false
  ↔ v = JNull
    ∨ (∃ s, v = JStr s ∧ Forall (λ c, py_isspace c = true) (chars s))
    ∨ v = JList []
    ∨ v = JObj ∅.
Proof.
  destruct v as [|b|z|f|s|l|m]; cbn [non_empty].
  - split; [by left|done].
  - split; [done|]. by intros [?|[(? & ? & _)|[?|?]]].
  - split; [done|]. by intros [?|[(? & ? & _)|[?|?]]].
  - split; [done|]. by intros [?|[(? & ? & _)|[?|?]]].
  - rewrite negb_false_iff, String.eqb_eq, strip_empty. split.
    + intros Hs. right. left. eauto.
    + intros [?|[(s' & [= <-] & Hs)|[?|?]]]; done.
  - rewrite Z.ltb_ge. split.
    + intros Hl. do 2 right. left. destruct l; [done|]. cbn in Hl. lia.
    + intros [?|[(? & ? & _)|[[= ->]|?]]]; done.
  - rewrite Z.ltb_ge. split.
    + intros Hm. do 3 right. f_equal. apply map_size_empty_iff. lia.
    + intros [?|[(? & ? & _)|[?|[= ->]]]]; done.
Qed.

Ltac in_keys := apply list_elem_of_In; cbn; tauto.

Lemma task_balance_ok_ext plan1 plan2 :
  qa_equivalent plan1 plan2 → task_balance_ok plan1 = task_balance_ok plan2.
Proof.
  intros [_ Hlen]. unfold task_balance_ok.
  by rewrite (Hlen "plan_tasks"), (Hlen "execution_tasks") by in_keys.
Qed.

Lemma run_qa_ext plan1 plan2 :
  qa_equivalent plan1 plan2 → run_qa plan1 = run_qa plan2.
Proof.
  intros Heq. pose proof Heq as [Hne Hlen]. unfold run_qa.
  rewrite (Hlen "options"), (Hlen "references") by in_keys.
  rewrite (task_balance_ok_ext _ _ Heq).
  destruct (py_len _) as [n_options|]; [|done].
  destruct (py_len _) as [n_references|]; [|done].
  destruct (task_balance_ok plan2) as [balance|]; [|done].
  cbn [mbind option_bind].
  assert (∀ a b, rubric plan1 a b balance = rubric plan2 a b balance)
    as ->; [|done].
  intros a b. unfold rubric, insight_axes_covered, insight_axes. cbn [forallb].
  repeat match goal with
  | |- context [non_empty (py_get plan1 ?k)] =>
      rewrite (Hne k) by in_keys
  end.
  reflexivity.
Qed.

Lemma run_qa_agree plan1 plan2 :
  (∀ k, k ∈ qa_keys → plan1 !! k = plan2 !! k) →
  run_qa plan1 = run_qa plan2.
Proof.
  intros Hagree. apply run_qa_ext. split.
  - intros k Hk. unfold py_get. by rewrite Hagree.
  - intros k Hk. unfold py_get_or. rewrite Hagree; [done|].
    apply list_elem_of_In in Hk. cbn in Hk. in_keys.
Qed.

Lemma run_qa_save_plan now plan : run_qa (save_plan now plan) = run_qa plan.
Proof.
  apply run_qa_agree. intros k Hk. unfold save_plan.
  apply lookup_insert_ne. intros <-.
  apply list_elem_of_In in Hk. cbn in Hk. intuition discriminate.
Qed.

(** X4.  The assessment reads only the keys of [qa_keys]: documents that
    agree on them get the same score and verdicts.  In particular the
    time stamp that [save_plan] writes never changes an assessment, and
    neither do [insights], [evidence] or [version]. *)
Theorem run_qa_reads_qa_keys plan1 plan2 :
  (∀ k, k ∈ qa_keys → plan1 !! k = plan2 !! k) →
  run_qa plan1 = run_qa plan2
  ∧ ∀ now, run_qa (save_plan now plan1) = run_qa plan2.
Proof.
  intros Hagree. split; [by apply run_qa_agree|].
  intros now. rewrite run_qa_save_plan. by apply run_qa_agree.
Qed.

Lemma run_qa_reads_qa_keys_witness :
  run_qa (<["insights" := strs ["Plan first"]]> sample_plan)
  = run_qa sample_plan.
Proof.
  refine (proj1 (run_qa_reads_qa_keys
                   (<["insights" := strs ["Plan first"]]> sample_plan)
                   sample_plan _)).
  intros k Hk. apply lookup_insert_ne. intros <-.
  apply list_elem_of_In in Hk. cbn in Hk. intuition discriminate.
Defined.

(** ** Migration seen from the assessment *)

Lemma split_legacy_tasks_none plan :
  ¬ split_applies plan → split_legacy_tasks plan = Some plan.
Proof.
  intros Hno. apply split_legacy_tasks_skip. unfold split_applies in Hno.
  destruct (plan !! "tasks"); [|by left].
  destruct (plan !! "plan_tasks"); [right; by left|].
  destruct (plan !! "execution_tasks"); [right; by right|].
  destruct Hno. by split.
Qed.

Lemma qa_key_not_meta k :
  k ∈ qa_keys →
  k ≠ "version" ∧ k ≠ "tasks" ∧ k ≠ "updated_at".
Proof.
  intros Hk%list_elem_of_In. cbn in Hk.
  repeat split; intros ->; intuition discriminate.
Qed.

Lemma len_key_qa_key k : k ∈ len_keys → k ∈ qa_keys.
Proof. intros Hk%list_elem_of_In. cbn in Hk. in_keys. Qed.

Lemma migrate_plan_qa_equivalent now plan plan' :
  migrate_plan now plan = Some plan' → ¬ split_applies plan →
  qa_equivalent plan' plan.
Proof.
  intros (plan1 & Hsplit & _ & _ & Hk)%migrate_plan_inv Hno.
  rewrite split_legacy_tasks_none in Hsplit by done.
  apply (inj Some) in Hsplit. subst plan1.
  assert (∀ k, k ∈ qa_keys →
            plan' !! k = plan !! k
            ∨ (plan !! k = None
               ∧ (plan' !! k = Some (JStr "") ∨ plan' !! k = Some (JList []))))
    as Hcases.
  { intros k (Hv & Ht & Hu)%qa_key_not_meta. rewrite (Hk k) by done.
    destruct (plan !! k); [by left|].
    destruct (default_plan now !! k) as [v|] eqn:Hd; [|by left].
    right. split; [done|].
    apply default_plan_values in Hd as [[? _]|[[? _]|[->| ->]]]; auto;
      done. }
  split.
  - intros k Hin. unfold py_get.
    destruct (Hcases k Hin) as [->|[-> [-> | ->]]]; done.
  - intros k Hin%len_key_qa_key. unfold py_get_or.
    destruct (Hcases k Hin) as [->|[-> [-> | ->]]]; done.
Qed.

(** X5.  When no legacy split is due, the migration does not change the
    assessment: the defaults it fills in read as empty, exactly like the
    keys that were missing. *)
Theorem migrate_plan_keeps_assessment now plan plan' :
  migrate_plan now plan = Some plan' → ¬ split_applies plan →
  run_qa plan' = run_qa plan.
Proof.
  intros Hmig Hno. apply run_qa_ext. by eapply migrate_plan_qa_equivalent.
Qed.

Lemma migrate_plan_keeps_assessment_witness :
  ∃ plan',
    migrate_plan "2026-11-01T00:00:00+00:00" mixed_legacy_plan = Some plan'
    ∧ run_qa plan' = run_qa mixed_legacy_plan.
Proof.
  destruct (migrate_plan_total "2026-11-01T00:00:00+00:00" mixed_legacy_plan)
    as [plan' Hmig].
  { right. exists [JStr "Draft"; JStr "Review"]. vm_compute. reflexivity. }
  exists plan'. split; [exact Hmig|].
  apply (migrate_plan_keeps_assessment _ _ _ Hmig).
  intros (_ & Hp & _). vm_compute in Hp. discriminate Hp.
Defined.

(** X6.  A legacy [tasks] list is split without loss: [plan_tasks]
    followed by [execution_tasks] is the old list, in order, with the
    shorter half first.  The migrated document passes the balance check
    exactly when the legacy list had at least four entries. *)
Theorem legacy_split_is_balanced now plan plan' tasks :
  plan !! "tasks" = Some (JList tasks) →
  plan !! "plan_tasks" = None → plan !! "execution_tasks" = None →
  migrate_plan now plan = Some plan' →
  (entries plan' "plan_tasks" ++ entries plan' "execution_tasks")%list
  = tasks
  ∧ length (entries plan' "plan_tasks") = (length tasks / 2)%nat
  ∧ (length (entries plan' "plan_tasks")
     <= length (entries plan' "execution_tasks")
     <= length (entries plan' "plan_tasks") + 1)%nat
  ∧ task_balance_ok plan' = Some (bool_decide (4 <= length tasks)%nat).
Proof.
  intros Ht Hp He (plan1 & Hsplit & _ & _ & Hk)%migrate_plan_inv.
  rewrite (split_legacy_tasks_list _ _ Ht Hp He) in Hsplit.
  apply (inj Some) in Hsplit. subst plan1.
  assert (plan' !! "plan_tasks"
          = Some (JList (take (length tasks / 2) tasks))) as Hp'.
  { rewrite Hk by done. rewrite lookup_insert_ne by done.
    by rewrite lookup_insert_eq. }
  assert (plan' !! "execution_tasks"
          = Some (JList (drop (length tasks / 2) tasks))) as He'.
  { rewrite Hk by done. by rewrite lookup_insert_eq. }
  unfold entries. rewrite Hp', He'.
  pose proof (Nat.div_mod_eq (length tasks) 2) as Hdiv.
  pose proof (Nat.mod_upper_bound (length tasks) 2) as Hmod.
  split; [apply take_drop|]. split; [rewrite length_take; lia|].
  split; [rewrite length_take, length_drop; lia|].
  erewrite task_balance_ok_spec.
  2: { unfold py_get_or. rewrite Hp'. reflexivity. }
  2: { unfold py_get_or. rewrite He'. reflexivity. }
  rewrite length_take, length_drop. f_equal.
  apply eq_true_iff_eq. rewrite bool_decide_eq_true.
  rewrite !andb_true_iff, negb_true_iff, !orb_false_iff.
  rewrite Z.ltb_ge, !Z.eqb_neq, !Z.leb_le. lia.
Qed.

Lemma legacy_split_is_balanced_witness :
  ∃ plan',
    migrate_plan "2026-11-01T00:00:00+00:00" legacy_plan = Some plan'
    ∧ task_balance_ok plan' = Some false.
Proof.
  destruct (migrate_plan_total "2026-11-01T00:00:00+00:00" legacy_plan)
    as [plan' Hmig].
  { right. exists [JStr "Draft"; JStr "Review"; JStr "Ship"].
    vm_compute. reflexivity. }
  exists plan'. split; [exact Hmig|].
  refine (proj2 (proj2 (proj2 (legacy_split_is_balanced _ legacy_plan plan'
    [JStr "Draft"; JStr "Review"; JStr "Ship"] _ _ _ Hmig))));
    vm_compute; reflexivity.
Defined.

Lemma default_plan_well_formed now : well_formed (default_plan now) = true.
Proof. vm_compute. reflexivity. Qed.

Lemma default_plan_complete now :
  forallb (λ f, py_in f.1 (default_plan now)) plan_schema = true.
Proof. vm_compute. reflexivity. Qed.

Lemma forallb_take {A} (f : A → bool) n l :
  forallb f l = true → forallb f (take n l) = true.
Proof.
  revert n. induction l as [|x l IH]; intros [|n]; try done. cbn.
  intros [-> ?]%andb_true_iff. by apply IH.
Qed.

Lemma forallb_drop {A} (f : A → bool) n l :
  forallb f l = true → forallb f (drop n l) = true.
Proof.
  revert n. induction l as [|x l IH]; intros [|n]; try done. cbn.
  intros [_ ?]%andb_true_iff. by apply IH.
Qed.

Lemma type_ok_task_list l :
  forallb is_str l = true →
  type_ok "plan_tasks" (JList l) = true
  ∧ type_ok "execution_tasks" (JList l) = true.
Proof. intros Hl. unfold type_ok. cbn. by rewrite Hl. Qed.

Lemma split_legacy_tasks_well_formed plan plan1 :
  well_formed plan = true →
  (split_applies plan →
   ∃ l, plan !! "tasks" = Some (JList l) ∧ forallb is_str l = true) →
  split_legacy_tasks plan = Some plan1 →
  well_formed plan1 = true.
Proof.
  intros Hwf Htasks Hsplit.
  destruct (plan !! "tasks") as [v|] eqn:Ht; cycle 1.
  { rewrite split_legacy_tasks_skip in Hsplit by (by left). congruence. }
  destruct (plan !! "plan_tasks") as [vp|] eqn:Hp.
  { rewrite split_legacy_tasks_skip in Hsplit; [congruence|].
    right. left. by rewrite Hp. }
  destruct (plan !! "execution_tasks") as [ve|] eqn:He.
  { rewrite split_legacy_tasks_skip in Hsplit; [congruence|].
    right. right. by rewrite He. }
  destruct Htasks as (l & Hl & Hstr).
  { split; [by rewrite Ht|done]. }
  injection Hl as ->.
  rewrite (split_legacy_tasks_list _ _ Ht Hp He) in Hsplit.
  apply (inj Some) in Hsplit. subst plan1.
  apply well_formed_insert;
    [by apply type_ok_task_list, forallb_drop|].
  apply well_formed_insert; [by apply type_ok_task_list, forallb_take|done].
Qed.

Lemma default_plan_typed now k t :
  (k, t) ∈ plan_schema →
  ∃ v, default_plan now !! k = Some v ∧ has_type t v = true.
Proof.
  intros Hin.
  destruct (well_formed_field _ _ _ (default_plan_well_formed now) Hin)
    as [Hnone|?]; [|done].
  pose proof (default_plan_complete now) as Hall.
  rewrite forallb_forall in Hall.
  apply list_elem_of_In, Hall in Hin. unfold py_in in Hin.
  cbn [fst] in Hin. by rewrite Hnone in Hin.
Qed.

Lemma schema_key_not_tasks k t : (k, t) ∈ plan_schema → k ≠ "tasks".
Proof.
  intros Hin ->. destruct (default_plan_typed "" _ _ Hin) as (v & Hd & _).
  vm_compute in Hd. discriminate Hd.
Qed.

Lemma migrate_plan_complete now plan plan' k t :
  migrate_plan now plan = Some plan' →
  (k, t) ∈ plan_schema → is_Some (plan' !! k).
Proof.
  intros (plan1 & Hsplit & Hv & Ht & Hk)%migrate_plan_inv Hin.
  destruct (decide (k = "version")) as [->|Hnv].
  { by rewrite Hv. }
  rewrite Hk by eauto using schema_key_not_tasks.
  destruct (plan1 !! k); [done|].
  destruct (default_plan_typed now _ _ Hin) as (v & -> & _). done.
Qed.

Lemma migrate_plan_typed now plan plan' :
  migrate_plan now plan = Some plan' →
  well_formed plan = true →
  (split_applies plan →
   ∃ l, plan !! "tasks" = Some (JList l) ∧ forallb is_str l = true) →
  well_formed plan' = true.
Proof.
  intros (plan1 & Hsplit & Hv & Ht & Hk)%migrate_plan_inv Hwf Htasks.
  pose proof (split_legacy_tasks_well_formed _ _ Hwf Htasks Hsplit) as Hwf1.
  unfold well_formed. apply forallb_forall.
  intros [k t] Hin%list_elem_of_In. unfold field_ok. cbn [fst snd].
  destruct (default_plan_typed now _ _ Hin) as (v & Hd & Hty).
  destruct (decide (k = "version")) as [->|Hnv].
  { rewrite Hv. vm_compute in Hd. injection Hd as <-. exact Hty. }
  rewrite Hk by eauto using schema_key_not_tasks.
  destruct (well_formed_field _ _ _ Hwf1 Hin) as [->|(v1 & -> & ?)];
    [by rewrite Hd|done].
Qed.

(** X7.  Migration completes and keeps well-formed documents: after it
    every field of the schema is present, and when the input had its
    fields typed (a legacy [tasks] that gets split being a list of
    strings) so has the output. *)
Theorem migrate_plan_well_formed now plan plan' :
  migrate_plan now plan = Some plan' →
  (∀ k t, (k, t) ∈ plan_schema → is_Some (plan' !! k))
  ∧ (well_formed plan = true →
     (split_applies plan →
      ∃ l, plan !! "tasks" = Some (JList l) ∧ forallb is_str l = true) →
     well_formed plan' = true).
Proof.
  intros Hmig. split.
  - intros k t Hin. by apply (migrate_plan_complete now plan plan' k t).
  - intros Hwf Htasks. by apply (migrate_plan_typed now plan).
Qed.

Lemma migrate_plan_well_formed_witness :
  ∃ plan',
    migrate_plan "2026-11-01T00:00:00+00:00" legacy_plan = Some plan'
    ∧ well_formed plan' = true.
Proof.
  destruct (migrate_plan_total "2026-11-01T00:00:00+00:00" legacy_plan)
    as [plan' Hmig].
  { right. exists [JStr "Draft"; JStr "Review"; JStr "Ship"].
    vm_compute. reflexivity. }
  exists plan'. split; [exact Hmig|].
  refine (proj2 (migrate_plan_well_formed _ _ _ Hmig) _ _).
  - vm_compute. reflexivity.
  - intros _. exists [JStr "Draft"; JStr "Review"; JStr "Ship"].
    split; vm_compute; reflexivity.
Defined.

(** ** Scores *)

Lemma passed_weight_full checks :
  Forall (λ c, 0 < weight c) checks →
  (weight_sum (passed_checks checks) = weight_sum checks
   ↔ Forall (λ c, passed c = true) checks)
  ∧ (weight_sum (passed_checks checks) = 0
     ↔ Forall (λ c, passed c = false) checks).
Proof.
  induction 1 as [|c checks Hc Hpos [IHfull IHnone]].
  { split; split; by try constructor. }
  assert (0 <= weight_sum (passed_checks checks) <= weight_sum checks) as Hb.
  { apply passed_weight_bounds. eapply Forall_impl; [done|]. cbn. lia. }
  unfold passed_checks in *. rewrite filter_cons, !Forall_cons.
  destruct (decide (passed c = true)) as [Hp|Hp]; rewrite ?weight_sum_cons.
  - split.
    + rewrite <- IHfull. split; [intros ?; split; [done|lia]|intros [_ ?]; lia].
    + split; [lia|]. intros [? _]. congruence.
  - apply not_true_is_false in Hp. split.
    + split; [lia|]. intros [? _]. congruence.
    + rewrite <- IHnone. tauto.
Qed.

(** X8.  The score is 100 exactly when every check passes and 0 exactly
    when none does; the disposition is [PASS] exactly when the score is at
    least 70 and every critical check passes. *)
Theorem score_extremes plan score checks critical_failure :
  run_qa plan = Some (score, checks, critical_failure) →
  (score = 100 ↔ ∀ c, c ∈ checks → passed c = true)
  ∧ (score = 0 ↔ ∀ c, c ∈ checks → passed c = false)
  ∧ (disposition score critical_failure = PASS
     ↔ 70 <= score
       ∧ ∀ c, c ∈ checks → critical c = true → passed c = true).
Proof.
  intros (n_options & n_references & balance & _ & _ & _ & Hchecks & -> & ->)
    %run_qa_inv.
  assert (Forall (λ c, 0 < weight c) checks) as Hpos.
  { rewrite Hchecks. unfold rubric.
    repeat (constructor; [cbn; lia|]). constructor. }
  destruct (passed_weight_full checks Hpos) as [Hfull Hnone].
  assert (weight_sum checks = 100) as H100.
  { rewrite Hchecks. apply rubric_weight_sum. }
  rewrite H100 in Hfull. rewrite <- !Forall_forall.
  split; [done|]. split; [done|].
  unfold disposition.
  destruct (existsb _ checks) eqn:Hex.
  - split; [done|]. intros [_ Hall].
    apply existsb_exists in Hex as (c & Hin & [Hc Hp%negb_true_iff]%andb_true_iff).
    rewrite Forall_forall in Hall.
    apply list_elem_of_In in Hin. specialize (Hall c Hin Hc). congruence.
  - destruct (Z.ltb_spec (weight_sum (passed_checks checks)) 70).
    + split; [done|]. intros [? _]. lia.
    + split; [|done]. intros _. split; [done|].
      apply Forall_forall. intros c Hin Hc.
      destruct (passed c) eqn:Hp; [done|].
      assert (existsb (λ c, critical c && negb (passed c)) checks = true)
        as Hex'; [|congruence].
      apply existsb_exists. exists c.
      by rewrite <- list_elem_of_In, Hc, Hp.
Qed.

Lemma score_extremes_witness :
  ∃ checks,
    run_qa complete_plan = Some (100, checks, false)
    ∧ disposition 100 false = PASS.
Proof.
  eexists. split; [vm_compute; reflexivity|].
  refine (proj2 (proj2 (proj2 (score_extremes complete_plan 100 _ false _))) _).
  - vm_compute. reflexivity.
  - split; [lia|]. intros c Hin%list_elem_of_In _. cbn in Hin.
    repeat (destruct Hin as [<-|Hin]; [reflexivity|]). done.
Defined.

(** ** The repair, statement by statement *)

Lemma repair_axes_fill_failed failed plan :
  repair_axes failed plan
  = foldl (λ p r, fill_failed failed r.1.1 r.1.2 r.2 p) plan axis_repairs.
Proof.
  unfold repair_axes, axis_repairs, fill_failed. cbn [foldl fst snd].
  by destruct (bool_decide _).
Qed.

Lemma run_steps_app steps1 steps2 plan :
  run_steps (steps1 ++ steps2) plan
  = run_steps steps1 plan ≫= run_steps steps2.
Proof.
  revert plan. induction steps1 as [|st steps1 IH]; intros plan; [done|].
  cbn [run_steps app]. destruct (st.2 plan) as [p|]; [|done].
  cbn [mbind option_bind]. apply IH.
Qed.

Lemma run_simple_steps failed repairs plan :
  run_steps (map (simple_step failed) repairs) plan
  = Some (foldl (λ p r, fill_failed failed r.1.1 r.1.2 r.2 p) plan repairs).
Proof.
  revert plan. induction repairs as [|r repairs IH]; intros plan; [done|].
  cbn [map run_steps simple_step snd mbind option_bind foldl]. apply IH.
Qed.

Lemma auto_replan_stub_steps plan checks :
  auto_replan_stub plan checks
  = run_steps (repair_steps (failed_names checks)) plan.
Proof.
  unfold auto_replan_stub, repair_steps.
  set (failed := failed_names checks). cbn zeta.
  rewrite run_steps_app, run_simple_steps. cbn [mbind option_bind].
  cbn [first_repairs foldl fst snd].
  rewrite run_steps_app. cbn [run_steps snd].
  destruct (repair_options failed _) as [p3|]; [|done].
  cbn [mbind option_bind].
  fold three_references. destruct (fill_short _ _ "references" _ _ _) as [p4|];
    [|done].
  cbn [mbind option_bind].
  fold three_insights. destruct (fill_short _ _ "insights" _ _ _) as [p5|];
    [|done].
  cbn [mbind option_bind].
  rewrite run_steps_app, run_simple_steps, <- repair_axes_fill_failed.
  cbn [mbind option_bind].
  rewrite run_steps_app. cbn [run_steps tasks_step snd].
  unfold repair_balance. fold two_plan_tasks two_execution_tasks.
  destruct (bool_decide ("plan_execution_balance" ∈ failed)).
  - destruct (fill_no_tasks "plan_tasks" _ _) as [p6|]; [|done].
    cbn [mbind option_bind].
    destruct (fill_no_tasks "execution_tasks" _ _) as [p7|]; [|done].
    cbn [mbind option_bind]. by rewrite run_simple_steps.
  - cbn [mbind option_bind]. by rewrite run_simple_steps.
Qed.

Lemma run_steps_rewrites steps plan plan' :
  Forall step_ok steps → run_steps steps plan = Some plan' →
  rewrites (concat steps.*1) plan plan'.
Proof.
  intros Hok. revert plan.
  induction Hok as [|st steps Hst _ IH]; intros plan.
  - intros [= <-]. apply rewrites_refl.
  - cbn [run_steps]. destruct (st.2 plan) as [p|] eqn:Hp; [|done].
    cbn [mbind option_bind]. intros Hrest.
    change (concat ((st :: steps).*1)) with (st.1 ++ concat steps.*1)%list.
    eapply rewrites_trans; [by apply Hst|by apply IH].
Qed.

(** In a list of statements with disjoint keys, a statement sees under its
    keys what the document had at the start, and what it leaves there is
    what the document has at the end. *)
Lemma run_steps_at steps plan plan' st :
  Forall step_ok steps → NoDup (concat steps.*1) → st ∈ steps →
  run_steps steps plan = Some plan' →
  ∃ p q, st.2 p = Some q
         ∧ ∀ k, k ∈ st.1 → p !! k = plan !! k ∧ plan' !! k = q !! k.
Proof.
  intros Hok Hnodup (pre & post & ->)%list_elem_of_split Hrun.
  rewrite run_steps_app in Hrun.
  destruct (run_steps pre plan) as [p|] eqn:Hpre; [|done].
  cbn [mbind option_bind run_steps] in Hrun.
  destruct (st.2 p) as [q|] eqn:Hst; [|done].
  cbn [mbind option_bind] in Hrun.
  apply Forall_app in Hok as [Hpre_ok Hok].
  apply Forall_cons in Hok as [_ Hpost_ok].
  rewrite fmap_app, concat_app in Hnodup. cbn [fmap list_fmap concat] in Hnodup.
  apply NoDup_app in Hnodup as (_ & Hdisj1 & Hnodup).
  apply NoDup_app in Hnodup as (_ & Hdisj2 & _).
  exists p, q. split; [done|]. intros k Hk. split.
  - eapply rewrites_outside; [by apply (run_steps_rewrites pre)|].
    intros Hin. apply (Hdisj1 k Hin). apply elem_of_app. by left.
  - eapply rewrites_outside; [by apply (run_steps_rewrites post)|].
    by apply Hdisj2.
Qed.

Lemma repair_steps_ok failed : Forall step_ok (repair_steps failed).
Proof.
  unfold repair_steps. rewrite !Forall_app. repeat split.
  - apply Forall_fmap, Forall_forall. intros r _ plan plan' [= <-].
    apply fill_failed_rewrites.
  - rewrite !Forall_cons, Forall_nil.
    repeat split; intros plan plan' Hst; cbn [fst snd] in *.
    + by eapply repair_options_rewrites.
    + eapply fill_short_rewrites; [|done]. intros v Hv. right. right. by left.
    + eapply fill_short_rewrites; [|done]. intros v Hv. by do 3 right.
  - apply Forall_fmap, Forall_forall. intros r _ plan plan' [= <-].
    apply fill_failed_rewrites.
  - rewrite !Forall_cons, Forall_nil.
    repeat split; intros plan plan'; unfold tasks_step; cbn [fst snd];
      (destruct (bool_decide _);
       [apply fill_no_tasks_rewrites|intros [= <-]; apply rewrites_refl]).
  - apply Forall_fmap, Forall_forall. intros r _ plan plan' [= <-].
    apply fill_failed_rewrites.
Qed.

Lemma repair_steps_keys failed :
  concat (repair_steps failed).*1
  = (keys_before_options ++ ["options"; "selected_option"]
     ++ keys_after_options)%list.
Proof. reflexivity. Qed.

Lemma repair_keys_NoDup failed : NoDup (concat (repair_steps failed).*1).
Proof.
  rewrite repair_steps_keys. apply (bool_decide_unpack _). vm_compute. exact I.
Qed.

(** ** What the repair leaves under each key *)

Lemma simple_step_in failed r :
  r ∈ simple_repairs → simple_step failed r ∈ repair_steps failed.
Proof.
  unfold simple_repairs, repair_steps. rewrite !elem_of_app.
  intros [Hr|[Hr|Hr]]; [left|do 2 right; left|do 4 right];
    by apply list_elem_of_fmap_2.
Qed.

Lemma simple_repair_result plan checks plan' c k v :
  (c, k, v) ∈ simple_repairs →
  auto_replan_stub plan checks = Some plan' →
  plan' !! k
  = if bool_decide (c ∈ failed_names checks)
       && negb (py_truthy (py_get plan k))
    then Some v else plan !! k.
Proof.
  intros Hin Hrun. rewrite auto_replan_stub_steps in Hrun.
  destruct (run_steps_at _ _ _ _ (repair_steps_ok _) (repair_keys_NoDup _)
              (simple_step_in (failed_names checks) _ Hin) Hrun)
    as (p & q & Hst & Hk).
  cbn [simple_step fst snd] in Hst, Hk. injection Hst as <-.
  destruct (Hk k) as [Hp ->]; [by apply list_elem_of_singleton|].
  unfold fill_failed, fill_falsy, py_get. rewrite Hp.
  destruct (bool_decide _); [|done]. cbn [andb].
  destruct (negb _); [by rewrite lookup_insert_eq|done].
Qed.

Lemma fill_short_result failed c k n v p q :
  fill_short failed c k n v p = Some q →
  q !! k = (if bool_decide (c ∈ failed) && below n (py_get_or p k (JList []))
            then Some v else p !! k)
  ∧ (c ∈ failed → is_Some (py_len (py_get_or p k (JList [])))).
Proof.
  unfold fill_short, below. destruct (bool_decide (c ∈ failed)) eqn:Hc.
  - destruct (py_len _) as [len|]; [|done]. cbn [mbind option_bind andb].
    intros [= <-]. split; [|by eauto].
    destruct (len <? n); [by rewrite lookup_insert_eq|done].
  - intros [= <-]. split; [done|]. by apply bool_decide_eq_false in Hc.
Qed.

Lemma short_repair_result plan checks plan' c k v :
  (c, k, v) ∈ [ ("references_coverage", "references", three_references);
                ("insight_axes_coverage", "insights", three_insights) ] →
  auto_replan_stub plan checks = Some plan' →
  plan' !! k
  = (if bool_decide (c ∈ failed_names checks)
        && below 3 (py_get_or plan k (JList []))
     then Some v else plan !! k)
  ∧ (c ∈ failed_names checks →
     is_Some (py_len (py_get_or plan k (JList [])))).
Proof.
  intros Hin Hrun. rewrite auto_replan_stub_steps in Hrun.
  assert (([k], fill_short (failed_names checks) c k 3 v)
          ∈ repair_steps (failed_names checks)) as Hst_in.
  { unfold repair_steps. rewrite !elem_of_app. right. left.
    apply elem_of_cons in Hin as [[= -> -> ->]|Hin].
    { apply elem_of_cons. right. apply elem_of_cons. by left. }
    apply list_elem_of_singleton in Hin as [= -> -> ->].
    do 2 (apply elem_of_cons; right). apply elem_of_cons. by left. }
  destruct (run_steps_at _ _ _ _ (repair_steps_ok _) (repair_keys_NoDup _)
              Hst_in Hrun) as (p & q & Hst & Hk).
  cbn [fst snd] in Hst, Hk.
  destruct (Hk k) as [Hp ->]; [by apply list_elem_of_singleton|].
  apply fill_short_result in Hst. unfold py_get_or in *.
  by rewrite Hp in Hst.
Qed.

Lemma tasks_repair_result plan checks plan' k v :
  (k, v) ∈ [ ("plan_tasks", two_plan_tasks);
             ("execution_tasks", two_execution_tasks) ] →
  auto_replan_stub plan checks = Some plan' →
  plan' !! k
  = (if bool_decide ("plan_execution_balance" ∈ failed_names checks)
        && no_entries (py_get_or plan k (JList []))
     then Some v else plan !! k)
  ∧ ("plan_execution_balance" ∈ failed_names checks →
     is_Some (py_len (py_get_or plan k (JList [])))).
Proof.
  intros Hin Hrun. rewrite auto_replan_stub_steps in Hrun.
  assert (tasks_step (failed_names checks) k v
          ∈ repair_steps (failed_names checks)) as Hst_in.
  { unfold repair_steps. rewrite !elem_of_app. do 3 right. left.
    apply elem_of_cons in Hin as [[= -> ->]|Hin].
    { apply elem_of_cons. by left. }
    apply list_elem_of_singleton in Hin as [= -> ->].
    apply elem_of_cons. right. apply elem_of_cons. by left. }
  destruct (run_steps_at _ _ _ _ (repair_steps_ok _) (repair_keys_NoDup _)
              Hst_in Hrun) as (p & q & Hst & Hk).
  unfold tasks_step in Hst, Hk. cbn [fst snd] in Hst, Hk.
  destruct (Hk k) as [Hp ->]; [by apply list_elem_of_singleton|].
  unfold no_entries, fill_no_tasks, py_get_or in *. rewrite <- Hp.
  destruct (bool_decide _) eqn:Hc.
  - destruct (py_len _) as [len|]; [|done].
    cbn [mbind option_bind andb] in *. injection Hst as <-.
    split; [|by eauto].
    destruct (len =? 0); [by rewrite lookup_insert_eq|done].
  - injection Hst as <-. split; [done|].
    by apply bool_decide_eq_false in Hc.
Qed.

Lemma options_repair_result plan checks plan' :
  auto_replan_stub plan checks = Some plan' →
  let guard :=
    bool_decide ("options_comparison" ∈ failed_names checks)
    && below 2 (py_get_or plan "options" (JList [])) in
  plan' !! "options" = (if guard then Some three_options
                        else plan !! "options")
  ∧ plan' !! "selected_option"
    = (if guard && negb (py_truthy (py_get plan "selected_option"))
       then Some (JStr "Balanced option: medium scope with staged rollout.")
       else plan !! "selected_option")
  ∧ ("options_comparison" ∈ failed_names checks →
     is_Some (py_len (py_get_or plan "options" (JList [])))).
Proof.
  intros (plan2 & plan3 & Ho2 & Hs2 & H3 & -> & ->)%auto_replan_stub_options.
  cbn zeta. unfold repair_options, below, py_get_or, py_get in *.
  rewrite <- Ho2, <- Hs2.
  destruct (bool_decide _) eqn:Hc; cycle 1.
  { injection H3 as <-. repeat split; try done.
    by apply bool_decide_eq_false in Hc. }
  destruct (py_len _) as [len|]; [|done].
  cbn [mbind option_bind andb] in *.
  destruct (len <? 2); injection H3 as <-; [|by eauto].
  unfold fill_falsy, py_get. rewrite lookup_insert_ne by done.
  cbn [andb]. destruct (negb _).
  - rewrite lookup_insert_eq, lookup_insert_ne by done.
    rewrite lookup_insert_eq. by eauto.
  - rewrite lookup_insert_eq, lookup_insert_ne by done. by eauto.
Qed.

(** ** Whose fields the repair touches, and running it again *)

Lemma repair_keys_owned k :
  k ∈ (keys_before_options ++ ["options"; "selected_option"]
       ++ keys_after_options)%list →
  ∃ c, (k, c) ∈ repair_owner.
Proof.
  intros Hk%list_elem_of_In.
  assert (existsb (λ o, String.eqb o.1 k) repair_owner = true) as Hex.
  { cbn in Hk. repeat (destruct Hk as [<-|Hk]; [reflexivity|]). done. }
  apply existsb_exists in Hex as ([k' c] & Hin & Heq%String.eqb_eq).
  cbn [fst] in Heq. subst k'. exists c. by apply list_elem_of_In.
Qed.

Lemma repair_owner_cases k c :
  (k, c) ∈ repair_owner →
  (∃ v, (c, k, v) ∈ simple_repairs)
  ∨ (c = "options_comparison" ∧ (k = "options" ∨ k = "selected_option"))
  ∨ (∃ v, (c, k, v)
          ∈ [ ("references_coverage", "references", three_references);
              ("insight_axes_coverage", "insights", three_insights) ])
  ∨ (c = "plan_execution_balance"
     ∧ ∃ v, (k, v) ∈ [ ("plan_tasks", two_plan_tasks);
                       ("execution_tasks", two_execution_tasks) ]).
Proof.
  unfold repair_owner. rewrite elem_of_app.
  intros [([[c' k'] v] & [= -> ->] & Hr)%list_elem_of_fmap|Hin].
  { left. by exists v. }
  right. apply list_elem_of_In in Hin. cbn in Hin.
  destruct Hin as [[= <- <-]|[[= <- <-]|[[= <- <-]|[[= <- <-]|
                   [[= <- <-]|[[= <- <-]|[]]]]]]].
  - left. split; [done|by left].
  - left. split; [done|by right].
  - right. left. eexists. apply elem_of_cons. by left.
  - right. left. eexists. apply elem_of_cons. right.
    apply elem_of_cons. by left.
  - right. right. split; [done|]. eexists. apply elem_of_cons. by left.
  - right. right. split; [done|]. eexists. apply elem_of_cons. right.
    apply elem_of_cons. by left.
Qed.

(** X9.  The repair assigns a field only when the check that owns it is
    among the failed ones: the fields of every other check, and every key
    that no check owns, come out as they went in; with no failed check the
    document is returned unchanged. *)
Theorem repair_only_failed plan checks plan' :
  auto_replan_stub plan checks = Some plan' →
  (∀ k, plan' !! k ≠ plan !! k →
        ∃ c, (k, c) ∈ repair_owner ∧ c ∈ failed_names checks)
  ∧ (failed_names checks = [] → plan' = plan).
Proof.
  intros Hrun.
  assert (∀ k c, (k, c) ∈ repair_owner → c ∉ failed_names checks →
            plan' !! k = plan !! k) as Hcore.
  { intros k c Hc Hnot. apply (bool_decide_eq_false_2 _) in Hnot.
    destruct (repair_owner_cases _ _ Hc)
      as [(v & Hr)|[(-> & Hk')|[(v & Hr)|(-> & v & Hr)]]].
    - by rewrite (simple_repair_result _ _ _ _ _ _ Hr Hrun), Hnot.
    - destruct (options_repair_result _ _ _ Hrun) as (Ho & Hs & _).
      cbn zeta in Ho, Hs. rewrite Hnot in Ho, Hs.
      by destruct Hk' as [-> | ->].
    - destruct (short_repair_result _ _ _ _ _ _ Hr Hrun) as [-> _].
      by rewrite Hnot.
    - destruct (tasks_repair_result _ _ _ _ _ Hr Hrun) as [-> _].
      by rewrite Hnot. }
  split.
  - intros k Hne.
    destruct (auto_replan_stub_rewrites _ _ _ Hrun k) as [?|(Hk & _)]; [done|].
    destruct (repair_keys_owned k Hk) as (c & Hc). exists c. split; [done|].
    destruct (decide (c ∈ failed_names checks)) as [?|Hnot]; [done|].
    destruct Hne. by eapply Hcore.
  - intros Hnone. apply map_eq. intros k.
    destruct (auto_replan_stub_rewrites _ _ _ Hrun k) as [?|(Hk & _)]; [done|].
    destruct (repair_keys_owned k Hk) as (c & Hc).
    apply (Hcore k c Hc). rewrite Hnone. apply not_elem_of_nil.
Qed.

Lemma repair_only_failed_witness :
  ∃ plan',
    auto_replan_stub complete_plan (rubric complete_plan 2 3 true)
    = Some plan'
    ∧ plan' = complete_plan.
Proof.
  destruct (auto_replan_stub_well_formed complete_plan
              (rubric complete_plan 2 3 true))
    as (plan' & Hrep & _); [vm_compute; reflexivity|].
  exists plan'. split; [exact Hrep|].
  refine (proj2 (repair_only_failed _ _ _ Hrep) _).
  vm_compute. reflexivity.
Defined.

Lemma simple_repairs_truthy :
  Forall (λ r, py_truthy r.2 = true ∧ non_empty r.2 = true) simple_repairs.
Proof. repeat constructor. Qed.

Lemma run_steps_fixed steps (plan : gmap string json) :
  Forall (λ st : step, st.2 plan = Some plan) steps →
  run_steps steps plan = Some plan.
Proof.
  induction 1 as [|st steps Hst _ IH]; [done|].
  cbn [run_steps]. by rewrite Hst.
Qed.

Lemma below_false v len n :
  py_len v = Some len → below n v = false → (len <? n) = false.
Proof. unfold below. by intros ->. Qed.

(** X10.  The repair is idempotent: run again with the same verdicts on the
    document it returned, it returns that document unchanged. *)
Theorem repair_idempotent plan checks plan' :
  auto_replan_stub plan checks = Some plan' →
  auto_replan_stub plan' checks = Some plan'.
Proof.
  intros Hrun. rewrite auto_replan_stub_steps. apply run_steps_fixed.
  set (failed := failed_names checks).
  destruct (options_repair_result _ _ _ Hrun) as (Ho & _ & Holen).
  cbn zeta in Ho. fold failed in Ho, Holen.
  unfold repair_steps. rewrite !Forall_app, !Forall_cons, !Forall_nil.
  assert (∀ repairs, (∀ r, r ∈ repairs → r ∈ simple_repairs) →
            Forall (λ st : step, st.2 plan' = Some plan')
              (map (simple_step failed) repairs)) as Hsimple.
  { intros repairs Hsub. apply Forall_fmap, Forall_forall.
    intros [[c k] v] Hr%Hsub. cbn [simple_step snd fst compose]. f_equal.
    pose proof (simple_repair_result _ _ _ _ _ _ Hr Hrun) as Hk.
    fold failed in Hk.
    pose proof simple_repairs_truthy as Htr. rewrite Forall_forall in Htr.
    destruct (Htr _ Hr) as [Hv _]. cbn [snd] in Hv.
    unfold fill_failed, fill_falsy.
    destruct (bool_decide (c ∈ failed)); [|done].
    cbn [andb] in Hk. unfold py_get in *. rewrite Hk.
    destruct (py_truthy (default JNull (plan !! k))) eqn:Hold; cbn [negb].
    - by rewrite Hold.
    - cbn [default id]. by rewrite Hv. }
  assert (∀ c k v,
            (c, k, v) ∈ [ ("references_coverage", "references",
                           three_references);
                          ("insight_axes_coverage", "insights",
                           three_insights) ] →
            fill_short failed c k 3 v plan' = Some plan') as Hshort.
  { intros c k v Hr.
    destruct (short_repair_result _ _ _ _ _ _ Hr Hrun) as [Hk Hlen].
    fold failed in Hk, Hlen. unfold fill_short.
    destruct (bool_decide (c ∈ failed)) eqn:Hc; [|done].
    apply bool_decide_eq_true in Hc. destruct (Hlen Hc) as [len Hl].
    cbn [andb] in Hk. unfold py_get_or in *. rewrite Hk.
    destruct (below 3 _) eqn:Hb.
    - apply list_elem_of_In in Hr. cbn in Hr.
      by destruct Hr as [[= <- <- <-]|[[= <- <- <-]|[]]].
    - rewrite Hl. cbn [mbind option_bind].
      by rewrite (below_false _ _ _ Hl Hb). }
  assert (∀ k v,
            (k, v) ∈ [ ("plan_tasks", two_plan_tasks);
                       ("execution_tasks", two_execution_tasks) ] →
            (tasks_step failed k v).2 plan' = Some plan') as Htasks.
  { intros k v Hr.
    destruct (tasks_repair_result _ _ _ _ _ Hr Hrun) as [Hk Hlen].
    fold failed in Hk, Hlen. unfold tasks_step. cbn [snd].
    destruct (bool_decide ("plan_execution_balance" ∈ failed)) eqn:Hc;
      [|done].
    apply bool_decide_eq_true in Hc. destruct (Hlen Hc) as [len Hl].
    cbn [andb] in Hk. unfold fill_no_tasks, py_get_or in *. rewrite Hk.
    destruct (no_entries _) eqn:Hb.
    - apply list_elem_of_In in Hr. cbn in Hr.
      by destruct Hr as [[= <- <-]|[[= <- <-]|[]]].
    - rewrite Hl. cbn [mbind option_bind].
      unfold no_entries in Hb. rewrite Hl in Hb. by rewrite Hb. }
  repeat split; cbn [snd].
  - apply Hsimple. intros r Hr. unfold simple_repairs.
    apply elem_of_app. by left.
  - unfold repair_options.
    destruct (bool_decide ("options_comparison" ∈ failed)) eqn:Hc; [|done].
    apply bool_decide_eq_true in Hc. destruct (Holen Hc) as [len Hl].
    cbn [andb] in Ho. unfold py_get_or in *. rewrite Ho.
    destruct (below 2 _) eqn:Hb; [done|].
    rewrite Hl. cbn [mbind option_bind].
    by rewrite (below_false _ _ _ Hl Hb).
  - apply Hshort. apply elem_of_cons. by left.
  - apply Hshort. apply elem_of_cons. right. apply elem_of_cons. by left.
  - apply Hsimple. intros r Hr. unfold simple_repairs.
    rewrite !elem_of_app. right. by left.
  - apply Htasks. apply elem_of_cons. by left.
  - apply Htasks. apply elem_of_cons. right. apply elem_of_cons. by left.
  - apply Hsimple. intros r Hr. unfold simple_repairs.
    rewrite !elem_of_app. right. by right.
Qed.

Lemma repair_idempotent_witness :
  ∃ plan',
    auto_replan_stub sample_plan (rubric sample_plan 0 0 true) = Some plan'
    ∧ auto_replan_stub plan' (rubric sample_plan 0 0 true) = Some plan'.
Proof.
  destruct (auto_replan_stub_well_formed sample_plan
              (rubric sample_plan 0 0 true))
    as (plan' & Hrep & _); [vm_compute; reflexivity|].
  exists plan'. split; [exact Hrep|].
  exact (repair_idempotent _ _ _ Hrep).
Defined.

(** ** After the automatic repair *)

Lemma failed_names_spec checks n :
  n ∈ failed_names checks
  ↔ ∃ c, c ∈ checks ∧ name c = n ∧ passed c = false.
Proof.
  unfold failed_names. rewrite list_elem_of_fmap. split.
  - intros (c & -> & [Hp%negb_true_iff Hin]%list_elem_of_filter). eauto.
  - intros (c & Hin & <- & Hp). exists c. split; [done|].
    apply list_elem_of_filter. by rewrite Hp.
Qed.

(** Among the failed names of the rubric each check stands for itself. *)
Lemma rubric_failed plan n_options n_references balance c :
  c ∈ rubric plan n_options n_references balance →
  name c ∈ failed_names (rubric plan n_options n_references balance)
  ↔ passed c = false.
Proof.
  intros Hin. rewrite failed_names_spec. split; [|by eauto].
  intros (c' & Hin' & Hname & Hp).
  apply list_elem_of_In in Hin, Hin'. unfold rubric in Hin, Hin'.
  cbn [In] in Hin, Hin'.
  repeat (destruct Hin as [<-|Hin];
          [repeat (destruct Hin' as [<-|Hin'];
                   [try discriminate Hname; exact Hp|]);
           destruct Hin'|]).
  destruct Hin.
Qed.

Lemma well_formed_list_truthy plan k :
  well_formed plan = true → is_list_key k = true →
  py_truthy (py_get plan k) = non_empty (py_get plan k).
Proof.
  intros Hwf Hk. unfold is_list_key in Hk.
  apply existsb_exists in Hk
    as ([k' t] & Hin%list_elem_of_In & [Heq%String.eqb_eq Ht]%andb_true_iff).
  cbn [fst snd] in Heq, Ht. subst k'. unfold py_get.
  destruct (well_formed_field _ _ _ Hwf Hin) as [->|(v & -> & Hty)]; [done|].
  destruct t, v as [| | | | |l|]; try done; by destruct l.
Qed.

Lemma simple_repairs_list_keys :
  forallb (λ r, is_list_key r.1.2) simple_repairs = true.
Proof. reflexivity. Qed.

Lemma simple_repaired_non_empty plan checks plan' c k v :
  (c, k, v) ∈ simple_repairs →
  well_formed plan = true →
  auto_replan_stub plan checks = Some plan' →
  (c ∉ failed_names checks → non_empty (py_get plan k) = true) →
  non_empty (py_get plan' k) = true.
Proof.
  intros Hr Hwf Hrun Hpassed.
  pose proof (simple_repair_result _ _ _ _ _ _ Hr Hrun) as Hk.
  pose proof simple_repairs_truthy as Htr. rewrite Forall_forall in Htr.
  destruct (Htr _ Hr) as [_ Hv]. cbn [snd] in Hv.
  pose proof simple_repairs_list_keys as Hkeys.
  rewrite forallb_forall in Hkeys.
  apply list_elem_of_In, Hkeys in Hr. cbn [fst snd] in Hr.
  rewrite (well_formed_list_truthy _ _ Hwf Hr) in Hk.
  unfold py_get at 1. rewrite Hk.
  destruct (decide (c ∈ failed_names checks)) as [Hc|Hc].
  - rewrite bool_decide_eq_true_2 by done. cbn [andb].
    destruct (non_empty (py_get plan k)) eqn:Hold; done.
  - rewrite bool_decide_eq_false_2 by done. by apply Hpassed.
Qed.

Lemma not_repair_key k :
  k = "goal" ∨ k = "success_metric" ∨ k = "deadline" →
  k ∉ (keys_before_options ++ ["options"; "selected_option"]
       ++ keys_after_options)%list.
Proof.
  intros Hk Hin%list_elem_of_In. cbn in Hin.
  destruct Hk as [->|[->| ->]]; intuition discriminate.
Qed.

Lemma weight_sum_all_but_options (b : bool) :
  let checks :=
    [ mkCheck "goal_clarity" true "Goal is present and outcome-oriented."
        10 true;
      mkCheck "measurability" true
        "Success metric and deadline are both defined." 10 true;
      mkCheck "constraints" true "Constraints are explicitly listed." 8 false;
      mkCheck "assumptions" true "Core assumptions are extracted." 8 false;
      mkCheck "options_comparison" b
        "At least two options and one selected option exist." 8 false;
      mkCheck "references_coverage" true
        "Plan includes at least three references (docs, cases, benchmarks)."
        10 false;
      mkCheck "insight_axes_coverage" true
        "Eight long-horizon insight axes are all covered." 10 false;
      mkCheck "plan_execution_balance" true
        "Plan/Execution task split is balanced near 50:50 (40-60% range)."
        10 true;
      mkCheck "verification_loop" true
        "Validation experiments exist for key assumptions." 8 false;
      mkCheck "risk_coverage" true
        "Top risks include early signals and mitigations." 8 false;
      mkCheck "dependencies" true
        "External dependencies/blockers are documented." 5 false;
      mkCheck "definition_of_done" true "Definition of done exists." 5 true ]
  in
  weight_sum (passed_checks checks) = (if b then 100 else 92)
  ∧ existsb (λ c, critical c && negb (passed c)) checks = false
  ∧ ∀ c, c ∈ checks → passed c = false → name c = "options_comparison".
Proof.
  cbn zeta. split; [by destruct b|]. split; [done|].
  intros c Hin%list_elem_of_In Hp. cbn [In] in Hin.
  repeat (destruct Hin as [<-|Hin]; [done || discriminate Hp|]).
  destruct Hin.
Qed.

Lemma rubric_not_failed plan n_options n_references balance c :
  c ∈ rubric plan n_options n_references balance →
  name c ∉ failed_names (rubric plan n_options n_references balance) →
  passed c = true.
Proof.
  intros Hin Hnot. destruct (passed c) eqn:Hp; [done|].
  destruct Hnot. by apply rubric_failed.
Qed.

Ltac in_rubric :=
  apply list_elem_of_In; unfold rubric; cbn [In];
  solve [repeat (first [left; reflexivity | right])].

Lemma all_simple_repaired plan checks plan' :
  well_formed plan = true →
  auto_replan_stub plan checks = Some plan' →
  Forall (λ r, (r.1.1 ∉ failed_names checks →
                non_empty (py_get plan r.1.2) = true) →
               non_empty (py_get plan' r.1.2) = true) simple_repairs.
Proof.
  intros Hwf Hrun. apply Forall_forall. intros [[c k] v] Hr.
  cbn [fst snd]. by eapply simple_repaired_non_empty.
Qed.

(** The verdicts on a document that was repaired after an assessment
    without critical failure: everything passes, [options_comparison]
    possibly excepted. *)
Lemma repaired_rubric plan score checks plan1 n_options n_references balance :
  well_formed plan = true →
  run_qa plan = Some (score, checks, false) →
  auto_replan_stub plan checks = Some plan1 →
  py_len (py_get_or plan1 "options" (JList [])) = Some n_options →
  py_len (py_get_or plan1 "references" (JList [])) = Some n_references →
  task_balance_ok plan1 = Some balance →
  ∃ b,
    rubric plan1 n_options n_references balance
    = [ mkCheck "goal_clarity" true "Goal is present and outcome-oriented."
          10 true;
        mkCheck "measurability" true
          "Success metric and deadline are both defined." 10 true;
        mkCheck "constraints" true "Constraints are explicitly listed."
          8 false;
        mkCheck "assumptions" true "Core assumptions are extracted." 8 false;
        mkCheck "options_comparison" b
          "At least two options and one selected option exist." 8 false;
        mkCheck "references_coverage" true
          "Plan includes at least three references (docs, cases, benchmarks)."
          10 false;
        mkCheck "insight_axes_coverage" true
          "Eight long-horizon insight axes are all covered." 10 false;
        mkCheck "plan_execution_balance" true
          "Plan/Execution task split is balanced near 50:50 (40-60% range)."
          10 true;
        mkCheck "verification_loop" true
          "Validation experiments exist for key assumptions." 8 false;
        mkCheck "risk_coverage" true
          "Top risks include early signals and mitigations." 8 false;
        mkCheck "dependencies" true
          "External dependencies/blockers are documented." 5 false;
        mkCheck "definition_of_done" true "Definition of done exists."
          5 true ].
Proof.
  intros Hwf Hqa Hrun Ho1 Hr1 Hb1.
  apply run_qa_inv in Hqa
    as (n_o & n_r & bal & Ho & Hr & Hb & -> & _ & Hcf).
  set (failed := failed_names (rubric plan n_o n_r bal)) in *.
  (* the four critical checks passed *)
  unfold rubric in Hcf. cbn [existsb critical passed andb] in Hcf.
  destruct (non_empty (py_get plan "goal")) eqn:Hgoal;
    [|discriminate Hcf].
  destruct (non_empty (py_get plan "success_metric")) eqn:Hmetric;
    [|discriminate Hcf].
  destruct (non_empty (py_get plan "deadline")) eqn:Hdeadline;
    [|discriminate Hcf].
  destruct bal; [|cbn in Hcf; discriminate Hcf].
  destruct (non_empty (py_get plan "definition_of_done")) eqn:Hdod;
    [|cbn in Hcf; discriminate Hcf].
  clear Hcf.
  (* keys the repair never assigns *)
  pose proof (auto_replan_stub_rewrites _ _ _ Hrun) as Hrw.
  assert (∀ k, k = "goal" ∨ k = "success_metric" ∨ k = "deadline" →
            py_get plan1 k = py_get plan k) as Hkeep.
  { intros k Hk. unfold py_get.
    by rewrite (rewrites_outside _ _ _ _ Hrw (not_repair_key k Hk)). }
  (* the task lists are kept: the balance check had passed *)
  assert ("plan_execution_balance" ∉ failed) as Hbal.
  { intros Hin.
    apply (rubric_failed plan n_o n_r true
             (mkCheck "plan_execution_balance" true
                "Plan/Execution task split is balanced near 50:50 (40-60% range)."
                10 true)) in Hin; [done|in_rubric]. }
  assert (task_balance_ok plan1 = task_balance_ok plan) as Hbalance.
  { unfold task_balance_ok, py_get_or.
    destruct (tasks_repair_result _ _ _ "plan_tasks" two_plan_tasks
                ltac:(apply elem_of_cons; by left) Hrun) as [-> _].
    destruct (tasks_repair_result _ _ _ "execution_tasks" two_execution_tasks
                ltac:(apply elem_of_cons; right; apply elem_of_cons; by left)
                Hrun) as [-> _].
    fold failed. by rewrite bool_decide_eq_false_2 by done. }
  rewrite Hbalance, Hb in Hb1. injection Hb1 as <-.
  (* references *)
  assert ((3 <=? n_references) = true) as Href.
  { destruct (short_repair_result _ _ _ "references_coverage" "references"
                three_references ltac:(apply elem_of_cons; by left) Hrun)
      as [Hk _].
    fold failed in Hk. unfold py_get_or in Hr1 at 1. rewrite Hk in Hr1.
    destruct (decide ("references_coverage" ∈ failed)) as [Hin|Hnot].
    - rewrite bool_decide_eq_true_2 in Hr1 by done. cbn [andb] in Hr1.
      apply (rubric_failed plan n_o n_r true
               (mkCheck "references_coverage" (3 <=? n_r)
                  "Plan includes at least three references (docs, cases, benchmarks)."
                  10 false)) in Hin; [|in_rubric].
      cbn [passed] in Hin. unfold below in Hr1.
      rewrite Hr in Hr1. apply Z.leb_gt in Hin.
      destruct (Z.ltb_spec n_r 3); [|lia]. by injection Hr1 as <-.
    - rewrite bool_decide_eq_false_2 in Hr1 by done.
      cbn [andb] in Hr1. fold (py_get_or plan "references" (JList [])) in Hr1.
      rewrite Hr in Hr1. injection Hr1 as <-.
      by apply (rubric_not_failed plan n_o n_r true
                  (mkCheck "references_coverage" (3 <=? n_r)
                     "Plan includes at least three references (docs, cases, benchmarks)."
                     10 false)); [in_rubric|]. }
  (* the fields with one placeholder *)
  assert ("insight_axes_coverage" ∉ failed →
          insight_axes_covered plan = true) as Haxes.
  { intros Hnot.
    eapply (rubric_not_failed _ _ _ _ (mkCheck _ _ _ _ _)); [|exact Hnot].
    in_rubric. }
  unfold insight_axes_covered, insight_axes in Haxes.
  cbn [forallb] in Haxes. rewrite !andb_true_iff in Haxes.
  pose proof (all_simple_repaired _ _ _ Hwf Hrun) as Hsimple.
  fold failed in Hsimple.
  apply Forall_app in Hsimple as [Hfirst Hsimple].
  apply Forall_app in Hsimple as [Haxis Hlast].
  unfold first_repairs in Hfirst. unfold axis_repairs in Haxis.
  unfold last_repairs in Hlast.
  repeat match goal with
  | H : Forall _ (_ :: _) |- _ =>
      let H' := fresh "Hfill" in
      apply Forall_cons in H as [H' H]; cbn [fst snd] in H'
  end.
  exists ((2 <=? n_options) && non_empty (py_get plan1 "selected_option")).
  unfold rubric, insight_axes_covered, insight_axes. cbn [forallb].
  rewrite (Hkeep "goal"), (Hkeep "success_metric"), (Hkeep "deadline")
    by auto.
  rewrite Hgoal, Hmetric, Hdeadline, Href.
  repeat match goal with
  | H : _ → non_empty (py_get plan1 _) = true |- _ =>
      rewrite H;
      [ clear H
      | clear H; intros Hnot;
        first
          [ exact Hdod
          | eapply (rubric_not_failed _ _ _ _ (mkCheck _ _ _ _ _));
            [|exact Hnot]; in_rubric
          | apply Haxes in Hnot; tauto ] ]
  end.
  reflexivity.
Qed.

(** X11.  Whenever the [plan] and [replan] commands trigger the automatic
    repair of a well-formed document, the second assessment reports no
    critical failure, a score of 100 or 92 and the disposition [PASS]; the
    only check that can still fail is [options_comparison]. *)
Theorem auto_replan_reaches_pass now plan score checks :
  well_formed plan = true →
  run_qa plan = Some (score, checks, false) → score < 70 →
  ∃ plan' trace score2 checks2,
    qa_auto_replan now plan = Some (plan', trace)
    ∧ run_qa plan' = Some (score2, checks2, false)
    ∧ (score2 = 100 ∨ score2 = 92)
    ∧ score < score2
    ∧ disposition score2 false = PASS
    ∧ (∀ c, c ∈ checks2 → passed c = false →
            name c = "options_comparison").
Proof.
  intros Hwf Hqa Hlow.
  destruct (auto_replan_stub_well_formed plan checks Hwf)
    as (plan1 & Hrep & Hwf1).
  destruct (run_qa_total plan1 Hwf1) as (score2 & checks2 & cf2 & Hqa2).
  pose proof Hqa2 as Hinv. apply run_qa_inv in Hinv
    as (n_options & n_references & balance & Ho & Hr & Hb & Hchecks & Hs & Hc).
  destruct (repaired_rubric _ _ _ _ _ _ _ Hwf Hqa Hrep Ho Hr Hb) as [b Hrub].
  rewrite Hrub in Hchecks.
  destruct (weight_sum_all_but_options b) as (Hsum & Hcrit & Hfail).
  cbn zeta in Hsum, Hcrit, Hfail. rewrite <- Hchecks in Hsum, Hcrit, Hfail.
  rewrite Hsum in Hs. rewrite Hcrit in Hc. subst cf2.
  unfold qa_auto_replan. rewrite Hqa. cbn [mbind option_bind negb andb].
  apply Z.ltb_lt in Hlow. rewrite Hlow. apply Z.ltb_lt in Hlow.
  rewrite Hrep. cbn [mbind option_bind].
  rewrite run_qa_save_plan, Hqa2. cbn [mbind option_bind].
  eexists _, _, score2, checks2. split; [reflexivity|].
  split; [by rewrite run_qa_save_plan|].
  subst score2. destruct b; repeat split; auto; lia.
Qed.

Lemma auto_replan_reaches_pass_witness :
  ∃ plan' trace score2 checks2,
    qa_auto_replan "2026-11-02T00:00:00+00:00" sample_plan
    = Some (plan', trace)
    ∧ run_qa plan' = Some (score2, checks2, false)
    ∧ (score2 = 100 ∨ score2 = 92).
Proof.
  destruct (auto_replan_reaches_pass "2026-11-02T00:00:00+00:00" sample_plan
              35 (rubric sample_plan 0 0 true))
    as (plan' & trace & score2 & checks2 & Hrun & Hqa & Hscore & _).
  - vm_compute. reflexivity.
  - vm_compute. reflexivity.
  - lia.
  - exists plan', trace, score2, checks2.
    split; [exact Hrun|]. split; [exact Hqa|exact Hscore].
Defined.

(** ** Loading and saving the plan file *)

Lemma cmd_bind_unfold {A B} (m : Cmd A) (f : A → Cmd B) w :
  (m ≫= f) w = match m w with Some (a, w') => f a w' | None => None end.
Proof. reflexivity. Qed.

Lemma ensure_state_spec w : ensure_state w = Some ((), after_ensure w).
Proof.
  destruct w as [[p|] [d|] [r|] [e|] out clk n]; reflexivity.
Qed.

(** The write goes through when the stamped document encodes, and raises
    otherwise. *)
Lemma save_plan_file_spec encodes plan w :
  save_plan_file encodes plan w
  = if encodes (JObj (save_plan (clock w (ticks w)) plan))
    then Some (save_plan (clock w (ticks w)) plan, after_save plan w)
    else None.
Proof.
  unfold save_plan_file. rewrite cmd_bind_unfold. cbn [now_iso]. cbn zeta.
  by destruct (encodes _).
Qed.

Lemma save_plan_file_ok encodes plan w :
  encodes (JObj (save_plan (clock w (ticks w)) plan)) = true →
  save_plan_file encodes plan w
  = Some (save_plan (clock w (ticks w)) plan, after_save plan w).
Proof. intros Henc. by rewrite save_plan_file_spec, Henc. Qed.

(** A command that returns under some encoder returns the same under the
    encoder that accepts every document: the encoder only decides whether
    a write raises. *)
Lemma bind_mono {A B} (m m' : Cmd A) (f f' : A → Cmd B) :
  (∀ w r, m w = Some r → m' w = Some r) →
  (∀ a w r, f a w = Some r → f' a w = Some r) →
  ∀ w r, (m ≫= f) w = Some r → (m' ≫= f') w = Some r.
Proof.
  intros Hm Hf w r. rewrite !cmd_bind_unfold.
  destruct (m w) as [[a w1]|] eqn:Hmw; [|done].
  rewrite (Hm _ _ Hmw). apply Hf.
Qed.

Lemma save_plan_file_mono encodes plan w r :
  save_plan_file encodes plan w = Some r →
  save_plan_file every_document plan w = Some r.
Proof.
  rewrite !save_plan_file_spec. by destruct (encodes _).
Qed.

Lemma load_plan_mono encodes w r :
  load_plan encodes w = Some r → load_plan every_document w = Some r.
Proof.
  unfold load_plan. revert w r.
  apply bind_mono; [done|]. intros _.
  apply bind_mono; [done|]. intros doc w r.
  destruct doc; try done. revert w r.
  apply bind_mono; [done|]. intros now.
  apply bind_mono; [done|]. intros plan w r.
  apply save_plan_file_mono.
Qed.

(** [load_plan] on a plan file that holds a dict: it returns the migrated,
    stamped document when that document encodes. *)
Lemma load_plan_cases encodes w doc migrated :
  plan_file (after_ensure w) = Some (JObj doc) →
  migrate_plan (clock w (ticks (after_ensure w))) doc = Some migrated →
  load_plan encodes w
  = if encodes
         (JObj (save_plan (clock w (S (ticks (after_ensure w)))) migrated))
    then Some (save_plan (clock w (S (ticks (after_ensure w)))) migrated,
               mkWorld
                 (Some (JObj (save_plan
                                (clock w (S (ticks (after_ensure w))))
                                migrated)))
                 (Some (default [] (decisions_log w)))
                 (Some (default [] (risks_log w)))
                 (Some (default [] (events_log w)))
                 (stdout w) (clock w) (S (S (ticks (after_ensure w)))))
    else None.
Proof.
  intros Hfile Hmig.
  unfold load_plan. rewrite cmd_bind_unfold, ensure_state_spec.
  rewrite cmd_bind_unfold. unfold read_plan, lift. rewrite Hfile.
  rewrite cmd_bind_unfold. cbn [now_iso]. rewrite cmd_bind_unfold.
  change (clock (after_ensure w)) with (clock w).
  rewrite Hmig. cbn [lift]. rewrite save_plan_file_spec.
  reflexivity.
Qed.

Lemma load_plan_inv encodes w plan w' :
  load_plan encodes w = Some (plan, w') →
  ∃ doc migrated,
    plan_file (after_ensure w) = Some (JObj doc)
    ∧ migrate_plan (clock w (ticks (after_ensure w))) doc = Some migrated
    ∧ plan = save_plan (clock w (S (ticks (after_ensure w)))) migrated
    ∧ w' = mkWorld (Some (JObj plan))
             (Some (default [] (decisions_log w)))
             (Some (default [] (risks_log w)))
             (Some (default [] (events_log w)))
             (stdout w) (clock w) (S (S (ticks (after_ensure w))))
    ∧ encodes (JObj plan) = true.
Proof.
  unfold load_plan. rewrite cmd_bind_unfold, ensure_state_spec.
  rewrite cmd_bind_unfold. unfold read_plan, lift.
  destruct (plan_file (after_ensure w)) as [[| | | | | |doc]|] eqn:Hfile;
    try done.
  rewrite cmd_bind_unfold. cbn [now_iso].
  rewrite cmd_bind_unfold.
  change (clock (after_ensure w)) with (clock w).
  destruct (migrate_plan _ doc) as [migrated|] eqn:Hmig; [|done].
  cbn [lift]. rewrite save_plan_file_spec.
  destruct (encodes _) eqn:Henc; [|done]. intros [= <- <-].
  exists doc, migrated. done.
Qed.

Lemma healthy_after_ensure w :
  healthy_plan_file w →
  ∃ doc, plan_file (after_ensure w) = Some (JObj doc)
         ∧ well_formed doc = true
         ∧ (doc !! "tasks" = None
            ∨ ∃ l, doc !! "tasks" = Some (JList l)
                   ∧ forallb is_str l = true).
Proof.
  intros [Hnone|(doc & Hfile & Hwf & Htasks)].
  - exists (default_plan (clock w (ticks w))).
    unfold after_ensure. rewrite Hnone. cbn [plan_file default].
    split; [done|]. split; [apply default_plan_well_formed|].
    left. vm_compute. reflexivity.
  - exists doc. unfold after_ensure. rewrite Hfile. done.
Qed.

(** A loaded document is one that migration leaves alone. *)
Lemma migrated_saved_fixed now1 now2 now3 doc migrated :
  migrate_plan now1 doc = Some migrated →
  migrate_plan now3 (save_plan now2 migrated) = Some (save_plan now2 migrated).
Proof.
  intros Hmig.
  destruct (migrate_plan_inv _ _ _ Hmig) as (plan1 & _ & Hv & Ht & Hk).
  apply migrate_plan_fixed.
  - unfold save_plan. by rewrite lookup_insert_ne.
  - unfold save_plan. by rewrite lookup_insert_ne.
  - intros k. unfold save_plan.
    destruct (decide (k = "updated_at")) as [->|Hnu].
    { by rewrite lookup_insert_eq. }
    rewrite lookup_insert_ne by done. intros Hnone.
    destruct (decide (k = "version")) as [->|Hnv]; [congruence|].
    destruct (decide (k = "tasks")) as [->|Hnt].
    { apply not_elem_of_list_to_map.
      intros Hin%list_elem_of_In. cbn in Hin. intuition discriminate. }
    rewrite (Hk k Hnv Hnt) in Hnone.
    destruct (plan1 !! k); [discriminate Hnone|].
    by apply (default_plan_keys now1).
Qed.

(** The document that [load_plan] is to write on a healthy state. *)
Lemma healthy_migrates w :
  healthy_plan_file w →
  ∃ doc migrated,
    plan_file (after_ensure w) = Some (JObj doc)
    ∧ migrate_plan (clock w (ticks (after_ensure w))) doc = Some migrated
    ∧ ∀ now,
        well_formed (save_plan now migrated) = true
        ∧ save_plan now migrated !! "updated_at" = Some (JStr now)
        ∧ save_plan now migrated !! "version" = Some (JStr SCHEMA_VERSION)
        ∧ save_plan now migrated !! "tasks" = None
        ∧ (∀ k t, (k, t) ∈ plan_schema →
                  is_Some (save_plan now migrated !! k)).
Proof.
  intros (doc & Hfile & Hwf & Htasks)%healthy_after_ensure.
  destruct (migrate_plan_total (clock w (ticks (after_ensure w))) doc)
    as [migrated Hmig].
  { destruct Htasks as [?|(l & ? & _)]; eauto. }
  exists doc, migrated. split; [exact Hfile|]. split; [exact Hmig|].
  intros now.
  pose proof (migrate_plan_typed _ _ _ Hmig) as Hwf'.
  destruct (migrate_plan_inv _ _ _ Hmig) as (plan1 & _ & Hv & Ht & _).
  split.
  { apply save_plan_well_formed, Hwf'; [exact Hwf|].
    intros ([v Hv'] & _). destruct Htasks as [Hn|(l & Hl & Hs)].
    - rewrite Hn in Hv'. discriminate Hv'.
    - by exists l. }
  split. { unfold save_plan. by rewrite lookup_insert_eq. }
  split. { unfold save_plan. by rewrite lookup_insert_ne. }
  split. { unfold save_plan. by rewrite lookup_insert_ne. }
  intros k t Hin. unfold save_plan.
  destruct (decide (k = "updated_at")) as [->|Hnu].
  - by rewrite lookup_insert_eq.
  - rewrite lookup_insert_ne by done.
    by apply (migrate_plan_complete _ _ _ k t Hmig).
Qed.

Lemma load_plan_spec encodes w :
  (∀ doc, encodes doc = true) →
  healthy_plan_file w →
  ∃ plan w',
    load_plan encodes w = Some (plan, w')
    ∧ well_formed plan = true
    ∧ plan_file w' = Some (JObj plan)
    ∧ (∀ l, get_log l w' = Some (default [] (get_log l w)))
    ∧ stdout w' = stdout w ∧ clock w' = clock w
    ∧ (ticks w < ticks w' ≤ ticks w + 3)%nat
    ∧ plan !! "updated_at" = Some (JStr (clock w (pred (ticks w'))))
    ∧ plan !! "version" = Some (JStr SCHEMA_VERSION)
    ∧ plan !! "tasks" = None
    ∧ (∀ k t, (k, t) ∈ plan_schema → is_Some (plan !! k)).
Proof.
  intros Henc (doc & migrated & Hfile & Hmig & Hplan)%healthy_migrates.
  pose proof (load_plan_cases encodes w doc migrated Hfile Hmig) as Hload.
  rewrite Henc in Hload.
  destruct (Hplan (clock w (S (ticks (after_ensure w)))))
    as (Hwf & Hu & Hv & Ht & Hk).
  eexists _, _. split; [exact Hload|].
  split; [exact Hwf|]. split; [reflexivity|].
  split. { by intros []. }
  split; [reflexivity|]. split; [reflexivity|].
  split. { cbn [ticks after_ensure]. destruct (plan_file w); lia. }
  split; [exact Hu|]. split; [exact Hv|]. split; [exact Ht|exact Hk].
Qed.

Lemma load_plan_result_fixed encodes w plan w' :
  load_plan encodes w = Some (plan, w') →
  ∀ now, migrate_plan now plan = Some plan.
Proof.
  intros (doc & migrated & _ & Hmig & -> & _)%load_plan_inv now.
  by eapply migrated_saved_fixed.
Qed.

(** X12.  Loading heals and persists.  On a state whose plan file is
    missing, or holds a well-formed document (a legacy [tasks] being a list
    of strings), [load_plan] has a document to write: the migrated one
    with its stamp.  It is one that migration leaves alone; it is
    well-formed, has every field of the schema, the current version and no
    [tasks], and its [updated_at] is the last clock reading.  When that
    document cannot be encoded [load_plan] raises.  When it can,
    [load_plan] returns it and leaves exactly it in the plan file, after
    at most three clock readings; missing logs are created empty,
    existing ones are kept, nothing is printed. *)
Theorem load_plan_heals encodes w :
  healthy_plan_file w →
  ∃ plan,
    (∀ now, migrate_plan now plan = Some plan)
    ∧ well_formed plan = true
    ∧ plan !! "version" = Some (JStr SCHEMA_VERSION)
    ∧ plan !! "tasks" = None
    ∧ (∀ k t, (k, t) ∈ plan_schema → is_Some (plan !! k))
    ∧ (encodes (JObj plan) = false → load_plan encodes w = None)
    ∧ (encodes (JObj plan) = true →
       ∃ w',
         load_plan encodes w = Some (plan, w')
         ∧ plan_file w' = Some (JObj plan)
         ∧ (∀ l, get_log l w' = Some (default [] (get_log l w)))
         ∧ stdout w' = stdout w ∧ clock w' = clock w
         ∧ (ticks w < ticks w' ≤ ticks w + 3)%nat
         ∧ plan !! "updated_at" = Some (JStr (clock w (pred (ticks w'))))).
Proof.
  intros (doc & migrated & Hfile & Hmig & Hplan)%healthy_migrates.
  pose proof (load_plan_cases encodes w doc migrated Hfile Hmig) as Hload.
  destruct (Hplan (clock w (S (ticks (after_ensure w)))))
    as (Hwf & Hu & Hv & Ht & Hk).
  exists (save_plan (clock w (S (ticks (after_ensure w)))) migrated).
  split. { intros now. by eapply migrated_saved_fixed. }
  split; [exact Hwf|]. split; [exact Hv|]. split; [exact Ht|].
  split; [exact Hk|]. split.
  - intros Henc. by rewrite Hload, Henc.
  - intros Henc. rewrite Henc in Hload.
    eexists. split; [exact Hload|]. split; [reflexivity|].
    split. { by intros []. }
    split; [reflexivity|]. split; [reflexivity|].
    split. { cbn [ticks after_ensure]. destruct (plan_file w); lia. }
    exact Hu.
Qed.

Lemma load_plan_heals_witness :
  ∃ plan w',
    load_plan every_document legacy_world = Some (plan, w')
    ∧ plan_file w' = Some (JObj plan)
    ∧ plan !! "tasks" = None.
Proof.
  destruct (load_plan_heals every_document legacy_world)
    as (plan & _ & _ & _ & Ht & _ & _ & Hload).
  { right. exists legacy_plan. split; [reflexivity|].
    split; [vm_compute; reflexivity|].
    right. exists [JStr "Draft"; JStr "Review"; JStr "Ship"].
    split; vm_compute; reflexivity. }
  destruct (Hload eq_refl) as (w' & Hrun & Hfile & _).
  exists plan, w'. split; [exact Hrun|]. split; [exact Hfile|exact Ht].
Defined.

Lemma load_plan_fixed encodes w plan :
  (∀ doc, encodes doc = true) →
  plan_file w = Some (JObj plan) →
  (∀ now, migrate_plan now plan = Some plan) →
  load_plan encodes w
  = Some (save_plan (clock w (S (ticks w))) plan,
          mkWorld (Some (JObj (save_plan (clock w (S (ticks w))) plan)))
            (Some (default [] (decisions_log w)))
            (Some (default [] (risks_log w)))
            (Some (default [] (events_log w)))
            (stdout w) (clock w) (S (S (ticks w)))).
Proof.
  intros Henc Hfile Hfix.
  assert (plan_file (after_ensure w) = Some (JObj plan)) as Hfile'.
  { unfold after_ensure. by rewrite Hfile. }
  rewrite (load_plan_cases encodes w plan plan Hfile' (Hfix _)), Henc.
  unfold after_ensure. rewrite Hfile. reflexivity.
Qed.

Lemma cmd_qa_run encodes w plan w' score checks cf :
  load_plan encodes w = Some (plan, w') →
  run_qa plan = Some (score, checks, cf) →
  cmd_qa encodes w
  = Some ((), mkWorld (plan_file w') (decisions_log w') (risks_log w')
                (events_log w') (stdout w' ++ print_qa score checks cf)%list
                (clock w') (ticks w')).
Proof.
  intros Hload Hqa. unfold cmd_qa.
  rewrite cmd_bind_unfold, Hload, cmd_bind_unfold.
  unfold lift. rewrite Hqa. reflexivity.
Qed.

Lemma cmd_qa_mono encodes w r :
  cmd_qa encodes w = Some r → cmd_qa every_document w = Some r.
Proof.
  unfold cmd_qa. revert w r.
  apply bind_mono; [apply load_plan_mono|]. by intros plan.
Qed.

Lemma cmd_qa_twice encodes w :
  (∀ doc, encodes doc = true) →
  healthy_plan_file w →
  ∃ plan report w1 w2,
    cmd_qa encodes w = Some ((), w1)
    ∧ stdout w1 = (stdout w ++ report)%list
    ∧ plan_file w1 = Some (JObj plan)
    ∧ (∀ l, get_log l w1 = Some (default [] (get_log l w)))
    ∧ cmd_qa encodes w1 = Some ((), w2)
    ∧ stdout w2 = (stdout w1 ++ report)%list
    ∧ plan_file w2
      = Some (JObj (save_plan (clock w (pred (ticks w2))) plan))
    ∧ (∀ l, get_log l w2 = get_log l w1).
Proof.
  intros Henc Hw.
  destruct (load_plan_spec encodes w Henc Hw)
    as (plan & w' & Hload & Hwf & Hfile & Hlogs & Hout & Hclock & _).
  destruct (run_qa_total plan Hwf) as (score & checks & cf & Hqa).
  pose proof (load_plan_result_fixed _ _ _ _ Hload) as Hfix.
  exists plan, (print_qa score checks cf).
  eexists. eexists.
  split; [by apply (cmd_qa_run encodes w plan w')|].
  cbn [stdout plan_file]. split; [by rewrite Hout|].
  split; [exact Hfile|].
  split. { intros l. rewrite <- Hlogs. by destruct l. }
  split.
  { eapply cmd_qa_run.
    - by apply load_plan_fixed.
    - rewrite run_qa_save_plan. exact Hqa. }
  cbn [stdout plan_file ticks clock Nat.pred]. rewrite Hclock.
  split; [done|]. split; [done|].
  intros l. pose proof (Hlogs l) as Hl.
  destruct l; cbn [get_log decisions_log risks_log events_log] in *;
    by rewrite Hl.
Qed.

(** X13.  [qa] only reports.  On a healthy state, when [qa] returns and,
    run again, returns again, the plan file after the first run holds the
    loaded document, no event is logged, and the second run prints the
    same report once more and changes nothing in the plan file but
    [updated_at].  Both runs return when every document encodes. *)
Theorem cmd_qa_repeatable encodes w :
  healthy_plan_file w →
  (∀ w1 w2,
     cmd_qa encodes w = Some ((), w1) →
     cmd_qa encodes w1 = Some ((), w2) →
     ∃ plan report,
       stdout w1 = (stdout w ++ report)%list
       ∧ plan_file w1 = Some (JObj plan)
       ∧ (∀ l, get_log l w1 = Some (default [] (get_log l w)))
       ∧ stdout w2 = (stdout w1 ++ report)%list
       ∧ plan_file w2
         = Some (JObj (save_plan (clock w (pred (ticks w2))) plan))
       ∧ (∀ l, get_log l w2 = get_log l w1))
  ∧ ((∀ doc, encodes doc = true) →
     ∃ w1 w2,
       cmd_qa encodes w = Some ((), w1)
       ∧ cmd_qa encodes w1 = Some ((), w2)).
Proof.
  intros Hw. split.
  - intros w1 w2 H1%cmd_qa_mono H2%cmd_qa_mono.
    destruct (cmd_qa_twice every_document w (λ _, eq_refl) Hw)
      as (plan & report & w1' & w2' & E1 & Ho1 & Hf1 & Hl1 & E2 & Ho2 & Hf2
          & Hl2).
    rewrite E1 in H1. injection H1 as <-.
    rewrite E2 in H2. injection H2 as <-.
    by exists plan, report.
  - intros Henc.
    destruct (cmd_qa_twice encodes w Henc Hw)
      as (plan & report & w1 & w2 & E1 & _ & _ & _ & E2 & _).
    by exists w1, w2.
Qed.

Lemma cmd_qa_repeatable_witness :
  ∃ plan report w1 w2,
    cmd_qa every_document empty_world = Some ((), w1)
    ∧ cmd_qa every_document w1 = Some ((), w2)
    ∧ stdout w2 = (report ++ report)%list
    ∧ plan_file w1 = Some (JObj plan).
Proof.
  destruct (cmd_qa_repeatable every_document empty_world) as [Hsame Hruns].
  { left. reflexivity. }
  destruct (Hruns (λ _, eq_refl)) as (w1 & w2 & H1 & H2).
  destruct (Hsame w1 w2 H1 H2)
    as (plan & report & Ho1 & Hf1 & _ & Ho2 & _).
  exists plan, report, w1, w2.
  split; [exact H1|]. split; [exact H2|].
  split; [|exact Hf1]. rewrite Ho2, Ho1. reflexivity.
Defined.

(** ** Edits over distinct keys *)

Lemma run_edit_other e plan plan' k :
  run_edit e plan = Some plan' → k ≠ e.1 → plan' !! k = plan !! k.
Proof.
  unfold run_edit. intros Hrun Hne.
  destruct (e.2 (plan !! e.1)) as [[v|]|]; [| |done].
  - apply (inj Some) in Hrun. subst plan'. by rewrite lookup_insert_ne.
  - by apply (inj Some) in Hrun; subst plan'.
Qed.

Lemma run_edit_own e plan plan' :
  run_edit e plan = Some plan' →
  plan' !! e.1 = match e.2 (plan !! e.1) with
                 | Some (Some v) => Some v
                 | _ => plan !! e.1
                 end.
Proof.
  unfold run_edit. intros Hrun.
  destruct (e.2 (plan !! e.1)) as [[v|]|]; [| |done].
  - apply (inj Some) in Hrun. subst plan'. by rewrite lookup_insert_eq.
  - by apply (inj Some) in Hrun; subst plan'.
Qed.

(** With one statement per key, each one sees the value the document
    started with and its result is what the document ends with. *)
Lemma run_edits_lookup es plan plan' k :
  NoDup es.*1 → run_edits es plan = Some plan' →
  plan' !! k
  = match (list_to_map es : gmap string _) !! k with
    | Some f => match f (plan !! k) with
                | Some (Some v) => Some v
                | _ => plan !! k
                end
    | None => plan !! k
    end.
Proof.
  revert plan. induction es as [|[key f] es IH]; intros plan Hnodup Hrun.
  { by apply (inj Some) in Hrun; subst plan'. }
  apply NoDup_cons in Hnodup as [Hfresh Hnodup]. cbn [run_edits] in Hrun.
  destruct (run_edit (key, f) plan) as [p1|] eqn:H1; [|done].
  cbn [mbind option_bind] in Hrun.
  rewrite (IH _ Hnodup Hrun). rewrite list_to_map_cons.
  destruct (decide (k = key)) as [->|Hne].
  - rewrite lookup_insert_eq.
    apply not_elem_of_list_to_map in Hfresh. cbn [fst] in Hfresh.
    rewrite Hfresh. exact (run_edit_own _ _ _ H1).
  - rewrite lookup_insert_ne by done.
    by rewrite (run_edit_other _ _ _ k H1).
Qed.

Lemma run_edits_is_Some es plan :
  NoDup es.*1 →
  is_Some (run_edits es plan)
  ↔ ∀ e, e ∈ es → is_Some (e.2 (plan !! e.1)).
Proof.
  revert plan. induction es as [|e es IH]; intros plan Hnodup.
  { split; [by intros _ e ?%elem_of_nil|done]. }
  apply NoDup_cons in Hnodup as [Hfresh Hnodup]. cbn [run_edits].
  assert (∀ p1 e', run_edit e plan = Some p1 → e' ∈ es →
            p1 !! e'.1 = plan !! e'.1) as Hsame.
  { intros p1 e' H1 Hin. apply (run_edit_other _ _ _ _ H1).
    intros Heq. apply Hfresh. rewrite <- Heq.
    by apply list_elem_of_fmap_2. }
  split.
  - intros Hsome e' [->|Hin]%elem_of_cons.
    + unfold run_edit in Hsome.
      destruct (e.2 (plan !! e.1)); [done|].
      by destruct Hsome as [? [=]].
    + destruct (run_edit e plan) as [p1|] eqn:H1;
        [|by destruct Hsome as [? [=]]].
      cbn [mbind option_bind] in Hsome.
      rewrite <- (Hsame p1 e' eq_refl Hin). by apply (IH p1 Hnodup).
  - intros Hall.
    destruct (Hall e) as [o Ho]; [by apply elem_of_cons; left|].
    assert (∃ p1, run_edit e plan = Some p1) as [p1 H1].
    { unfold run_edit. rewrite Ho. destruct o; eauto. }
    rewrite H1. cbn [mbind option_bind]. apply (IH p1 Hnodup).
    intros e' Hin. rewrite (Hsame p1 e' H1 Hin).
    apply Hall, elem_of_cons. by right.
Qed.

Lemma set_csv_edit args k plan :
  run_edit (csv_edit args k) plan = Some (set_csv args k plan).
Proof.
  unfold run_edit, csv_edit, set_csv. cbn [fst snd].
  by destruct (String.eqb (args k) "").
Qed.

Lemma text_edit_run args k plan :
  run_edit (text_edit args k) plan
  = Some (<[k := py_or (args k) (py_get_or plan k (JStr ""))]> plan).
Proof. reflexivity. Qed.

Lemma option_edit_run args plan :
  run_edit (option_edit args) plan
  = Some (if String.eqb (args "selected_option") "" then plan
          else <["selected_option" := JStr (strip (args "selected_option"))]>
                 plan).
Proof.
  unfold run_edit, option_edit. cbn [fst snd].
  by destruct (String.eqb (args "selected_option") "").
Qed.

Lemma cmd_plan_edits_run args plan :
  run_edits (plan_edits args) plan = Some (cmd_plan_edits args plan).
Proof.
  unfold plan_edits. cbn [plan_text_flags plan_list_flags map take drop app].
  cbn [run_edits].
  repeat (first [ rewrite text_edit_run | rewrite set_csv_edit
                | rewrite option_edit_run ];
          cbn [mbind option_bind]).
  reflexivity.
Qed.

Lemma plan_edits_keys args :
  (plan_edits args).*1
  = (plan_text_flags ++ take 3 plan_list_flags
     ++ ["selected_option"] ++ drop 3 plan_list_flags)%list.
Proof. reflexivity. Qed.

Lemma plan_edits_NoDup args : NoDup (plan_edits args).*1.
Proof.
  rewrite plan_edits_keys. apply (bool_decide_unpack _). vm_compute. exact I.
Qed.

Lemma cmd_plan_edits_lookup args plan k :
  cmd_plan_edits args plan !! k
  = match (list_to_map (plan_edits args) : gmap string _) !! k with
    | Some f => match f (plan !! k) with
                | Some (Some v) => Some v
                | _ => plan !! k
                end
    | None => plan !! k
    end.
Proof.
  apply run_edits_lookup; [apply plan_edits_NoDup|apply cmd_plan_edits_run].
Qed.

Lemma plan_edits_lookup args e :
  e ∈ plan_edits args →
  (list_to_map (plan_edits args) : gmap string _) !! e.1 = Some e.2.
Proof.
  intros Hin. apply elem_of_list_to_map_1; [apply plan_edits_NoDup|].
  by destruct e.
Qed.


(** ** The fields after [cmd_plan]'s assignments *)

Lemma plan_schema_NoDup : NoDup plan_schema.*1.
Proof. apply (bool_decide_unpack _). vm_compute. exact I. Qed.

Lemma plan_schema_functional k t1 t2 :
  (k, t1) ∈ plan_schema → (k, t2) ∈ plan_schema → t1 = t2.
Proof.
  intros H1 H2.
  apply (elem_of_list_to_map_1 (M := gmap string) _ _ _ plan_schema_NoDup)
    in H1, H2.
  rewrite H1 in H2. by injection H2.
Qed.

Lemma type_ok_has_type k t v :
  (k, t) ∈ plan_schema → has_type t v = true → type_ok k v = true.
Proof.
  intros Hin Hty. unfold type_ok. apply forallb_forall.
  intros [k' t'] Hin'%list_elem_of_In. cbn [fst snd].
  destruct (String.eqb_spec k' k) as [->|]; [|done].
  by rewrite (plan_schema_functional _ _ _ Hin' Hin).
Qed.

Lemma has_type_strs l : has_type TStrings (strs l) = true.
Proof. unfold strs. cbn. by induction l. Qed.

Lemma set_csv_well_formed args k plan :
  (k, TStrings) ∈ plan_schema → well_formed plan = true →
  well_formed (set_csv args k plan) = true.
Proof.
  intros Hin Hwf. unfold set_csv.
  destruct (String.eqb (args k) ""); [done|].
  apply well_formed_insert; [|done].
  eapply type_ok_has_type; [done|apply has_type_strs].
Qed.

Lemma set_text_well_formed a k plan :
  (k, TString) ∈ plan_schema → well_formed plan = true →
  well_formed (<[k := py_or a (py_get_or plan k (JStr ""))]> plan) = true.
Proof.
  intros Hin Hwf. apply well_formed_insert; [|done].
  eapply type_ok_has_type; [done|]. unfold py_or, py_get_or.
  destruct (String.eqb a ""); [|done].
  by destruct (well_formed_field _ _ _ Hwf Hin) as [->|(v & -> & ?)].
Qed.

Lemma cmd_plan_edits_well_formed args plan :
  well_formed plan = true → well_formed (cmd_plan_edits args plan) = true.
Proof.
  intros Hwf. unfold cmd_plan_edits. cbn zeta.
  do 15 (apply set_csv_well_formed; [in_schema|]).
  assert (∀ p, well_formed p = true →
            well_formed
              (if String.eqb (args "selected_option") "" then p
               else <["selected_option" :=
                        JStr (strip (args "selected_option"))]> p) = true)
    as Hsel.
  { intros p Hp. destruct (String.eqb _ ""); [done|].
    by apply well_formed_insert. }
  apply Hsel.
  do 3 (apply set_csv_well_formed; [in_schema|]).
  do 3 (apply set_text_well_formed; [in_schema|]).
  exact Hwf.
Qed.

Lemma plan_edits_text args plan k :
  k ∈ plan_text_flags →
  cmd_plan_edits args plan !! k
  = Some (if String.eqb (args k) "" then py_get_or plan k (JStr "")
          else JStr (args k)).
Proof.
  intros Hk. rewrite cmd_plan_edits_lookup.
  assert (text_edit args k ∈ plan_edits args) as Hin.
  { unfold plan_edits. apply elem_of_app. left.
    by apply list_elem_of_fmap_2. }
  apply plan_edits_lookup in Hin. cbn [text_edit fst snd] in Hin.
  rewrite Hin. unfold py_or, py_get_or.
  by destruct (String.eqb (args k) "").
Qed.

(** X14.  What [plan] stores, field by field.  A text flag replaces its
    field when given and keeps it otherwise (a missing one becomes the
    empty string); a list flag that is given replaces its field by the
    parsed entries, and one that is not given leaves the field as it was;
    [--selected-option] is stored stripped; no other field changes.  The
    outcome for a field does not depend on the other flags, and a
    well-formed document stays well-formed. *)
Theorem cmd_plan_edits_fields args plan :
  (∀ k, k ∈ plan_text_flags →
        cmd_plan_edits args plan !! k
        = Some (if String.eqb (args k) "" then py_get_or plan k (JStr "")
                else JStr (args k)))
  ∧ (∀ k, k ∈ plan_list_flags →
          cmd_plan_edits args plan !! k
          = if String.eqb (args k) "" then plan !! k
            else Some (strs (parse_csv (args k))))
  ∧ cmd_plan_edits args plan !! "selected_option"
    = (if String.eqb (args "selected_option") ""
       then plan !! "selected_option"
       else Some (JStr (strip (args "selected_option"))))
  ∧ (∀ k, k ∉ plan_text_flags → k ∉ plan_list_flags →
          k ≠ "selected_option" →
          cmd_plan_edits args plan !! k = plan !! k)
  ∧ (well_formed plan = true →
     well_formed (cmd_plan_edits args plan) = true).
Proof.
  split; [|split; [|split; [|split]]].
  - intros k Hk. by apply plan_edits_text.
  - intros k Hk. rewrite cmd_plan_edits_lookup.
    assert (csv_edit args k ∈ plan_edits args) as Hin.
    { rewrite <- (take_drop 3 plan_list_flags) in Hk.
      unfold plan_edits. rewrite !elem_of_app.
      apply elem_of_app in Hk as [Hk|Hk]; [right; left|do 3 right];
        by apply list_elem_of_fmap_2. }
    apply plan_edits_lookup in Hin. cbn [csv_edit fst snd] in Hin.
    rewrite Hin. by destruct (String.eqb (args k) "").
  - rewrite cmd_plan_edits_lookup.
    assert (option_edit args ∈ plan_edits args) as Hin.
    { unfold plan_edits. rewrite !elem_of_app. do 2 right. left.
      by apply list_elem_of_singleton. }
    apply plan_edits_lookup in Hin. cbn [option_edit fst snd] in Hin.
    rewrite Hin. by destruct (String.eqb (args "selected_option") "").
  - intros k Ht Hl Hs. rewrite cmd_plan_edits_lookup.
    assert ((list_to_map (plan_edits args) : gmap string _) !! k = None)
      as ->; [|done].
    apply not_elem_of_list_to_map. rewrite plan_edits_keys.
    rewrite <- (take_drop 3 plan_list_flags) in Hl.
    rewrite !elem_of_app, list_elem_of_singleton.
    rewrite elem_of_app in Hl. tauto.
  - apply cmd_plan_edits_well_formed.
Qed.

(** ** The fields after [cmd_replan]'s appends *)

Lemma append_edit_run args flag key plan :
  run_edit (append_edit args (flag, key)) plan
  = append_flag args flag key plan.
Proof.
  unfold run_edit, append_edit, append_flag, py_get_or. cbn [fst snd].
  destruct (String.eqb (args flag) ""); [done|].
  by destruct (default (JList []) (plan !! key)).
Qed.

Lemma cmd_replan_edits_run args plan :
  run_edits (replan_edits args) plan = cmd_replan_edits args plan.
Proof.
  unfold replan_edits, cmd_replan_edits.
  cbn [replan_flags map run_edits].
  repeat (rewrite append_edit_run;
          destruct (append_flag _ _ _ _) as [?p|];
          cbn [mbind option_bind]; [|reflexivity]).
  reflexivity.
Qed.

Lemma replan_edits_keys args : (replan_edits args).*1 = replan_flags.*2.
Proof. reflexivity. Qed.

Lemma replan_edits_NoDup args : NoDup (replan_edits args).*1.
Proof.
  rewrite replan_edits_keys. apply (bool_decide_unpack _). vm_compute. exact I.
Qed.

Lemma replan_flags_schema flag key :
  (flag, key) ∈ replan_flags → (key, TStrings) ∈ plan_schema.
Proof.
  intros Hin%list_elem_of_In. cbn [replan_flags In] in Hin.
  repeat (destruct Hin as [[= <- <-]|Hin]; [in_schema|]). done.
Qed.

Lemma replan_appends_fields args plan plan' flag key :
  cmd_replan_edits args plan = Some plan' →
  (flag, key) ∈ replan_flags →
  plan' !! key
  = if String.eqb (args flag) "" then plan !! key
    else Some (JList (entries plan key ++ [JStr (strip (args flag))])).
Proof.
  intros Hrun Hin. rewrite <- cmd_replan_edits_run in Hrun.
  pose proof (replan_edits_NoDup args) as Hnodup.
  assert (append_edit args (flag, key) ∈ replan_edits args) as Hin'.
  { by apply list_elem_of_fmap_2. }
  rewrite (run_edits_lookup _ _ _ key Hnodup Hrun).
  rewrite (elem_of_list_to_map_1 (M := gmap string) _ key
             (append_edit args (flag, key)).2 Hnodup Hin').
  cbn [append_edit snd fst].
  destruct (String.eqb (args flag) "") eqn:Hflag; [done|].
  destruct (proj1 (run_edits_is_Some _ plan Hnodup)
              (mk_is_Some _ _ Hrun) _ Hin') as [o Ho].
  cbn [append_edit snd fst] in Ho. rewrite Hflag in Ho. unfold entries.
  by destruct (plan !! key) as [[]|].
Qed.

Lemma replan_appends_other args plan plan' k :
  cmd_replan_edits args plan = Some plan' →
  k ∉ replan_flags.*2 → plan' !! k = plan !! k.
Proof.
  intros Hrun Hk. rewrite <- cmd_replan_edits_run in Hrun.
  rewrite (run_edits_lookup _ _ _ k (replan_edits_NoDup args) Hrun).
  assert ((list_to_map (replan_edits args) : gmap string _) !! k = None)
    as ->; [|done].
  apply not_elem_of_list_to_map. by rewrite replan_edits_keys.
Qed.

Lemma replan_appends_well_formed args plan plan' :
  cmd_replan_edits args plan = Some plan' →
  well_formed plan = true → well_formed plan' = true.
Proof.
  intros Hrun Hwf. unfold well_formed. apply forallb_forall.
  intros [k t] Hin%list_elem_of_In. unfold field_ok. cbn [fst snd].
  destruct (decide (k ∈ replan_flags.*2)) as [Hk|Hk].
  - apply list_elem_of_fmap in Hk as ([flag key] & -> & Hfk).
    cbn [snd] in Hin |- *. rewrite (replan_appends_fields _ _ _ _ _ Hrun Hfk).
    pose proof (replan_flags_schema _ _ Hfk) as Hs.
    rewrite (plan_schema_functional _ _ _ Hin Hs).
    destruct (well_formed_field _ _ _ Hwf Hs) as [Hn|(v & Hv & Hty)].
    + unfold entries. rewrite Hn. by destruct (String.eqb _ _).
    + unfold entries. rewrite Hv. destruct (String.eqb _ _); [done|].
      destruct v as [| | | | |l|]; try done. cbn [has_type] in *.
      rewrite forallb_app, Hty. done.
  - rewrite (replan_appends_other _ _ _ _ Hrun Hk).
    by destruct (well_formed_field _ _ _ Hwf Hin) as [->|(v & -> & ?)].
Qed.

(** X15.  What [replan] appends.  When the edits go through, a flag that
    is given adds exactly one entry, its stripped text, at the end of its
    field, the earlier entries staying in order (a missing field counts as
    empty); a flag that is not given leaves its field alone, and so is
    every other field.  The entry is added even when the stripped text is
    empty.  A well-formed document stays well-formed. *)
Theorem cmd_replan_edits_appends args plan plan' :
  cmd_replan_edits args plan = Some plan' →
  (∀ flag key, (flag, key) ∈ replan_flags →
     plan' !! key
     = if String.eqb (args flag) "" then plan !! key
       else Some (JList (entries plan key ++ [JStr (strip (args flag))])))
  ∧ (∀ k, k ∉ replan_flags.*2 → plan' !! k = plan !! k)
  ∧ (well_formed plan = true → well_formed plan' = true).
Proof.
  intros Hrun. split; [|split].
  - intros flag key Hin. by apply replan_appends_fields.
  - intros k Hk. by apply (replan_appends_other args).
  - by apply (replan_appends_well_formed args).
Qed.

Lemma replan_edits_total args plan :
  (∀ flag key, (flag, key) ∈ replan_flags → args flag ≠ "" →
               ∃ l, py_get_or plan key (JList []) = JList l) →
  is_Some (cmd_replan_edits args plan).
Proof.
  intros Hall. rewrite <- cmd_replan_edits_run.
  apply (run_edits_is_Some _ _ (replan_edits_NoDup args)).
  intros e ([flag key] & -> & Hin)%list_elem_of_fmap.
  cbn [append_edit fst snd].
  destruct (String.eqb_spec (args flag) "") as [|Hflag]; [done|].
  destruct (Hall _ _ Hin Hflag) as [l Hl]. unfold py_get_or in Hl.
  by rewrite Hl.
Qed.

Lemma replan_edits_well_formed_total args plan :
  well_formed plan = true → is_Some (cmd_replan_edits args plan).
Proof.
  intros Hwf. apply replan_edits_total. intros flag key Hin _.
  apply replan_flags_schema in Hin. unfold py_get_or.
  destruct (well_formed_strings _ _ Hwf Hin) as [->|(l & ->)]; eauto.
Qed.

(** X16.  When [replan]'s edits raise.  They go through exactly when the
    field of every flag that is given is missing or a list; on a
    well-formed document they always do. *)
Theorem cmd_replan_edits_defined args plan :
  (is_Some (cmd_replan_edits args plan)
   ↔ ∀ flag key, (flag, key) ∈ replan_flags → args flag ≠ "" →
                 ∃ l, py_get_or plan key (JList []) = JList l)
  ∧ (well_formed plan = true → is_Some (cmd_replan_edits args plan)).
Proof.
  split; [split|].
  - rewrite <- cmd_replan_edits_run.
    rewrite (run_edits_is_Some _ _ (replan_edits_NoDup args)).
    intros Hall flag key Hin Hflag.
    destruct (Hall (append_edit args (flag, key))) as [o Ho].
    { by apply list_elem_of_fmap_2. }
    cbn [append_edit fst snd] in Ho.
    apply String.eqb_neq in Hflag. rewrite Hflag in Ho.
    unfold py_get_or. destruct (default _ _); try done. eauto.
  - apply replan_edits_total.
  - apply replan_edits_well_formed_total.
Qed.

Lemma one_reference_defined :
  is_Some (cmd_replan_edits one_reference sample_plan).
Proof. apply (bool_decide_unpack _). vm_compute. exact I. Qed.

Lemma cmd_replan_edits_appends_witness :
  ∃ plan',
    cmd_replan_edits one_reference sample_plan = Some plan'
    ∧ plan' !! "references"
      = Some (JList (entries sample_plan "references"
                     ++ [JStr "Field notes"])).
Proof.
  destruct one_reference_defined as [plan' H].
  exists plan'. split; [exact H|].
  refine (proj1 (cmd_replan_edits_appends _ _ _ H) "reference" "references" _).
  in_keys.
Defined.

(** ** The assessment at the end of [plan] and [replan] *)

Lemma repaired_assessment plan score checks :
  well_formed plan = true →
  run_qa plan = Some (score, checks, false) →
  ∃ plan1 score2 checks2,
    auto_replan_stub plan checks = Some plan1
    ∧ well_formed plan1 = true
    ∧ run_qa plan1 = Some (score2, checks2, false)
    ∧ (score2 = 100 ∨ score2 = 92).
Proof.
  intros Hwf Hqa.
  destruct (auto_replan_stub_well_formed plan checks Hwf)
    as (plan1 & Hrep & Hwf1).
  destruct (run_qa_total plan1 Hwf1) as (score2 & checks2 & cf2 & Hqa2).
  pose proof Hqa2 as Hinv. apply run_qa_inv in Hinv
    as (n_options & n_references & balance & Ho & Hr & Hb & Hchecks & Hs & Hc).
  destruct (repaired_rubric _ _ _ _ _ _ _ Hwf Hqa Hrep Ho Hr Hb) as [b Hrub].
  rewrite Hrub in Hchecks.
  destruct (weight_sum_all_but_options b) as (Hsum & Hcrit & Hfail).
  cbn zeta in Hsum, Hcrit, Hfail. rewrite <- Hchecks in Hsum, Hcrit, Hfail.
  rewrite Hsum in Hs. rewrite Hcrit in Hc. subst cf2.
  exists plan1, score2, checks2. split; [exact Hrep|]. split; [exact Hwf1|].
  split; [exact Hqa2|]. subst score2. destruct b; auto.
Qed.

Lemma assess_no_repair encodes plan w score checks cf :
  run_qa plan = Some (score, checks, cf) →
  negb cf && (score <? 70) = false →
  assess_and_replan encodes plan w
  = Some (plan,
          mkWorld (plan_file w) (decisions_log w) (risks_log w)
            (events_log w) (stdout w ++ print_qa score checks cf)%list
            (clock w) (ticks w)).
Proof.
  intros Hqa Hc. unfold assess_and_replan.
  rewrite cmd_bind_unfold. unfold lift. rewrite Hqa.
  rewrite cmd_bind_unfold. cbn [print]. rewrite Hc. reflexivity.
Qed.

Lemma assess_repair encodes plan w score checks plan1 score2 checks2 cf2 :
  run_qa plan = Some (score, checks, false) → score < 70 →
  auto_replan_stub plan checks = Some plan1 →
  run_qa plan1 = Some (score2, checks2, cf2) →
  encodes (JObj (save_plan (clock w (ticks w)) plan1)) = true →
  assess_and_replan encodes plan w
  = Some (save_plan (clock w (ticks w)) plan1,
          mkWorld (Some (JObj (save_plan (clock w (ticks w)) plan1)))
            (decisions_log w) (risks_log w) (events_log w)
            ((((stdout w ++ print_qa score checks false)
               ++ ["Auto replan triggered."])
              ++ ["Post-replan QA:"])
             ++ print_qa score2 checks2 cf2)%list
            (clock w) (S (ticks w))).
Proof.
  intros Hqa Hlow Hrep Hqa2 Henc. unfold assess_and_replan.
  rewrite cmd_bind_unfold. unfold lift. rewrite Hqa.
  rewrite cmd_bind_unfold. cbn [print].
  apply Z.ltb_lt in Hlow. rewrite Hlow. cbn [negb andb].
  rewrite cmd_bind_unfold. cbn [print].
  rewrite cmd_bind_unfold. cbn beta. rewrite Hrep.
  rewrite cmd_bind_unfold, save_plan_file_spec. cbn [clock ticks].
  rewrite Henc.
  rewrite cmd_bind_unfold. cbn beta. rewrite run_qa_save_plan, Hqa2.
  reflexivity.
Qed.

Lemma assess_and_replan_mono encodes plan w r :
  assess_and_replan encodes plan w = Some r →
  assess_and_replan every_document plan w = Some r.
Proof.
  unfold assess_and_replan. revert w r.
  apply bind_mono; [done|]. intros [[score checks] cf].
  apply bind_mono; [done|]. intros _.
  destruct (negb cf && (score <? 70)); [|done].
  apply bind_mono; [done|]. intros _.
  apply bind_mono; [done|]. intros plan1.
  apply bind_mono; [apply save_plan_file_mono|]. by intros plan2.
Qed.

Lemma last_print_qa out score checks cf :
  last (out ++ print_qa score checks cf)
  = Some (verdict_line (disposition score cf)).
Proof.
  unfold print_qa. rewrite app_comm_cons, app_assoc. apply last_snoc.
Qed.

Lemma assess_and_replan_spec encodes plan w :
  (∀ doc, encodes doc = true) →
  well_formed plan = true → plan_file w = Some (JObj plan) →
  ∃ plan' w' score checks cf,
    assess_and_replan encodes plan w = Some (plan', w')
    ∧ well_formed plan' = true
    ∧ plan_file w' = Some (JObj plan')
    ∧ run_qa plan' = Some (score, checks, cf)
    ∧ disposition score cf ≠ NEEDS_REPLAN
    ∧ last (stdout w') = Some (verdict_line (disposition score cf))
    ∧ (∀ l, get_log l w' = get_log l w)
    ∧ clock w' = clock w
    ∧ (ticks w ≤ ticks w' ≤ S (ticks w))%nat
    ∧ (∀ k, k = "goal" ∨ k = "success_metric" ∨ k = "deadline" →
            plan' !! k = plan !! k).
Proof.
  intros Henc Hwf Hfile.
  destruct (run_qa_total plan Hwf) as (score & checks & cf & Hqa).
  destruct (negb cf && (score <? 70)) eqn:Hc.
  - apply andb_true_iff in Hc as [Hcf Hlow].
    apply negb_true_iff in Hcf. subst cf. apply Z.ltb_lt in Hlow.
    destruct (repaired_assessment plan score checks Hwf Hqa)
      as (plan1 & score2 & checks2 & Hrep & Hwf1 & Hqa2 & Hscore).
    eexists _, _, score2, checks2, false.
    split.
    { exact (assess_repair encodes _ w _ _ _ _ _ _ Hqa Hlow Hrep Hqa2
               (Henc _)). }
    split; [by apply save_plan_well_formed|].
    split; [reflexivity|].
    split; [by rewrite run_qa_save_plan|].
    split. { unfold disposition. by destruct Hscore as [-> | ->]. }
    split. { cbn [stdout]. apply last_print_qa. }
    split. { by intros []. }
    split; [reflexivity|].
    split. { cbn [ticks]. lia. }
    intros k Hk. unfold save_plan.
    rewrite lookup_insert_ne by (intros <-; intuition discriminate).
    pose proof (auto_replan_stub_rewrites _ _ _ Hrep) as Hrw.
    exact (rewrites_outside _ _ _ _ Hrw (not_repair_key k Hk)).
  - eexists plan, _, score, checks, cf.
    split; [exact (assess_no_repair encodes _ w _ _ _ Hqa Hc)|].
    split; [exact Hwf|]. split; [exact Hfile|]. split; [exact Hqa|].
    split.
    { unfold disposition. destruct cf; [done|].
      cbn [negb andb] in Hc. by rewrite Hc. }
    split. { cbn [stdout]. apply last_print_qa. }
    split. { by intros []. }
    split; [reflexivity|]. split. { cbn [ticks]. lia. }
    done.
Qed.

(** ** [plan] and [replan] from start to end *)

(** What both commands do once the document is edited: save, log one
    event, assess, and repair when the verdict asks for it. *)
Lemma save_log_assess encodes
    (payload : gmap string json → string → json) plan w :
  (∀ doc, encodes doc = true) →
  well_formed plan = true →
  ∃ plan' w' score checks cf,
    (plan ← save_plan_file encodes plan;
     ts ← now_iso;
     _ ← append_jsonl EVENTS (payload plan ts);
     assess_and_replan encodes plan) w = Some (plan', w')
    ∧ well_formed plan' = true
    ∧ plan_file w' = Some (JObj plan')
    ∧ run_qa plan' = Some (score, checks, cf)
    ∧ disposition score cf ≠ NEEDS_REPLAN
    ∧ last (stdout w') = Some (verdict_line (disposition score cf))
    ∧ events_log w'
      = Some (default [] (events_log w)
              ++ [payload (save_plan (clock w (ticks w)) plan)
                    (clock w (S (ticks w)))])%list
    ∧ decisions_log w' = decisions_log w
    ∧ risks_log w' = risks_log w
    ∧ (∀ k, k = "goal" ∨ k = "success_metric" ∨ k = "deadline" →
            plan' !! k = plan !! k).
Proof.
  intros Henc Hwf.
  rewrite cmd_bind_unfold, save_plan_file_ok by apply Henc.
  rewrite cmd_bind_unfold. cbn [now_iso].
  rewrite cmd_bind_unfold. cbn [append_jsonl].
  set (saved := save_plan (clock w (ticks w)) plan).
  match goal with
  | |- context [assess_and_replan encodes saved ?w1] => set (w2 := w1)
  end.
  destruct (assess_and_replan_spec encodes saved w2 Henc)
    as (plan' & w' & score & checks & cf & Hrun & Hwf' & Hfile & Hqa & Hd
        & Hlast & Hlogs & _ & _ & Hkeep).
  { by apply save_plan_well_formed. }
  { reflexivity. }
  exists plan', w', score, checks, cf.
  split; [exact Hrun|]. split; [exact Hwf'|]. split; [exact Hfile|].
  split; [exact Hqa|]. split; [exact Hd|]. split; [exact Hlast|].
  split; [exact (Hlogs EVENTS)|].
  split; [exact (Hlogs DECISIONS)|]. split; [exact (Hlogs RISKS)|].
  intros k Hk. rewrite (Hkeep k Hk). unfold saved, save_plan.
  apply lookup_insert_ne. intros <-. intuition discriminate.
Qed.

Lemma cmd_plan_mono encodes args w r :
  cmd_plan encodes args w = Some r →
  cmd_plan every_document args w = Some r.
Proof.
  unfold cmd_plan. revert w r.
  apply bind_mono; [apply load_plan_mono|]. intros plan0. cbn zeta.
  apply bind_mono; [apply save_plan_file_mono|]. intros plan1.
  apply bind_mono; [done|]. intros ts.
  apply bind_mono; [done|]. intros _.
  apply assess_and_replan_mono.
Qed.

Lemma cmd_plan_spec encodes args w :
  (∀ doc, encodes doc = true) →
  healthy_plan_file w →
  ∃ plan w' score checks cf,
    cmd_plan encodes args w = Some (plan, w')
    ∧ well_formed plan = true
    ∧ plan_file w' = Some (JObj plan)
    ∧ run_qa plan = Some (score, checks, cf)
    ∧ disposition score cf ≠ NEEDS_REPLAN
    ∧ last (stdout w') = Some (verdict_line (disposition score cf))
    ∧ (∃ ts, events_log w'
             = Some (default [] (events_log w)
                     ++ [obj [ ("ts", JStr ts);
                               ("type", JStr "plan_updated");
                               ("source", JStr "cmd_plan");
                               ("goal", py_get plan "goal") ]])%list)
    ∧ decisions_log w' = Some (default [] (decisions_log w))
    ∧ risks_log w' = Some (default [] (risks_log w))
    ∧ (args "goal" ≠ "" → plan !! "goal" = Some (JStr (args "goal"))).
Proof.
  intros Henc Hw.
  destruct (load_plan_spec encodes w Henc Hw)
    as (plan0 & w0 & Hload & Hwf0 & _ & Hlogs & _).
  unfold cmd_plan. rewrite cmd_bind_unfold, Hload. cbn zeta.
  destruct (save_log_assess encodes
              (λ plan ts,
                 obj [ ("ts", JStr ts); ("type", JStr "plan_updated");
                       ("source", JStr "cmd_plan");
                       ("goal", py_get plan "goal") ])
              (cmd_plan_edits args plan0) w0 Henc)
    as (plan & w' & score & checks & cf & Hrun & Hwf & Hfile & Hqa & Hd
        & Hlast & Hev & Hdec & Hrisk & Hkeep).
  { by apply cmd_plan_edits_well_formed. }
  exists plan, w', score, checks, cf.
  split; [exact Hrun|]. split; [exact Hwf|]. split; [exact Hfile|].
  split; [exact Hqa|]. split; [exact Hd|]. split; [exact Hlast|].
  assert (plan !! "goal" = cmd_plan_edits args plan0 !! "goal") as Hgoal.
  { apply Hkeep. by left. }
  assert (py_get (save_plan (clock w0 (ticks w0)) (cmd_plan_edits args plan0))
            "goal" = py_get plan "goal") as Hpg.
  { unfold py_get, save_plan. rewrite lookup_insert_ne by done.
    by rewrite Hgoal. }
  cbn beta in Hev. rewrite Hpg in Hev.
  pose proof (Hlogs EVENTS) as He. cbn [get_log] in He. rewrite He in Hev.
  cbn [default from_option id] in Hev.
  split. { exists (clock w0 (S (ticks w0))). exact Hev. }
  split. { rewrite Hdec. exact (Hlogs DECISIONS). }
  split. { rewrite Hrisk. exact (Hlogs RISKS). }
  intros Hgiven. rewrite Hgoal.
  rewrite (plan_edits_text args plan0 "goal")
    by (apply elem_of_cons; by left).
  apply String.eqb_neq in Hgiven. by rewrite Hgiven.
Qed.

(** X17.  [plan] never ends on NEEDS_REPLAN.  On a healthy state, whatever
    the flags, when the command returns the document it leaves in the plan
    file is well-formed and is the one the last printed report assesses,
    and that report's verdict, the last line printed, is PASS or
    CRITICAL_FAILURE.  Exactly one event is logged, also when the repair
    ran, and it carries the goal of the stored document; the other logs
    are only created.  A goal given on the command line is the stored
    goal.  The command returns when every document encodes: it can raise
    only in a write of the plan file. *)
Theorem cmd_plan_outcome encodes args w :
  healthy_plan_file w →
  (∀ plan w',
     cmd_plan encodes args w = Some (plan, w') →
     ∃ score checks cf,
       well_formed plan = true
       ∧ plan_file w' = Some (JObj plan)
       ∧ run_qa plan = Some (score, checks, cf)
       ∧ disposition score cf ≠ NEEDS_REPLAN
       ∧ last (stdout w') = Some (verdict_line (disposition score cf))
       ∧ (∃ ts, events_log w'
                = Some (default [] (events_log w)
                        ++ [obj [ ("ts", JStr ts);
                                  ("type", JStr "plan_updated");
                                  ("source", JStr "cmd_plan");
                                  ("goal", py_get plan "goal") ]])%list)
       ∧ decisions_log w' = Some (default [] (decisions_log w))
       ∧ risks_log w' = Some (default [] (risks_log w))
       ∧ (args "goal" ≠ "" → plan !! "goal" = Some (JStr (args "goal"))))
  ∧ ((∀ doc, encodes doc = true) → is_Some (cmd_plan encodes args w)).
Proof.
  intros Hw. split.
  - intros plan w' Hrun%cmd_plan_mono.
    destruct (cmd_plan_spec every_document args w (λ _, eq_refl) Hw)
      as (plan' & w'' & score & checks & cf & Hrun' & Hrest).
    rewrite Hrun' in Hrun. injection Hrun as <- <-.
    by exists score, checks, cf.
  - intros Henc.
    destruct (cmd_plan_spec encodes args w Henc Hw)
      as (plan & w' & _ & _ & _ & Hrun & _).
    by rewrite Hrun.
Qed.

Lemma cmd_plan_outcome_witness :
  ∃ plan w' score checks cf,
    cmd_plan every_document goal_only empty_world = Some (plan, w')
    ∧ run_qa plan = Some (score, checks, cf)
    ∧ disposition score cf ≠ NEEDS_REPLAN
    ∧ plan !! "goal" = Some (JStr "Ship the planner").
Proof.
  destruct (cmd_plan_outcome every_document goal_only empty_world)
    as [Hsound Hruns].
  { left. reflexivity. }
  destruct (Hruns (λ _, eq_refl)) as [[plan w'] Hrun].
  destruct (Hsound plan w' Hrun)
    as (score & checks & cf & _ & _ & Hqa & Hd & _ & _ & _ & _ & Hgoal).
  exists plan, w', score, checks, cf.
  split; [exact Hrun|]. split; [exact Hqa|]. split; [exact Hd|].
  apply Hgoal. intros H. vm_compute in H. discriminate H.
Defined.

Lemma cmd_replan_mono encodes args w r :
  cmd_replan encodes args w = Some r →
  cmd_replan every_document args w = Some r.
Proof.
  unfold cmd_replan. revert w r.
  apply bind_mono; [apply load_plan_mono|]. intros plan0.
  apply bind_mono; [done|]. intros plan1.
  apply bind_mono; [apply save_plan_file_mono|]. intros plan2.
  apply bind_mono; [done|]. intros ts.
  apply bind_mono; [done|]. intros _.
  apply assess_and_replan_mono.
Qed.

Lemma cmd_replan_spec encodes args w :
  (∀ doc, encodes doc = true) →
  healthy_plan_file w →
  ∃ plan w' score checks cf,
    cmd_replan encodes args w = Some (plan, w')
    ∧ well_formed plan = true
    ∧ plan_file w' = Some (JObj plan)
    ∧ run_qa plan = Some (score, checks, cf)
    ∧ disposition score cf ≠ NEEDS_REPLAN
    ∧ last (stdout w') = Some (verdict_line (disposition score cf))
    ∧ (∃ ts, events_log w'
             = Some (default [] (events_log w)
                     ++ [obj [ ("ts", JStr ts); ("type", JStr "replan");
                               ("source", JStr "cmd_replan");
                               ("evidence", JStr (args "evidence")) ]])%list)
    ∧ decisions_log w' = Some (default [] (decisions_log w))
    ∧ risks_log w' = Some (default [] (risks_log w)).
Proof.
  intros Henc Hw.
  destruct (load_plan_spec encodes w Henc Hw)
    as (plan0 & w0 & Hload & Hwf0 & _ & Hlogs & _).
  destruct (replan_edits_well_formed_total args plan0 Hwf0) as [plan1 Hedit].
  pose proof (replan_appends_well_formed _ _ _ Hedit Hwf0) as Hwf1.
  unfold cmd_replan. rewrite cmd_bind_unfold, Hload.
  rewrite cmd_bind_unfold. unfold lift at 1. rewrite Hedit.
  destruct (save_log_assess encodes
              (λ plan ts,
                 obj [ ("ts", JStr ts); ("type", JStr "replan");
                       ("source", JStr "cmd_replan");
                       ("evidence", py_or (args "evidence") (JStr "")) ])
              plan1 w0 Henc Hwf1)
    as (plan & w' & score & checks & cf & Hrun & Hwf & Hfile & Hqa & Hd
        & Hlast & Hev & Hdec & Hrisk & _).
  exists plan, w', score, checks, cf.
  split; [exact Hrun|]. split; [exact Hwf|]. split; [exact Hfile|].
  split; [exact Hqa|]. split; [exact Hd|]. split; [exact Hlast|].
  assert (py_or (args "evidence") (JStr "") = JStr (args "evidence")) as Hpo.
  { unfold py_or. by destruct (String.eqb_spec (args "evidence") "") as [->|]. }
  cbn beta in Hev. rewrite Hpo in Hev.
  pose proof (Hlogs EVENTS) as He. cbn [get_log] in He. rewrite He in Hev.
  cbn [default from_option id] in Hev.
  split. { exists (clock w0 (S (ticks w0))). exact Hev. }
  split. { rewrite Hdec. exact (Hlogs DECISIONS). }
  rewrite Hrisk. exact (Hlogs RISKS).
Qed.

(** X18.  [replan] never ends on NEEDS_REPLAN either.  On a healthy state,
    when the command returns the stored document is well-formed and is the
    one the last report assesses, the verdict printed last is PASS or
    CRITICAL_FAILURE, and exactly one [replan] event is logged, carrying
    the evidence flag as given (not stripped).  The command returns when
    every document encodes: on a healthy state neither the migration, the
    appends, the assessment nor the repair raises, only a write of the
    plan file can. *)
Theorem cmd_replan_outcome encodes args w :
  healthy_plan_file w →
  (∀ plan w',
     cmd_replan encodes args w = Some (plan, w') →
     ∃ score checks cf,
       well_formed plan = true
       ∧ plan_file w' = Some (JObj plan)
       ∧ run_qa plan = Some (score, checks, cf)
       ∧ disposition score cf ≠ NEEDS_REPLAN
       ∧ last (stdout w') = Some (verdict_line (disposition score cf))
       ∧ (∃ ts, events_log w'
                = Some (default [] (events_log w)
                        ++ [obj [ ("ts", JStr ts); ("type", JStr "replan");
                                  ("source", JStr "cmd_replan");
                                  ("evidence", JStr (args "evidence")) ]])%list)
       ∧ decisions_log w' = Some (default [] (decisions_log w))
       ∧ risks_log w' = Some (default [] (risks_log w)))
  ∧ ((∀ doc, encodes doc = true) → is_Some (cmd_replan encodes args w)).
Proof.
  intros Hw. split.
  - intros plan w' Hrun%cmd_replan_mono.
    destruct (cmd_replan_spec every_document args w (λ _, eq_refl) Hw)
      as (plan' & w'' & score & checks & cf & Hrun' & Hrest).
    rewrite Hrun' in Hrun. injection Hrun as <- <-.
    by exists score, checks, cf.
  - intros Henc.
    destruct (cmd_replan_spec encodes args w Henc Hw)
      as (plan & w' & _ & _ & _ & Hrun & _).
    by rewrite Hrun.
Qed.

Lemma cmd_replan_outcome_witness :
  ∃ plan w' score checks cf,
    cmd_replan every_document one_reference legacy_world = Some (plan, w')
    ∧ run_qa plan = Some (score, checks, cf)
    ∧ disposition score cf ≠ NEEDS_REPLAN.
Proof.
  destruct (cmd_replan_outcome every_document one_reference legacy_world)
    as [Hsound Hruns].
  { right. exists legacy_plan. split; [reflexivity|].
    split; [vm_compute; reflexivity|].
    right. exists [JStr "Draft"; JStr "Review"; JStr "Ship"].
    split; vm_compute; reflexivity. }
  destruct (Hruns (λ _, eq_refl)) as [[plan w'] Hrun].
  destruct (Hsound plan w' Hrun)
    as (score & checks & cf & _ & _ & Hqa & Hd & _).
  exists plan, w', score, checks, cf.
  split; [exact Hrun|]. split; [exact Hqa|exact Hd].
Defined.

(** ** [decide] and [risk] *)



(** ** [show] *)

Lemma filter_all_length {A} (f : A → bool) l :
  (length (List.filter f l) = length l ↔ forallb f l = true)
  ∧ (length (List.filter f l) ≤ length l)%nat.
Proof.
  induction l as [|x l [IH Hle]]; [done|]. cbn [List.filter forallb].
  destruct (f x); cbn [length andb].
  - split; [rewrite <- IH|]; lia.
  - split; [split; [lia|discriminate]|lia].
Qed.

(** X20.  [show] and the assessment agree on the insight axes: the count
    that [show] prints is 8 exactly when the check
    [insight_axes_coverage] passes, and it never exceeds 8. *)
Theorem covered_axes_all plan :
  (covered_axes plan = 8 ↔ insight_axes_covered plan = true)
  ∧ 0 <= covered_axes plan <= 8.
Proof.
  unfold covered_axes, insight_axes_covered.
  fold insight_axes.
  destruct (filter_all_length (λ key, non_empty (py_get plan key))
              insight_axes) as [Hiff Hle].
  change (length insight_axes) with 8%nat in Hiff, Hle.
  rewrite <- Hiff. lia.
Qed.


(** ** IdeaEngine *)

Lemma strip_head c s : py_isspace c = false → strip (String c s) ≠ "".
Proof.
  intros Hc. unfold strip. rewrite lstrip_fixed by done.
  by destruct (rstrip_head c s Hc) as [r ->].
Qed.

Lemma template_texts t focus deadline :
  t ∈ templates →
  strip (format (template_goal t) focus deadline) ≠ ""
  ∧ strip (format (template_metric t) focus deadline) ≠ ""
  ∧ length (template_plan_tasks t) = 2%nat
  ∧ length (template_execution_tasks t) = 2%nat.
Proof.
  intros Hin%list_elem_of_In. cbn [templates In] in Hin.
  destruct Hin as [<-|[<-|[<-|[<-|[]]]]];
    (split; [by apply strip_head|split; [by apply strip_head|done]]).
Qed.

Lemma template_at i :
  ∃ t, templates !! (i `mod` 4)%nat = Some t
       ∧ nth (i `mod` length templates)%nat templates
           (mkTemplate "" [] [] [] []) = t
       ∧ t ∈ templates.
Proof.
  pose proof (Nat.mod_upper_bound i 4 ltac:(done)) as Hlt.
  change (length templates) with 4%nat.
  destruct (i `mod` 4)%nat as [|[|[|[|n]]]]; [..|lia];
    (eexists; split; [reflexivity|split; [reflexivity|]]);
    apply list_elem_of_In; cbn; tauto.
Qed.

Lemma generate_ideas_length dd args :
  Z.of_nat (length (generate_ideas dd args))
  = Z.max 1 (Z.min (ideate_count args) 10).
Proof.
  unfold generate_ideas. cbn zeta. rewrite length_map, length_seq. lia.
Qed.

Lemma generate_ideas_lookup dd args i idea :
  generate_ideas dd args !! i = Some idea →
  ∃ skills focus_terms,
    idea = idea_at (strip_or (ideate_profile args) "solo builder")
             (strip_or (ideate_deadline args) dd)
             (strip_or (ideate_time_per_day args) "1h/day")
             (strip_or (ideate_budget args) "$0") skills focus_terms i
    ∧ skills = parse_csv (ideate_skills args).
Proof.
  unfold generate_ideas. cbn zeta. rewrite list_lookup_fmap.
  destruct (seq _ _ !! i) as [j|] eqn:Hj; [|done].
  apply lookup_seq in Hj as [-> _]. cbn [fmap option_fmap option_map].
  intros [= <-]. eexists _, _. split; [reflexivity|].
  by destruct (String.eqb_spec (ideate_skills args) "") as [->|].
Qed.

(** X21.  The ideas of [ideate].  Their number is the count clamped to
    1..10, so there is always at least one.  Idea [i] takes the template
    [i mod 4]: its title and its two plan and two execution tasks; its goal
    and its success metric are never blank, whatever the interests; its
    deadline is the stripped flag, or the default date when the flag is
    empty; it has three constraints, and two assumptions or, when skills
    are given, three. *)
Theorem generate_ideas_shape dd args :
  Z.of_nat (length (generate_ideas dd args))
  = Z.max 1 (Z.min (ideate_count args) 10)
  ∧ (1 ≤ length (generate_ideas dd args) ≤ 10)%nat
  ∧ ∀ i idea, generate_ideas dd args !! i = Some idea →
      (∃ t, templates !! (i `mod` 4)%nat = Some t
            ∧ idea_title idea = template_name t
            ∧ idea_plan_tasks idea = template_plan_tasks t
            ∧ idea_execution_tasks idea = template_execution_tasks t)
      ∧ length (idea_plan_tasks idea) = 2%nat
      ∧ length (idea_execution_tasks idea) = 2%nat
      ∧ strip (idea_goal idea) ≠ ""
      ∧ strip (idea_success_metric idea) ≠ ""
      ∧ idea_deadline idea = strip_or (ideate_deadline args) dd
      ∧ length (idea_constraints idea) = 3%nat
      ∧ length (idea_assumptions idea)
        = (if bool_decide (parse_csv (ideate_skills args) = [])
           then 2 else 3)%nat.
Proof.
  pose proof (generate_ideas_length dd args) as Hlen.
  split; [exact Hlen|]. split; [lia|].
  intros i idea (skills & focus_terms & -> & ->)%generate_ideas_lookup.
  destruct (template_at i) as (t & Ht & Hnth & Hin).
  unfold idea_at. cbn zeta. rewrite Hnth.
  cbn [idea_title idea_goal idea_success_metric idea_deadline
       idea_constraints idea_assumptions idea_plan_tasks
       idea_execution_tasks].
  destruct (template_texts t
              (nth (i `mod` length focus_terms)%nat focus_terms "")
              (strip_or (ideate_deadline args) dd) Hin)
    as (Hgoal & Hmetric & Hp & He).
  split; [by exists t|].
  split; [exact Hp|]. split; [exact He|].
  split; [exact Hgoal|]. split; [exact Hmetric|].
  split; [reflexivity|]. split; [reflexivity|].
  by destruct (parse_csv (ideate_skills args)).
Qed.


(** ** [ideate] *)

Lemma cmd_ideate_listed dd dumps encodes args w :
  cmd_ideate dd dumps encodes args w
  = (if ideate_apply args =? 0 then mret ()
     else apply_selected encodes (generate_ideas dd args) args)
      (after_listing dd dumps args w).
Proof.
  unfold cmd_ideate. rewrite cmd_bind_unfold, ensure_state_spec.
  reflexivity.
Qed.

Lemma apply_idea_lookup idea plan k v :
  (k, v) ∈ idea_fields idea → apply_idea idea plan !! k = Some v.
Proof.
  intros Hin%list_elem_of_In. unfold idea_fields in Hin. cbn [In] in Hin.
  unfold apply_idea. cbn zeta.
  repeat (destruct Hin as [[= <- <-]|Hin];
          [repeat (rewrite lookup_insert_ne by done);
           by rewrite lookup_insert_eq|]).
  destruct Hin.
Qed.

Lemma apply_idea_other idea plan k :
  k ∉ (idea_fields idea).*1 → apply_idea idea plan !! k = plan !! k.
Proof.
  intros Hk. unfold apply_idea. cbn zeta.
  repeat (rewrite lookup_insert_ne;
          [|intros <-; apply Hk, list_elem_of_In; cbn; tauto]).
  done.
Qed.

Lemma apply_idea_well_formed idea plan :
  well_formed plan = true → well_formed (apply_idea idea plan) = true.
Proof.
  intros Hwf. unfold apply_idea. cbn zeta.
  do 6 (apply well_formed_insert;
        [eapply type_ok_has_type; [in_schema|apply has_type_strs]|]).
  by do 3 (apply well_formed_insert; [reflexivity|]).
Qed.

Lemma non_empty_strs l : non_empty (strs l) = negb (Nat.eqb (length l) 0).
Proof. unfold strs. cbn. rewrite length_map. by destruct l. Qed.


Lemma apply_idea_get idea plan k :
  k ∉ (idea_fields idea).*1 → py_get (apply_idea idea plan) k = py_get plan k.
Proof. intros Hk. unfold py_get. by rewrite apply_idea_other. Qed.

Ltac not_idea_field :=
  let H := fresh in
  intros H%list_elem_of_In; cbn in H; intuition discriminate.

Lemma apply_idea_axes idea plan :
  insight_axes_covered (apply_idea idea plan) = insight_axes_covered plan.
Proof.
  unfold insight_axes_covered, insight_axes. cbn [forallb].
  by rewrite !apply_idea_get by not_idea_field.
Qed.

Lemma non_blank s : strip s ≠ "" → non_empty (JStr s) = true.
Proof. intros Hs. cbn. by apply negb_true_iff, String.eqb_neq. Qed.

(** The assessment of a document to which an idea of [generate_ideas] has
    been applied. *)
Lemma generated_idea_assessment dd args i idea plan :
  generate_ideas dd args !! i = Some idea →
  well_formed plan = true →
  ∃ checks,
    run_qa (apply_idea idea plan)
    = Some (applied_score (idea_deadline idea) plan, checks,
            String.eqb (strip (idea_deadline idea)) "").
Proof.
  intros Hidea Hwf.
  pose proof (apply_idea_well_formed idea plan Hwf) as Hwf'.
  destruct (run_qa_total _ Hwf') as (score & checks & cf & Hqa).
  exists checks. rewrite Hqa.
  apply run_qa_inv in Hqa
    as (n_o & n_r & bal & Ho & Hr & Hb & -> & -> & ->).
  destruct (generate_ideas_lookup _ _ _ _ Hidea)
    as (skills & focus_terms & Heq & _).
  destruct (template_at i) as (t & _ & Hnth & Hin).
  destruct (template_texts t
              (nth (i `mod` length focus_terms)%nat focus_terms "")
              (strip_or (ideate_deadline args) dd) Hin)
    as (Hgoal & Hmetric & Hp & He).
  assert (idea_goal idea
          = format (template_goal t)
              (nth (i `mod` length focus_terms)%nat focus_terms "")
              (strip_or (ideate_deadline args) dd)) as Hg.
  { rewrite Heq. unfold idea_at. cbn zeta. by rewrite Hnth. }
  assert (idea_success_metric idea
          = format (template_metric t)
              (nth (i `mod` length focus_terms)%nat focus_terms "")
              (strip_or (ideate_deadline args) dd)) as Hm.
  { rewrite Heq. unfold idea_at. cbn zeta. by rewrite Hnth. }
  assert (length (idea_plan_tasks idea) = 2%nat
          ∧ length (idea_execution_tasks idea) = 2%nat) as [Hpt Het].
  { rewrite Heq. unfold idea_at. cbn zeta. by rewrite Hnth. }
  assert (length (idea_constraints idea) = 3%nat) as Hc.
  { by rewrite Heq. }
  assert (length (idea_assumptions idea) ≠ 0%nat) as Ha.
  { rewrite Heq. by destruct skills. }
  assert (length (idea_experiments idea) = 1%nat
          ∧ length (idea_definition_of_done idea) = 2%nat) as [Hex Hdod].
  { by rewrite Heq. }
  rewrite <- Hg in Hgoal. rewrite <- Hm in Hmetric. clear Heq Hg Hm.
  (* the fields of the idea *)
  assert (∀ k v, (k, v) ∈ idea_fields idea →
            py_get (apply_idea idea plan) k = v) as Hfield.
  { intros k v Hkv. unfold py_get. by rewrite (apply_idea_lookup _ _ _ _ Hkv). }
  assert (∀ k v, (k, v) ∈ idea_fields idea →
            py_get_or (apply_idea idea plan) k (JList []) = v) as Hfield'.
  { intros k v Hkv. unfold py_get_or.
    by rewrite (apply_idea_lookup _ _ _ _ Hkv). }
  (* the task lists are two and two *)
  rewrite (task_balance_ok_spec _ 2 2) in Hb; cycle 1.
  { rewrite (Hfield' "plan_tasks" (strs (idea_plan_tasks idea)))
      by (apply list_elem_of_In; cbn; tauto).
    cbn. by rewrite length_map, Hpt. }
  { rewrite (Hfield' "execution_tasks" (strs (idea_execution_tasks idea)))
      by (apply list_elem_of_In; cbn; tauto).
    cbn. by rewrite length_map, Het. }
  injection Hb as <-.
  (* the lengths the assessment takes *)
  unfold py_get_or in Ho, Hr.
  rewrite apply_idea_other in Ho by not_idea_field.
  rewrite apply_idea_other in Hr by not_idea_field.
  fold (py_get_or plan "options" (JList [])) in Ho.
  fold (py_get_or plan "references" (JList [])) in Hr.
  rewrite well_formed_len in Ho by (done || in_schema).
  rewrite well_formed_len in Hr by (done || in_schema).
  injection Ho as <-. injection Hr as <-.
  unfold rubric, applied_score.
  rewrite (Hfield "goal" (JStr (idea_goal idea)))
    by (apply list_elem_of_In; cbn; tauto).
  rewrite (Hfield "success_metric" (JStr (idea_success_metric idea)))
    by (apply list_elem_of_In; cbn; tauto).
  rewrite (Hfield "deadline" (JStr (idea_deadline idea)))
    by (apply list_elem_of_In; cbn; tauto).
  rewrite (Hfield "constraints" (strs (idea_constraints idea)))
    by (apply list_elem_of_In; cbn; tauto).
  rewrite (Hfield "assumptions" (strs (idea_assumptions idea)))
    by (apply list_elem_of_In; cbn; tauto).
  rewrite (Hfield "experiments" (strs (idea_experiments idea)))
    by (apply list_elem_of_In; cbn; tauto).
  rewrite (Hfield "definition_of_done" (strs (idea_definition_of_done idea)))
    by (apply list_elem_of_In; cbn; tauto).
  rewrite !non_empty_strs, Hc, Hex, Hdod.
  rewrite (non_blank _ Hgoal), (non_blank _ Hmetric).
  destruct (length (idea_assumptions idea)) as [|n] eqn:Hlen; [done|].
  rewrite apply_idea_axes.
  rewrite !apply_idea_get by not_idea_field.
  cbn [Nat.eqb negb andb non_empty].
  destruct (String.eqb (strip (idea_deadline idea)) "");
    destruct ((2 <=? Z.of_nat (length (entries plan "options")))
              && non_empty (py_get plan "selected_option"));
    destruct (3 <=? Z.of_nat (length (entries plan "references")));
    destruct (insight_axes_covered plan);
    destruct (non_empty (py_get plan "risks"));
    destruct (non_empty (py_get plan "dependencies")); reflexivity.
Qed.


Lemma apply_selected_run encodes ideas args idea loaded w w1 score checks cf :
  1 <= ideate_apply args <= Z.of_nat (length ideas) →
  ideas !! Z.to_nat (ideate_apply args - 1) = Some idea →
  load_plan encodes w = Some (loaded, w1) →
  run_qa (apply_idea idea loaded) = Some (score, checks, cf) →
  encodes (JObj (save_plan (clock w1 (ticks w1)) (apply_idea idea loaded)))
  = true →
  apply_selected encodes ideas args w
  = Some ((),
          mkWorld
            (Some (JObj (save_plan (clock w1 (ticks w1))
                           (apply_idea idea loaded))))
            (decisions_log w1) (risks_log w1)
            (Some (default [] (events_log w1)
                   ++ [obj [ ("ts", JStr (clock w1 (S (ticks w1))));
                             ("type", JStr "idea_applied");
                             ("source", JStr "cmd_ideate");
                             ("selected_index", JInt (ideate_apply args));
                             ("goal", JStr (idea_goal idea)) ]])%list)
            ((stdout w1
              ++ [ "Applied idea #" +:+ pretty (ideate_apply args)
                   +:+ " to current plan." ])
             ++ print_qa score checks cf)%list
            (clock w1) (S (S (ticks w1)))).
Proof.
  intros Hrange Hidea Hload Hqa Henc. unfold apply_selected. cbn zeta.
  assert ((ideate_apply args - 1 <? 0)
          || (Z.of_nat (length ideas) <=? ideate_apply args - 1) = false)
    as ->.
  { apply orb_false_iff. split; [apply Z.ltb_ge|apply Z.leb_gt]; lia. }
  rewrite cmd_bind_unfold. unfold lift at 1. rewrite Hidea.
  rewrite cmd_bind_unfold, Hload.
  rewrite cmd_bind_unfold, save_plan_file_ok by exact Henc.
  rewrite cmd_bind_unfold. cbn [now_iso].
  rewrite cmd_bind_unfold. cbn [append_jsonl].
  rewrite cmd_bind_unfold. cbn [print].
  rewrite cmd_bind_unfold. unfold lift.
  rewrite run_qa_save_plan, Hqa. reflexivity.
Qed.


Lemma apply_selected_mono encodes ideas args w r :
  apply_selected encodes ideas args w = Some r →
  apply_selected every_document ideas args w = Some r.
Proof.
  unfold apply_selected. cbn zeta.
  destruct ((ideate_apply args - 1 <? 0)
            || (Z.of_nat (length ideas) <=? ideate_apply args - 1));
    [done|].
  revert w r.
  apply bind_mono; [done|]. intros selected.
  apply bind_mono; [apply load_plan_mono|]. intros plan.
  apply bind_mono; [apply save_plan_file_mono|]. by intros plan1.
Qed.

Lemma cmd_ideate_mono dd dumps encodes args w r :
  cmd_ideate dd dumps encodes args w = Some r →
  cmd_ideate dd dumps every_document args w = Some r.
Proof.
  rewrite !cmd_ideate_listed.
  destruct (ideate_apply args =? 0); [done|]. apply apply_selected_mono.
Qed.

Lemma healthy_after_listing dd dumps args w :
  healthy_plan_file w → healthy_plan_file (after_listing dd dumps args w).
Proof.
  intros (doc & Hfile & Hwf & Htasks)%healthy_after_ensure.
  right. by exists doc.
Qed.

Lemma fresh_plan_loaded dd dumps encodes args w loaded w1 :
  plan_file w = None →
  load_plan encodes (after_listing dd dumps args w) = Some (loaded, w1) →
  ∃ now0 now1 : string, loaded = save_plan now1 (default_plan now0).
Proof.
  intros Hnone (doc & migrated & Hfile & Hmig & -> & _)%load_plan_inv.
  cbn [after_listing after_ensure plan_file] in Hfile.
  rewrite Hnone in Hfile. cbn [default from_option id] in Hfile.
  injection Hfile as <-.
  rewrite migrate_plan_fixed in Hmig.
  - injection Hmig as <-. eauto.
  - vm_compute. reflexivity.
  - vm_compute. reflexivity.
  - intros k. apply default_plan_keys.
Qed.

Lemma applied_score_fresh deadline now0 now1 :
  applied_score deadline (save_plan now1 (default_plan now0))
  = if String.eqb (strip deadline) "" then 49 else 59.
Proof.
  unfold applied_score.
  assert (entries (save_plan now1 (default_plan now0)) "options" = []) as ->.
  { vm_compute. reflexivity. }
  assert (entries (save_plan now1 (default_plan now0)) "references" = [])
    as ->.
  { vm_compute. reflexivity. }
  assert (insight_axes_covered (save_plan now1 (default_plan now0)) = false)
    as ->.
  { vm_compute. reflexivity. }
  assert (py_get (save_plan now1 (default_plan now0)) "risks" = JList [])
    as ->.
  { vm_compute. reflexivity. }
  assert (py_get (save_plan now1 (default_plan now0)) "dependencies"
          = JList []) as ->.
  { vm_compute. reflexivity. }
  cbn. by destruct (String.eqb (strip deadline) "").
Qed.

Lemma applied_score_bound deadline plan :
  strip deadline ≠ "" → 59 <= applied_score deadline plan.
Proof.
  intros Hd%String.eqb_neq. unfold applied_score. rewrite Hd.
  repeat match goal with |- context [if ?b then _ else _] => destruct b end;
    lia.
Qed.

Lemma cmd_ideate_spec dd dumps encodes args w :
  (∀ doc, encodes doc = true) →
  healthy_plan_file w →
  1 <= ideate_apply args <= Z.of_nat (length (generate_ideas dd args)) →
  ∃ idea loaded plan w' score checks cf,
    generate_ideas dd args !! Z.to_nat (ideate_apply args - 1) = Some idea
    ∧ cmd_ideate dd dumps encodes args w = Some ((), w')
    ∧ plan_file w' = Some (JObj plan)
    ∧ well_formed plan = true
    ∧ (∀ now, migrate_plan now loaded = Some loaded)
    ∧ (∀ k v, (k, v) ∈ idea_fields idea → plan !! k = Some v)
    ∧ (∀ k, k ∉ (idea_fields idea).*1 → k ≠ "updated_at" →
            plan !! k = loaded !! k)
    ∧ run_qa plan = Some (score, checks, cf)
    ∧ cf = String.eqb (strip (idea_deadline idea)) ""
    ∧ score = applied_score (idea_deadline idea) loaded
    ∧ (cf = false → 59 <= score)
    ∧ (plan_file w = None → score = if cf then 49 else 59)
    ∧ last (stdout w') = Some (verdict_line (disposition score cf))
    ∧ (∃ e1 e2, events_log w'
                = Some (default [] (events_log w) ++ [e1; e2])%list).
Proof.
  intros Henc Hw Hrange.
  assert (is_Some (generate_ideas dd args
                     !! Z.to_nat (ideate_apply args - 1))) as [idea Hidea].
  { apply lookup_lt_is_Some. lia. }
  destruct (load_plan_spec encodes _ Henc
              (healthy_after_listing dd dumps args w Hw))
    as (loaded & w1 & Hload & Hwf & _ & Hlogs & _).
  destruct (generated_idea_assessment dd args _ idea loaded Hidea Hwf)
    as [checks Hqa].
  pose proof (apply_selected_run encodes _ args idea loaded _ w1 _ _ _
                Hrange Hidea Hload Hqa (Henc _)) as Hrun.
  eexists idea, loaded, _, _, _, checks, _.
  split; [exact Hidea|].
  split.
  { rewrite cmd_ideate_listed.
    destruct (Z.eqb_spec (ideate_apply args) 0) as [H0|_]; [lia|].
    exact Hrun. }
  split; [reflexivity|].
  split. { by apply save_plan_well_formed, apply_idea_well_formed. }
  split; [exact (load_plan_result_fixed _ _ _ _ Hload)|].
  split.
  { intros k v Hkv. unfold save_plan. rewrite lookup_insert_ne.
    - by apply apply_idea_lookup.
    - intros <-. apply list_elem_of_In in Hkv. cbn in Hkv.
      intuition discriminate. }
  split.
  { intros k Hk Hu. unfold save_plan. rewrite lookup_insert_ne by done.
    by apply apply_idea_other. }
  split; [by rewrite run_qa_save_plan|].
  split; [reflexivity|]. split; [reflexivity|].
  split.
  { intros Hcf%String.eqb_neq. by apply applied_score_bound. }
  split.
  { intros Hnone.
    destruct (fresh_plan_loaded _ _ _ _ _ _ _ Hnone Hload) as (n0 & n1 & ->).
    apply applied_score_fresh. }
  split. { cbn [stdout]. apply last_print_qa. }
  cbn [events_log]. pose proof (Hlogs EVENTS) as He.
  cbn [get_log after_listing events_log] in He. rewrite He.
  cbn [default from_option id]. rewrite <- app_assoc.
  eexists _, _. reflexivity.
Qed.

(** X22.  Applying an idea.  On a healthy state, with [--apply] between 1
    and the number of ideas, when [ideate] returns the plan file holds the
    loaded document with the nine fields of the chosen idea assigned and
    nothing else changed but [updated_at]; no repair runs.  The report
    printed last is the assessment of that document: a critical failure
    exactly when the deadline is blank, and otherwise a score of at least
    59, which is exactly 59, hence NEEDS_REPLAN, when there was no plan
    file.  Two events are logged.  The command returns when every document
    encodes: here it can raise only in a write of the plan file. *)
Theorem cmd_ideate_applies dd dumps encodes args w :
  healthy_plan_file w →
  1 <= ideate_apply args <= Z.of_nat (length (generate_ideas dd args)) →
  (∀ w',
     cmd_ideate dd dumps encodes args w = Some ((), w') →
     ∃ idea loaded plan score checks cf,
       generate_ideas dd args !! Z.to_nat (ideate_apply args - 1)
       = Some idea
       ∧ plan_file w' = Some (JObj plan)
       ∧ well_formed plan = true
       ∧ (∀ now, migrate_plan now loaded = Some loaded)
       ∧ (∀ k v, (k, v) ∈ idea_fields idea → plan !! k = Some v)
       ∧ (∀ k, k ∉ (idea_fields idea).*1 → k ≠ "updated_at" →
               plan !! k = loaded !! k)
       ∧ run_qa plan = Some (score, checks, cf)
       ∧ cf = String.eqb (strip (idea_deadline idea)) ""
       ∧ score = applied_score (idea_deadline idea) loaded
       ∧ (cf = false → 59 <= score)
       ∧ (plan_file w = None → score = if cf then 49 else 59)
       ∧ last (stdout w') = Some (verdict_line (disposition score cf))
       ∧ (∃ e1 e2, events_log w'
                   = Some (default [] (events_log w) ++ [e1; e2])%list))
  ∧ ((∀ doc, encodes doc = true) →
     is_Some (cmd_ideate dd dumps encodes args w)).
Proof.
  intros Hw Hrange. split.
  - intros w' Hrun%cmd_ideate_mono.
    destruct (cmd_ideate_spec dd dumps every_document args w
                (λ _, eq_refl) Hw Hrange)
      as (idea & loaded & plan & w'' & score & checks & cf & Hidea & Hrun'
          & Hrest).
    rewrite Hrun' in Hrun. injection Hrun as <-.
    by exists idea, loaded, plan, score, checks, cf.
  - intros Henc.
    destruct (cmd_ideate_spec dd dumps encodes args w Henc Hw Hrange)
      as (idea & loaded & plan & w' & _ & _ & _ & _ & Hrun & _).
    by rewrite Hrun.
Qed.

Lemma cmd_ideate_applies_witness :
  ∃ plan w' score checks,
    cmd_ideate "2026-11-17" (λ _, "") every_document (ideate_defaults 1)
      empty_world
    = Some ((), w')
    ∧ plan_file w' = Some (JObj plan)
    ∧ run_qa plan = Some (score, checks, false)
    ∧ score = 59.
Proof.
  destruct (cmd_ideate_applies "2026-11-17" (λ _, "") every_document
              (ideate_defaults 1) empty_world)
    as [Hsound Hruns].
  { left. reflexivity. }
  { vm_compute. split; discriminate. }
  destruct (Hruns (λ _, eq_refl)) as [[[] w'] Hrun].
  destruct (Hsound w' Hrun)
    as (idea & loaded & plan & score & checks & cf & Hidea & Hfile & _ & _
        & _ & _ & Hqa & Hcf & _ & _ & Hfresh & _).
  vm_compute in Hidea. injection Hidea as <-.
  cbn [idea_deadline] in Hcf. vm_compute in Hcf. subst cf.
  exists plan, w', score, checks.
  split; [exact Hrun|]. split; [exact Hfile|]. split; [exact Hqa|].
  exact (Hfresh eq_refl).
Defined.



(** ** [init] *)

(** X24.  [init] never overwrites.  It returns on every state; a plan file
    or a log that exists keeps its content, whatever it is, and what is
    missing is created: the logs empty, the plan file with the default
    document, which is well-formed.  Running it again changes nothing but
    the output, and reads the clock no more. *)
Theorem cmd_init_keeps_state state_dir w :
  ∃ w1 w2,
    cmd_init state_dir w = Some ((), w1)
    ∧ cmd_init state_dir w1 = Some ((), w2)
    ∧ (∀ doc, plan_file w = Some doc → plan_file w1 = Some doc)
    ∧ (plan_file w = None →
       plan_file w1 = Some (JObj (default_plan (clock w (ticks w))))
       ∧ well_formed (default_plan (clock w (ticks w))) = true)
    ∧ (∀ l, get_log l w1 = Some (default [] (get_log l w)))
    ∧ (healthy_plan_file w → healthy_plan_file w1)
    ∧ plan_file w2 = plan_file w1
    ∧ (∀ l, get_log l w2 = get_log l w1)
    ∧ ticks w2 = ticks w1.
Proof.
  eexists _, _. split.
  { unfold cmd_init. rewrite cmd_bind_unfold, ensure_state_spec.
    reflexivity. }
  split.
  { unfold cmd_init. rewrite cmd_bind_unfold, ensure_state_spec.
    reflexivity. }
  cbn [plan_file after_ensure ticks].
  split. { by intros doc ->. }
  split. { intros ->. split; [done|apply default_plan_well_formed]. }
  split. { by intros []. }
  split.
  { intros (doc & Hfile & Hwf & Htasks)%healthy_after_ensure.
    right. by exists doc. }
  split; [done|]. split; [by intros []|done].
Qed.
